(** * Faster R-CNN orchestrator ([frcnn/network.py]): anchor grid, forward
    pass bundle and weighted loss, as a shallow embedding.

    Conventions of the embedding.
    - Integer tensors (shifts, anchors) are [int32]: nested lists of [Z],
      one list level per axis, row-major, whose products and sums wrap
      around modulo 2^32 ([wrap32]).
    - The reference anchors are a float64 array: boxes with coordinates in
      [Q].  The sum with the shifts converts them to [int32] first
      ([astype_int32], truncation toward zero).
    - Float tensors whose contents the orchestrator never inspects (image,
      feature map, ground truth) are a shape with flat data.
    - Loss scalars are the rational values ([Q]) of float tensors; the
      weights [1.0] and [2.0] are the source's literals.  The sum of a
      collection, [tf.add_n], is TensorFlow's float sum: it is a
      parameter, with no law assumed of it.
    - Python exceptions are the [Raise] branch of [result].
    - The TensorFlow graph collections that [loss] writes and reads
      (losses, regularization losses, summaries) are an explicit [graph]
      state threaded through [loss]. *)

From Stdlib Require Import ZArith QArith Qround Lia.
From stdpp Require Import base option list strings gmap.

#[local] Set Warnings "-register-all".

(** ** Exceptions and the error monad *)

Inductive exception :=
| ValueError (msg : string)
| KeyError (key : string)
| TypeError (msg : string)
| AttributeError (attr : string).

Inductive result (A : Type) :=
| Ok (a : A)
| Raise (e : exception).
Arguments Ok {A} a.
Arguments Raise {A} e.

#[global] Instance result_ret : MRet result := λ A a, Ok a.
#[global] Instance result_bind : MBind result := λ A B f m,
  match m with
  | Ok a => f a
  | Raise e => Raise e
  end.
#[global] Instance result_fmap : FMap result := λ A B f m,
  match m with
  | Ok a => Ok (f a)
  | Raise e => Raise e
  end.

Definition is_Ok {A} (m : result A) : Prop := ∃ a, m = Ok a.

(** ** Tensors *)

(** A float tensor: static shape and row-major contents. *)
Record tensor := Tensor { tshape : list nat; tdata : list Q }.

(** [tf.shape(t)]: the shape as a 1-D integer tensor. *)
Definition tf_shape (t : tensor) : list nat := tshape t.

(** Python slice [v[lo:hi]] on a 1-D tensor (bounds are clamped). *)
Definition slice {A} (lo hi : nat) (v : list A) : list A :=
  take (hi - lo) (drop lo v).

(** [v[i]] on a 1-D tensor of known length: a strided slice, which the
    graph refuses with [ValueError] when the index is out of range. *)
Definition getitem {A} (v : list A) (i : nat) : result A :=
  match v !! i with
  | Some a => Ok a
  | None => Raise (ValueError "slice index out of bounds")
  end.

(** [int32]: the values, and the reduction of an integer to them by
    wrap-around. *)
Definition int32_min : Z := -2147483648.
Definition int32_max : Z := 2147483647.

Definition in_int32 (z : Z) : Prop := (int32_min ≤ z ≤ int32_max)%Z.

Definition wrap32 (z : Z) : Z :=
  ((z + 2147483648) mod 4294967296 - 2147483648)%Z.

(** Sum and product of two [int32] values. *)
Definition int32_add (a b : Z) : Z := wrap32 (a + b).
Definition int32_mul (a b : Z) : Z := wrap32 (a * b).

(** Truncation toward zero. *)
Definition Qtruncate (q : Q) : Z := (Qnum q ÷ Z.pos (Qden q))%Z.

(** Conversion of a float64 value to [int32], as numpy's [astype] does
    it: truncation toward zero.  For a value outside [int32] numpy leaves
    the result to the machine; the value of the x86-64 conversion is
    taken, -2^31. *)
Definition astype_int32 (q : Q) : Z :=
  let z := Qtruncate q in
  if decide (int32_min ≤ z ≤ int32_max)%Z then z else int32_min.

(** [tf.range(n)]. *)
Definition tf_range (n : nat) : list Z := Z.of_nat <$> seq 0 n.

(** [t * k] for a 1-D [int32] tensor and a Python integer: the product
    is taken in [int32]. *)
Definition tf_mul (t : list Z) (k : Z) : list Z :=
  (λ v, int32_mul v k) <$> t.

(** Modelled from the spec: [meshgrid] of [utils/ops.py] is imported by
    [network.py] but is not among the sources.  The spec has the grid as
    the product (0, S, ..., (W-1)S) x (0, S, ..., (H-1)S) with one position
    per cell of the H x W map; the two results have shape
    [(len y, len x)], the first repeating [x] along the rows, the second
    repeating each [y] value along its row. *)
Definition meshgrid (x y : list Z) : list (list Z) * list (list Z) :=
  ((λ _, x) <$> y, (λ yi, (λ _, yi) <$> x) <$> y).

(** Contents of a rank-2 and a rank-3 tensor in row-major order. *)
Definition flat2 {A} (t : list (list A)) : list A := concat t.
Definition flat3 {A} (t : list (list (list A))) : list A := concat (concat t).

(** [reshape] to shape [(n, m)] from the flat contents: the element count
    must agree. *)
Definition reshape2 {A} (flat : list A) (n m : nat)
  : result (list (list A)) :=
  if decide (length flat = n * m)
  then Ok (reshape (replicate n m) flat)
  else Raise (ValueError "cannot reshape: element count differs").

(** [reshape] to shape [(1, n, m)]. *)
Definition reshape_1 {A} (flat : list A) (n m : nat)
  : result (list (list (list A))) :=
  r ← reshape2 flat n m; mret [r].

(** [tf.stack(ts, axis=0)] of 1-D tensors: all of one length. *)
Definition tf_stack (ts : list (list Z)) : result (list (list Z)) :=
  if decide (Forall (λ t, length t = length (hd [] ts)) ts)
  then Ok ts
  else Raise (ValueError "stack: shapes differ").

(** Exchange of the two outer axes: [tf.transpose] of a rank-2 tensor, and
    [tf.transpose(t, (1, 0, 2))] of a rank-3 tensor (at [A := list Z]). *)
Definition tf_transpose {A} `{Inhabited A} (t : list (list A))
  : list (list A) :=
  (λ j, (λ row, row !!! j) <$> t) <$> seq 0 (length (hd [] t)).

(** One axis of a broadcasting binary operation: an axis of length 1 is
    stretched, equal lengths go pointwise, anything else is an error. *)
Definition broadcast {A B C} (f : A → B → result C)
    (xs : list A) (ys : list B) : result (list C) :=
  match xs, ys with
  | [x], _ => mapM (f x) ys
  | _, [y] => mapM (λ x, f x y) xs
  | _, _ =>
      if decide (length xs = length ys)
      then mapM (λ xy, f xy.1 xy.2) (zip xs ys)
      else Raise (ValueError "operands could not be broadcast together")
  end.

(** A rank-3 float64 array as the [int32] tensor that an operation with
    an [int32] tensor makes of it. *)
Definition convert_to_int32 (t : list (list (list Q)))
  : list (list (list Z)) :=
  (λ m : list (list Q), (λ row : list Q, astype_int32 <$> row) <$> m) <$> t.

(** [a + b] on rank-3 [int32] tensors. *)
Definition add3 : list (list (list Z)) → list (list (list Z))
    → result (list (list (list Z))) :=
  broadcast (broadcast (broadcast (λ a b, Ok (int32_add a b)))).

(** ** Configuration and the orchestrator object *)

Record config := Config {
  ANCHOR_BASE_SIZE : Z;
  ANCHOR_SCALES : list Q;
  ANCHOR_RATIOS : list Q;
  ANCHOR_STRIDE : Z;
  PRETRAINED_TRAINABLE : bool
}.

(** A box [(x1, y1, x2, y2)] with float64 coordinates; an [(n, 4)] array
    of boxes is a list of them, and [ndarray] gives its rows. *)
Record box := Box { x1 : Q; y1 : Q; x2 : Q; y2 : Q }.

Definition box_row (b : box) : list Q := [x1 b; y1 b; x2 b; y2 b].
Definition ndarray (bs : list box) : list (list Q) := box_row <$> bs.

(** The classes of [.pretrained]. *)
Inductive pretrained_class := VGG | ResNetV2.

Definition PRETRAINED_MODULES : gmap string pretrained_class :=
  {[ "vgg" := VGG; "resnet" := ResNetV2; "resnetv2" := ResNetV2 ]}.

(** [d[k]] on a dict used as a map. *)
Definition getkey {V} (d : gmap string V) (k : string) : result V :=
  match d !! k with
  | Some v => Ok v
  | None => Raise (KeyError k)
  end.

(** A loss dict is iterated with [.items()], so it is kept as its item
    list, in insertion order. *)
Fixpoint dict_get {V} (d : list (string * V)) (k : string) : option V :=
  match d with
  | [] => None
  | (k', v) :: d' => if decide (k' = k) then Some v else dict_get d' k
  end.

Definition getitem_str {V} (d : list (string * V)) (k : string) : result V :=
  match dict_get d k with
  | Some v => Ok v
  | None => Raise (KeyError k)
  end.

(** [d[k] = v]: replaces in place, or appends a new key. *)
Fixpoint dict_set {V} (d : list (string * V)) (k : string) (v : V)
  : list (string * V) :=
  match d with
  | [] => [(k, v)]
  | (k', v') :: d' =>
      if decide (k' = k) then (k, v) :: d' else (k', v') :: dict_set d' k v
  end.

(** The sub-modules are determined by their constructor arguments. *)
Record Pretrained := { pretrained_cls : pretrained_class; trainable : bool }.
Record RPN := { rpn_num_anchors : nat; rpn_debug : bool }.
Record ROIPoolingLayer := { roi_debug : bool }.
Record RCNN := { rcnn_num_classes : option nat; rcnn_debug : bool }.

Record FasterRCNN := {
  module_name : string;
  _cfg : config;
  _num_classes : option nat;
  _with_rcnn : bool;
  _debug : bool;
  _anchor_base_size : Z;
  _anchor_scales : list Q;
  _anchor_ratios : list Q;
  _anchor_stride : Z;
  _anchor_reference : list box;
  _num_anchors : nat;
  _rpn_cls_loss_weight : Q;
  _rpn_reg_loss_weight : Q;
  _rcnn_cls_loss_weight : Q;
  _rcnn_reg_loss_weight : Q;
  _pretrained_class : pretrained_class;
  _pretrained : Pretrained;
  _rpn : RPN;
  _roi_pool : option ROIPoolingLayer;
  _rcnn : option RCNN
}.

(** ** Anchor grid *)

(** Lines 178-190 of [_generate_anchors]: the [(H x W, 4)] tensor of
    shifts for a grid of the given height and width. *)
Definition anchor_shifts (stride : Z) (grid_height grid_width : nat)
  : result (list (list Z)) :=
  let shift_x := tf_mul (tf_range grid_width) stride in
  let shift_y := tf_mul (tf_range grid_height) stride in
  let '(shift_x, shift_y) := meshgrid shift_x shift_y in
  let shift_x := flat2 shift_x in
  let shift_y := flat2 shift_y in
  shifts ← tf_stack [shift_x; shift_y; shift_x; shift_y];
  mret (tf_transpose shifts).

Definition _generate_anchors (self : FasterRCNN) (feature_map : tensor)
  : result (list (list Z)) :=
  let feature_map_shape := slice 1 3 (tf_shape feature_map) in
  grid_width ← getitem feature_map_shape 1;
  grid_height ← getitem feature_map_shape 0;
  shifts ← anchor_shifts (_anchor_stride self) grid_height grid_width;
  let num_anchors := length (ndarray (_anchor_reference self)) in
  let num_anchor_points := length shifts in
  reference ← reshape_1 (flat2 (ndarray (_anchor_reference self)))
                 num_anchors 4;
  shifts1 ← reshape_1 (flat2 shifts) num_anchor_points 4;
  all_anchors ← add3 (convert_to_int32 reference) (tf_transpose shifts1);
  reshape2 (flat3 all_anchors) (num_anchors * num_anchor_points) 4.

(** ** Construction *)

(** What [__init__] calls outside this file, taken as parameters; each
    call may raise.
    - [AbstractModule_init]: the constructor of the base class
      [snt.AbstractModule], which is given the module name and refuses a
      name that is no valid scope name.
    - [generate_anchors_reference]: [generate_anchors] of
      [utils/generate_anchors.py]; it maps (base size, ratios, scales) to
      an [(A, 4)] array.
    - The constructors of the four sub-modules, by the object they are to
      build. *)
Class AnchorReference := {
  AbstractModule_init : string → result unit;
  generate_anchors_reference : Z → list Q → list Q → result (list box);
  Pretrained_init : Pretrained → result unit;
  RPN_init : RPN → result unit;
  ROIPoolingLayer_init : ROIPoolingLayer → result unit;
  RCNN_init : RCNN → result unit
}.

Definition __init__ `{AR : AnchorReference} (config : config)
    (debug with_rcnn : bool) (num_classes : option nat)
    (pretrained_type : string) (name : string) : result FasterRCNN :=
  _ ← AbstractModule_init name;
  let anchor_base_size := ANCHOR_BASE_SIZE config in
  let anchor_scales := ANCHOR_SCALES config in
  let anchor_ratios := ANCHOR_RATIOS config in
  let anchor_stride := ANCHOR_STRIDE config in
  anchor_reference ←
    generate_anchors_reference anchor_base_size anchor_ratios anchor_scales;
  let num_anchors := length anchor_reference in
  if decide (PRETRAINED_MODULES !! pretrained_type = None) then
    Raise (ValueError "Invalid type for pretrained module")
  else
    pretrained_class ← getkey PRETRAINED_MODULES pretrained_type;
    let pretrained := {| pretrained_cls := pretrained_class;
                         trainable := PRETRAINED_TRAINABLE config |} in
    _ ← Pretrained_init pretrained;
    let rpn := {| rpn_num_anchors := num_anchors; rpn_debug := debug |} in
    _ ← RPN_init rpn;
    heads ←
      (if with_rcnn then
         let roi_pool := {| roi_debug := debug |} in
         _ ← ROIPoolingLayer_init roi_pool;
         let rcnn := {| rcnn_num_classes := num_classes;
                        rcnn_debug := debug |} in
         _ ← RCNN_init rcnn;
         mret (Some roi_pool, Some rcnn)
       else mret (None, None));
    mret {|
      module_name := name;
      _cfg := config;
      _num_classes := num_classes;
      _with_rcnn := with_rcnn;
      _debug := debug;
      _anchor_base_size := anchor_base_size;
      _anchor_scales := anchor_scales;
      _anchor_ratios := anchor_ratios;
      _anchor_stride := anchor_stride;
      _anchor_reference := anchor_reference;
      _num_anchors := num_anchors;
      _rpn_cls_loss_weight := 1.0;
      _rpn_reg_loss_weight := 2.0;
      _rcnn_cls_loss_weight := 1.0;
      _rcnn_reg_loss_weight := 2.0;
      _pretrained_class := pretrained_class;
      _pretrained := pretrained;
      _rpn := rpn;
      _roi_pool := heads.1;
      _rcnn := heads.2
    |}.

(** ** Forward pass *)

(** The values held by the prediction bundle. *)
Inductive pyval :=
| VTensor (t : tensor)
| VShape (s : list nat)
| VAnchors (a : list (list Z))
| VLosses (d : list (string * Q))
| VDict (d : gmap string pyval).

(** The stages the orchestrator drives, by their call signatures, and
    TensorFlow's [add_n], by which [loss] has a collection summed.  Each
    may raise.  Nothing is assumed of [add_n]: rounding, the order of the
    additions and the check that all inputs have one dtype are
    TensorFlow's. *)
Class Stages := {
  (* [self._pretrained(image, is_training=...)] *)
  pretrained_call : Pretrained → tensor → bool → result (gmap string pyval);
  (* [self._rpn(feature_map, gt_boxes, image_shape, all_anchors, is_training=...)] *)
  rpn_call : RPN → tensor → tensor → list nat → list (list Z) → bool
             → result (gmap string pyval);
  (* [self._roi_pool(proposals, feature_map, image_shape)] *)
  roi_pool_call : ROIPoolingLayer → pyval → tensor → list nat
                  → result (gmap string pyval);
  (* [self._rcnn(roi_pool, proposals, gt_boxes, image_shape)] *)
  rcnn_call : RCNN → pyval → pyval → tensor → list nat
              → result (gmap string pyval);
  (* [self._rpn.loss(rpn_prediction)] *)
  rpn_loss : RPN → pyval → result (list (string * Q));
  (* [self._rcnn.loss(classification_prediction)] *)
  rcnn_loss : RCNN → pyval → result (list (string * Q));
  (* [tf.add_n(inputs)] *)
  add_n : list Q → result Q
}.

Definition as_tensor (v : pyval) : result tensor :=
  match v with
  | VTensor t => Ok t
  | _ => Raise (TypeError "expected a tensor")
  end.

(** [self.attr] for an attribute that [__init__] sets only with the
    classification head. *)
Definition getattr {A} (attr : string) (o : option A) : result A :=
  match o with
  | Some a => Ok a
  | None => Raise (AttributeError attr)
  end.

(** [_build]; the summaries written by [variable_summaries] and the graph
    nodes created by the stages are outside the model. *)
Definition _build `{ST : Stages} (self : FasterRCNN) (image gt_boxes : tensor)
    (is_training : bool) : result (gmap string pyval) :=
  let image_shape := slice 1 3 (tf_shape image) in
  pretrained_dict ← pretrained_call (_pretrained self) image is_training;
  net ← getkey pretrained_dict "net";
  pretrained_feature_map ← as_tensor net;
  all_anchors ← _generate_anchors self pretrained_feature_map;
  rpn_prediction ← rpn_call (_rpn self) pretrained_feature_map gt_boxes
                      image_shape all_anchors is_training;
  let prediction_dict : gmap string pyval :=
    {[ "rpn_prediction" := VDict rpn_prediction ]} in
  let prediction_dict :=
    if _debug self then
      <["pretrained_dict" := VDict pretrained_dict]>
        (<["gt_boxes" := VTensor gt_boxes]>
          (<["all_anchors" := VAnchors all_anchors]>
            (<["image_shape" := VShape image_shape]>
              (<["image" := VTensor image]> prediction_dict))))
    else prediction_dict in
  if _with_rcnn self then
    roi_pool ← getattr "_roi_pool" (_roi_pool self);
    proposals ← getkey rpn_prediction "proposals";
    roi_prediction ← roi_pool_call roi_pool proposals pretrained_feature_map
                        image_shape;
    rcnn ← getattr "_rcnn" (_rcnn self);
    pooled ← getkey roi_prediction "roi_pool";
    proposals ← getkey rpn_prediction "proposals";
    classification_prediction ← rcnn_call rcnn pooled proposals gt_boxes
                                   image_shape;
    let prediction_dict :=
      <["classification_prediction" := VDict classification_prediction]>
        prediction_dict in
    let prediction_dict :=
      if _debug self
      then <["roi_prediction" := VDict roi_prediction]> prediction_dict
      else prediction_dict in
    mret prediction_dict
  else
    mret prediction_dict.

(** ** Loss *)

(** What [loss] reads and writes besides its result: the graph's loss
    collections and summaries, and the bundle object it is handed. *)
Record state := State {
  losses : list Q;
  regularization_losses : list Q;
  summaries : list (string * string * Q);
  bundle : gmap string pyval
}.

(** State with exceptions; the state reached when an exception is raised
    is kept. *)
Definition stateful (A : Type) : Type := state → result A * state.

#[global] Instance stateful_ret : MRet stateful := λ A a s, (Ok a, s).
#[global] Instance stateful_bind : MBind stateful := λ A B f m s,
  match m s with
  | (Ok a, s') => f a s'
  | (Raise e, s') => (Raise e, s')
  end.

Definition lift {A} (r : result A) : stateful A := λ s, (r, s).

(** [prediction_dict[k]] and [prediction_dict[k] = v]. *)
Definition bundle_get (k : string) : stateful pyval :=
  λ s, (getkey (bundle s) k, s).

Definition bundle_set (k : string) (v : pyval) : stateful unit :=
  λ s, (Ok (), State (losses s) (regularization_losses s) (summaries s)
                 (<[k := v]> (bundle s))).

(** [tf.summary.scalar(name, tensor, collections=[c])]. *)
Definition summary_scalar (name : string) (t : Q) (c : string)
  : stateful unit :=
  λ s, (Ok (), State (losses s) (regularization_losses s)
                 (summaries s ++ [(c, name, t)]) (bundle s)).

(** [tf.losses.add_loss(t)]. *)
Definition add_loss (t : Q) : stateful unit :=
  λ s, (Ok (), State (losses s ++ [t]) (regularization_losses s)
                 (summaries s) (bundle s)).

(** [tf.losses.get_regularization_loss()]: the sum of the regularization
    losses, and zero when there is none. *)
Definition regularization_total `{ST : Stages} (ts : list Q) : result Q :=
  match ts with
  | [] => Ok 0.0%Q
  | _ => add_n ts
  end.

Definition get_regularization_loss `{ST : Stages} : stateful Q :=
  λ s, (regularization_total (regularization_losses s), s).

(** [tf.losses.get_total_loss(add_regularization_losses=...)]. *)
Definition get_total_loss `{ST : Stages} (add_regularization_losses : bool)
  : stateful Q :=
  λ s, (add_n (losses s ++ if add_regularization_losses
                           then regularization_losses s else []), s).

(** Monadic iteration, in list order. *)
Fixpoint for_each {A} (l : list A) (body : A → stateful unit)
  : stateful unit :=
  match l with
  | [] => mret ()
  | x :: l' => _ ← body x; for_each l' body
  end.

Definition loss `{ST : Stages} (self : FasterRCNN) : stateful Q :=
  rpn_prediction ← bundle_get "rpn_prediction";
  rpn_loss_dict ← lift (rpn_loss (_rpn self) rpn_prediction);
  rpn_cls_loss ← lift (getitem_str rpn_loss_dict "rpn_cls_loss");
  let rpn_loss_dict :=
    dict_set rpn_loss_dict "rpn_cls_loss"
      (rpn_cls_loss * _rpn_cls_loss_weight self)%Q in
  rpn_reg_loss ← lift (getitem_str rpn_loss_dict "rpn_reg_loss");
  let rpn_loss_dict :=
    dict_set rpn_loss_dict "rpn_reg_loss"
      (rpn_reg_loss * _rpn_reg_loss_weight self)%Q in
  _ ← bundle_set "rpn_loss_dict" (VLosses rpn_loss_dict);
  rcnn_loss_dict ←
    (if _with_rcnn self then
       rcnn ← lift (getattr "_rcnn" (_rcnn self));
       classification_prediction ← bundle_get "classification_prediction";
       rcnn_loss_dict ← lift (rcnn_loss rcnn classification_prediction);
       rcnn_cls_loss ← lift (getitem_str rcnn_loss_dict "rcnn_cls_loss");
       let rcnn_loss_dict :=
         dict_set rcnn_loss_dict "rcnn_cls_loss"
           (rcnn_cls_loss * _rcnn_cls_loss_weight self)%Q in
       rcnn_reg_loss ← lift (getitem_str rcnn_loss_dict "rcnn_reg_loss");
       let rcnn_loss_dict :=
         dict_set rcnn_loss_dict "rcnn_reg_loss"
           (rcnn_reg_loss * _rcnn_reg_loss_weight self)%Q in
       _ ← bundle_set "rcnn_loss_dict" (VLosses rcnn_loss_dict);
       mret rcnn_loss_dict
     else mret []);
  _ ← for_each (rpn_loss_dict ++ rcnn_loss_dict) (λ item,
        _ ← summary_scalar item.1 item.2 "Losses";
        add_loss item.2);
  regularization_loss ← get_regularization_loss;
  no_reg_loss ← get_total_loss false;
  total_loss ← get_total_loss true;
  _ ← summary_scalar "total_loss" total_loss "Losses";
  _ ← summary_scalar "no_reg_loss" no_reg_loss "Losses";
  _ ← summary_scalar "regularization_loss" regularization_loss "Losses";
  mret total_loss.

(** ** Summary *)

(** A merged summary is the list of the scalar summaries it merges. *)
Definition merged : Type := list (string * string * Q).

(** [tf.summary.merge_all(key=...)]: the merge of the summaries collected
    under [key], and [None] when that collection is empty. *)
Definition merge_all (key : string) : stateful (option merged) :=
  λ s, (Ok (match filter (λ e, e.1.1 = key) (summaries s) with
            | [] => None
            | l => Some l
            end), s).

(** [tf.summary.merge(inputs)]: every input has to be a summary; a [None]
    among them is refused when the merge node is built. *)
Definition merge (inputs : list (option merged)) : stateful merged :=
  lift (match mapM id inputs with
        | Some ms => Ok (concat ms)
        | None => Raise (TypeError "inputs of MergeSummary are invalid")
        end).

(** The [summary] property. *)
Definition summary (self : FasterRCNN) : stateful merged :=
  on_losses ← merge_all "Losses";
  on_rpn ← merge_all "RPN";
  let inputs := [on_losses; on_rpn] in
  inputs ← (if _with_rcnn self then
              on_rcnn ← merge_all "RCNN";
              mret (inputs ++ [on_rcnn])
            else mret inputs);
  merge inputs.

(** ** Vocabulary of the statements *)

(** The grid positions [(shift_x, shift_y)], rows of the grid first. *)
Definition grid_points (stride : Z) (H W : nat) : list (Z * Z) :=
  concat ((λ sy, (λ sx, (sx, sy)) <$> tf_mul (tf_range W) stride)
            <$> tf_mul (tf_range H) stride).

Definition shift_row (p : Z * Z) : list Z := [p.1; p.2; p.1; p.2].

(** The row of a reference anchor as an [int32] tensor holds it. *)
Definition int32_row (b : box) : list Z := astype_int32 <$> box_row b.

(** A reference anchor moved by [(shift_x, shift_y, shift_x, shift_y)],
    in [int32]. *)
Definition translate (b : box) (p : Z * Z) : list Z :=
  [int32_add (astype_int32 (x1 b)) p.1; int32_add (astype_int32 (y1 b)) p.2;
   int32_add (astype_int32 (x2 b)) p.1; int32_add (astype_int32 (y2 b)) p.2].

Definition grid_anchors (refs : list box) (pts : list (Z * Z))
  : list (list Z) :=
  concat ((λ p, (λ r, translate r p) <$> refs) <$> pts).

(** The rows that the sum of [_generate_anchors] makes of the reference
    anchors and a tensor of shifts: for each row of shifts in turn, every
    reference anchor moved by it. *)
Definition shifted (refs : list box) (shifts : list (list Z))
  : list (list Z) :=
  concat ((λ s, (λ r, zip_with int32_add (int32_row r) s) <$> refs)
            <$> shifts).

(** A coordinate that is an integer; a reference anchor whose coordinates
    are [int32] values once truncated; its row of truncated coordinates. *)
Definition integral (q : Q) : Prop := inject_Z (Qtruncate q) == q.

Definition box_in_int32 (b : box) : Prop :=
  Forall (λ q, in_int32 (Qtruncate q)) (box_row b).

Definition truncated (b : box) : list Z := Qtruncate <$> box_row b.

(** The translation of a reference anchor by a row of shifts as a sum of
    numbers, without bounds; and equality of rows of numbers. *)
Definition plain_translate (b : box) (s : list Z) : list Q :=
  zip_with Qplus (box_row b) (inject_Z <$> s).

Definition same_numbers (row : list Z) (v : list Q) : Prop :=
  Forall2 (λ z q, inject_Z z == q) row v.

(** No shifted coordinate of the grid leaves [int32]. *)
Definition no_overflow (refs : list box) (stride : Z) (H W : nat) : Prop :=
  ∀ (r : box) (i j : nat), r ∈ refs → i < W → j < H →
    Forall in_int32
      (zip_with Z.add (truncated r)
         (shift_row (Z.of_nat i * stride, Z.of_nat j * stride)%Z)).

(** Column [k] of a rank-2 tensor, and the least and greatest entry of a
    1-D tensor. *)
Definition column (k : nat) (t : list (list Z)) : list Z :=
  (λ row, row !!! k) <$> t.

Definition minimum (v : list Z) : option Z :=
  match v with
  | [] => None
  | x :: v' => Some (foldr Z.min x v')
  end.

Definition maximum (v : list Z) : option Z :=
  match v with
  | [] => None
  | x :: v' => Some (foldr Z.max x v')
  end.

(** The sum of a list of scalars, and the summaries of one collection. *)
Definition Qsum (ts : list Q) : Q := foldr Qplus 0%Q ts.

(** Scalars that are integers whose magnitudes add up to 2^24 at most:
    they and all their partial sums, in any order, are values of float32.
    A summation is exact on them when whatever it returns for them is
    their sum. *)
Definition small_integers (ts : list Q) : Prop :=
  ∃ zs : list Z,
    Forall2 (λ t z, t == inject_Z z) ts zs ∧
    (foldr (λ z acc, Z.abs z + acc) 0 zs ≤ 16777216)%Z.

Definition exact_on_small_integers (sum : list Q → result Q) : Prop :=
  ∀ (ts : list Q) (t : Q), small_integers ts → sum ts = Ok t → t == Qsum ts.

Definition collected (key : string) (s : state) : merged :=
  filter (λ e, e.1.1 = key) (summaries s).

(** The summary [loss] writes for an item of a loss dict. *)
Definition loss_summary (item : string * Q) : string * string * Q :=
  ("Losses", item.1, item.2).

(** The keys [_build] writes only in debug mode, and only when the
    classification head runs. *)
Definition debug_keys : list string :=
  ["image"; "image_shape"; "all_anchors"; "gt_boxes"; "pretrained_dict"].

Definition classification_keys : list string :=
  ["classification_prediction"; "roi_prediction"].

(** ** Vocabulary of the further properties *)

(** The bundle of a returning [_build] from the bundle so far. *)
Definition with_debug (self : FasterRCNN) (image gt_boxes : tensor)
    (pretrained_dict : gmap string pyval) (all_anchors : list (list Z))
    (base : gmap string pyval) : gmap string pyval :=
  if _debug self then
    <["pretrained_dict" := VDict pretrained_dict]>
      (<["gt_boxes" := VTensor gt_boxes]>
        (<["all_anchors" := VAnchors all_anchors]>
          (<["image_shape" := VShape (slice 1 3 (tf_shape image))]>
            (<["image" := VTensor image]> base))))
  else base.

Definition with_classification (self : FasterRCNN)
    (classification_prediction roi_prediction : gmap string pyval)
    (d : gmap string pyval) : gmap string pyval :=
  let d := <["classification_prediction" := VDict classification_prediction]> d in
  if _debug self then <["roi_prediction" := VDict roi_prediction]> d else d.

(** An exception that comes out of a stage. *)
Definition raised_by_stage `{ST : Stages} (e : exception) : Prop :=
  (∃ m image t, pretrained_call m image t = Raise e) ∨
  (∃ m fm gt shape anchors t, rpn_call m fm gt shape anchors t = Raise e) ∨
  (∃ m proposals fm shape, roi_pool_call m proposals fm shape = Raise e) ∨
  (∃ m pooled proposals gt shape,
     rcnn_call m pooled proposals gt shape = Raise e) ∨
  (∃ m prediction, rpn_loss m prediction = Raise e) ∨
  (∃ m prediction, rcnn_loss m prediction = Raise e).

(** The state after the first write of [loss]. *)
Definition after_rpn (s : state) (rpn_loss_dict : list (string * Q))
  : state :=
  State (losses s) (regularization_losses s) (summaries s)
    (<["rpn_loss_dict" := VLosses rpn_loss_dict]> (bundle s)).

Definition weighted (d : list (string * Q)) (k_cls k_reg : string)
    (cls reg w_cls w_reg : Q) : list (string * Q) :=
  dict_set (dict_set d k_cls (cls * w_cls)%Q) k_reg (reg * w_reg)%Q.

(** The state after the loop of [loss] over the items of the loss dicts,
    and lines 162-170 of [loss], which follow the loop. *)
Definition after_loop (s : state) (items : list (string * Q))
    (bundle' : gmap string pyval) : state :=
  State (losses s ++ (snd <$> items)) (regularization_losses s)
    (summaries s ++ (loss_summary <$> items)) bundle'.

Definition loss_totals `{ST : Stages} : stateful Q :=
  regularization_loss ← get_regularization_loss;
  no_reg_loss ← get_total_loss false;
  total_loss ← get_total_loss true;
  _ ← summary_scalar "total_loss" total_loss "Losses";
  _ ← summary_scalar "no_reg_loss" no_reg_loss "Losses";
  _ ← summary_scalar "regularization_loss" regularization_loss "Losses";
  mret total_loss.

(** The three summaries [loss] writes last. *)
Definition totals_logged (total no_reg_loss regularization_loss : Q)
  : list (string * string * Q) :=
  [("Losses", "total_loss", total);
   ("Losses", "no_reg_loss", no_reg_loss);
   ("Losses", "regularization_loss", regularization_loss)].

(** A collection as [merge_all] returns it. *)
Definition nonempty (m : merged) : option merged :=
  match m with
  | [] => None
  | _ => Some m
  end.

(** ** A concrete instance, for evaluation

    Stand-ins for the collaborators, used only to run the definitions on
    concrete inputs: a base class that accepts the names TensorFlow
    accepts for a scope, one square reference anchor per scale,
    sub-modules whose constructors return, a backbone with a 2 x 3
    feature map, stages that return fixed bundles with unit losses, and a
    sum without rounding. *)
Module Sample.

(** Names matching [[A-Za-z0-9.][A-Za-z0-9_.\-/]*]. *)
Definition leading_char (c : Ascii.ascii) : bool :=
  let n := Ascii.nat_of_ascii c in
  (Nat.leb 48 n && Nat.leb n 57) || (Nat.leb 65 n && Nat.leb n 90)
  || (Nat.leb 97 n && Nat.leb n 122) || Nat.eqb n 46.

Definition name_char (c : Ascii.ascii) : bool :=
  let n := Ascii.nat_of_ascii c in
  leading_char c || Nat.eqb n 95 || Nat.eqb n 45 || Nat.eqb n 47.

Fixpoint all_chars (p : Ascii.ascii → bool) (s : string) : bool :=
  match s with
  | EmptyString => true
  | String c s' => p c && all_chars p s'
  end.

Definition valid_scope_name (name : string) : bool :=
  match name with
  | EmptyString => false
  | String c rest => leading_char c && all_chars name_char rest
  end.

Definition square (base : Z) (scale : Q) : box :=
    let half := (base * Qfloor scale / 2)%Z in
    Box (inject_Z (- half)) (inject_Z (- half))
      (inject_Z (half - 1)) (inject_Z (half - 1)).

#[export] Instance reference : AnchorReference := {|
    AbstractModule_init name :=
      if valid_scope_name name then Ok ()
      else Raise (ValueError "not a valid scope name");
    generate_anchors_reference base ratios scales :=
      Ok (square base <$> scales);
    Pretrained_init m := Ok ();
    RPN_init m := Ok ();
    ROIPoolingLayer_init m := Ok ();
    RCNN_init m := Ok ()
  |}.

(** The sum of a non-empty list, without rounding. *)
Definition rational_sum (ts : list Q) : result Q :=
  match ts with
  | [] => Raise (ValueError "inputs must be a list of at least one Tensor")
  | t :: ts' => Ok (foldl Qplus t ts')
  end.

#[export] Instance stages : Stages := {|
    pretrained_call m image is_training :=
      Ok {[ "net" := VTensor (Tensor [1; 2; 3; 8] []) ]};
    rpn_call m feature_map gt_boxes image_shape all_anchors is_training :=
      Ok {[ "proposals" := VAnchors (take 2 all_anchors) ]};
    roi_pool_call m proposals feature_map image_shape :=
      Ok {[ "roi_pool" := VTensor (Tensor [2; 7; 7; 8] []) ]};
    rcnn_call m pooled proposals gt_boxes image_shape :=
      Ok {[ "cls_prob" := VTensor (Tensor [2; 21] []) ]};
    rpn_loss m prediction :=
      Ok [("rpn_cls_loss", 1.0%Q); ("rpn_reg_loss", 1.0%Q)];
    rcnn_loss m prediction :=
      Ok [("rcnn_cls_loss", 1.0%Q); ("rcnn_reg_loss", 1.0%Q)];
    add_n := rational_sum
  |}.

Definition cfg : config := {|
    ANCHOR_BASE_SIZE := 16;
    ANCHOR_SCALES := [1.0%Q; 2.0%Q];
    ANCHOR_RATIOS := [1.0%Q];
    ANCHOR_STRIDE := 16;
    PRETRAINED_TRAINABLE := false
  |}.

Definition image : tensor := Tensor [1; 32; 48; 3] [].
Definition gt_boxes : tensor := Tensor [1; 4] [].
Definition feature_map : tensor := Tensor [1; 2; 3; 8] [].

  (** The object [FasterRCNN(cfg, debug, with_rcnn, 20, 'vgg')]. *)
Definition net (debug with_rcnn : bool) : FasterRCNN := {|
    module_name := "fasterrcnn";
    _cfg := cfg;
    _num_classes := Some 20;
    _with_rcnn := with_rcnn;
    _debug := debug;
    _anchor_base_size := 16;
    _anchor_scales := [1.0%Q; 2.0%Q];
    _anchor_ratios := [1.0%Q];
    _anchor_stride := 16;
    _anchor_reference := [Box (-8) (-8) 7 7; Box (-16) (-16) 15 15];
    _num_anchors := 2;
    _rpn_cls_loss_weight := 1.0;
    _rpn_reg_loss_weight := 2.0;
    _rcnn_cls_loss_weight := 1.0;
    _rcnn_reg_loss_weight := 2.0;
    _pretrained_class := VGG;
    _pretrained := {| pretrained_cls := VGG; trainable := false |};
    _rpn := {| rpn_num_anchors := 2; rpn_debug := debug |};
    _roi_pool := if with_rcnn then Some {| roi_debug := debug |} else None;
    _rcnn :=
      if with_rcnn
      then Some {| rcnn_num_classes := Some 20; rcnn_debug := debug |}
      else None
  |}.

  (** The bundle [_build] returns for [net false true], and its parts. *)
Definition rpn_prediction : pyval :=
    VDict {[ "proposals" :=
               VAnchors [[-8; -8; 7; 7]; [-16; -16; 15; 15]]%Z ]}.

Definition classification_prediction : pyval :=
    VDict {[ "cls_prob" := VTensor (Tensor [2; 21] []) ]}.

Definition prediction_dict : gmap string pyval :=
    <["classification_prediction" := classification_prediction]>
      {[ "rpn_prediction" := rpn_prediction ]}.

  (** A fresh graph with the bundle [b]. *)
Definition state0 (b : gmap string pyval) : state :=
    {| losses := []; regularization_losses := []; summaries := [];
       bundle := b |}.

End Sample.

(** Variants of the sample: an RPN loss with a third term, a backbone
    whose output has no ['net'], a summation that refuses its inputs (as
    [add_n] does for tensors of different dtypes), a stride near the end
    of [int32], a negative stride, and a reference anchor with fractional
    coordinates. *)
Module Variant.

#[export] Instance aux_stages : Stages := {|
  pretrained_call := pretrained_call (Stages := Sample.stages);
  rpn_call := rpn_call (Stages := Sample.stages);
  roi_pool_call := roi_pool_call (Stages := Sample.stages);
  rcnn_call := rcnn_call (Stages := Sample.stages);
  rpn_loss m prediction :=
    Ok [("rpn_cls_loss", 1.0%Q); ("rpn_aux_loss", 0.5%Q);
        ("rpn_reg_loss", 1.0%Q)];
  rcnn_loss := rcnn_loss (Stages := Sample.stages);
  add_n := add_n (Stages := Sample.stages)
|}.

#[export] Instance bare_stages : Stages := {|
  pretrained_call m image is_training := Ok ∅;
  rpn_call := rpn_call (Stages := Sample.stages);
  roi_pool_call := roi_pool_call (Stages := Sample.stages);
  rcnn_call := rcnn_call (Stages := Sample.stages);
  rpn_loss := rpn_loss (Stages := Sample.stages);
  rcnn_loss := rcnn_loss (Stages := Sample.stages);
  add_n := add_n (Stages := Sample.stages)
|}.

#[export] Instance mixed_stages : Stages := {|
  pretrained_call := pretrained_call (Stages := Sample.stages);
  rpn_call := rpn_call (Stages := Sample.stages);
  roi_pool_call := roi_pool_call (Stages := Sample.stages);
  rcnn_call := rcnn_call (Stages := Sample.stages);
  rpn_loss := rpn_loss (Stages := Sample.stages);
  rcnn_loss := rcnn_loss (Stages := Sample.stages);
  add_n ts := Raise (TypeError "inputs of AddN have types that do not match")
|}.

(** The sample orchestrator with another stride and other reference
    anchors. *)
Definition net_with (stride : Z) (refs : list box) : FasterRCNN := {|
  module_name := "fasterrcnn";
  _cfg := Sample.cfg;
  _num_classes := Some 20;
  _with_rcnn := true;
  _debug := false;
  _anchor_base_size := 16;
  _anchor_scales := [1.0%Q; 2.0%Q];
  _anchor_ratios := [1.0%Q];
  _anchor_stride := stride;
  _anchor_reference := refs;
  _num_anchors := length refs;
  _rpn_cls_loss_weight := 1.0;
  _rpn_reg_loss_weight := 2.0;
  _rcnn_cls_loss_weight := 1.0;
  _rcnn_reg_loss_weight := 2.0;
  _pretrained_class := VGG;
  _pretrained := {| pretrained_cls := VGG; trainable := false |};
  _rpn := {| rpn_num_anchors := length refs; rpn_debug := false |};
  _roi_pool := Some {| roi_debug := false |};
  _rcnn := Some {| rcnn_num_classes := Some 20; rcnn_debug := false |}
|}.

(** Stride 2^30 on a grid three cells wide: the third x-shift is 2^31. *)
Definition wide_stride : FasterRCNN :=
  net_with 1073741824 [Box (-8) (-8) 7 7].

Definition negative_stride : FasterRCNN :=
  net_with (-16) [Box (-8) (-8) 7 7].

Definition fractional : FasterRCNN :=
  net_with 16 [Box (-3.5) 2 18.5 13].

(** A graph that already holds summaries of the stages. *)
Definition logged_state (b : gmap string pyval) : state :=
  {| losses := []; regularization_losses := [0.25%Q];
     summaries := [("RPN", "pretrained_feature_map", 0.5%Q);
                   ("RCNN", "cls_score", 0.125%Q)];
     bundle := b |}.

End Variant.

(** Closed equations are settled by evaluating both sides. *)
Ltac vm_refl :=
  lazymatch goal with |- _ = ?y => vm_cast_no_check (eq_refl y) end.

(** ** List facts *)

Section uniform_blocks.
Context {A : Type}.
Implicit Types (rows : list (list A)).

Lemma length_concat_uniform m rows :
    Forall (λ r, length r = m) rows → length (concat rows) = length rows * m.
  Proof.
    induction 1 as [|r rows Hr _ IH]; [done|].
    cbn [concat]. rewrite length_app, IH, Hr. cbn [length]. lia.
  Qed.

Lemma reshape_concat m rows :
    Forall (λ r, length r = m) rows →
    reshape (replicate (length rows) m) (concat rows) = rows.
  Proof.
    induction 1 as [|r rows Hr _ IH]; [done|].
    cbn [concat length replicate reshape].
    rewrite take_app_length', drop_app_length' by done.
    by rewrite IH.
  Qed.

Lemma lookup_concat_uniform m rows p a :
    Forall (λ r, length r = m) rows → a < m →
    concat rows !! (p * m + a) = rows !! p ≫= (.!! a).
  Proof.
    intros Hall Ha. revert p.
    induction Hall as [|r rows Hr _ IH]; intros p; [done|].
    destruct p as [|p]; cbn [concat].
    - rewrite lookup_app_l by lia. done.
    - rewrite lookup_app_r by lia.
      replace (S p * m + a - length r) with (p * m + a) by lia.
      apply IH.
  Qed.

Lemma fmap_concat {B} (f : A → B) rows :
    f <$> concat rows = concat ((λ r : list A, f <$> r) <$> rows).
  Proof.
    induction rows as [|r rows IH]; [done|].
    cbn [concat]. rewrite fmap_app, IH. done.
  Qed.
End uniform_blocks.

Lemma mapM_Ok {A B} (f : A → result B) (g : A → B) (l : list A) :
  (∀ x, x ∈ l → f x = Ok (g x)) → mapM f l = Ok (g <$> l).
Proof.
  induction l as [|x l IH]; intros Hf; [done|].
  cbn [mapM]. rewrite Hf by left.
  rewrite IH by (intros y Hy; apply Hf; by right). done.
Qed.

Lemma fmap_seq_zip_with {A B C} `{Inhabited A, Inhabited B}
    (f : A → B → C) (a : list A) (b : list B) :
  length a = length b →
  (λ j, f (a !!! j) (b !!! j)) <$> seq 0 (length a) = zip_with f a b.
Proof.
  revert b. induction a as [|x a IH]; intros [|y b] Hlen; try done.
  cbn [length seq fmap list_fmap zip_with]. f_equal.
  rewrite <- fmap_S_seq, <- list_fmap_compose.
  rewrite <- IH by (simpl in Hlen; lia). done.
Qed.

Lemma zip_with_concat_blocks {A B C D} (f : A → B → C)
    (g1 : D → list A) (g2 : D → list B) (ys : list D) :
  (∀ y, length (g1 y) = length (g2 y)) →
  zip_with f (concat (g1 <$> ys)) (concat (g2 <$> ys))
  = concat ((λ y, zip_with f (g1 y) (g2 y)) <$> ys).
Proof.
  intros Hlen. induction ys as [|y ys IH]; [done|].
  cbn [fmap list_fmap concat].
  rewrite zip_with_app by apply Hlen. by rewrite <- IH.
Qed.

(** ** [int32] arithmetic *)

Lemma wrap32_id (z : Z) : in_int32 z → wrap32 z = z.
Proof.
  unfold in_int32, int32_min, int32_max, wrap32. intros Hz.
  rewrite Z.mod_small by lia. lia.
Qed.

Lemma wrap32_add_wrap32_r (a b : Z) : wrap32 (a + wrap32 b) = wrap32 (a + b).
Proof.
  unfold wrap32. f_equal.
  replace (a + ((b + 2147483648) mod 4294967296 - 2147483648) + 2147483648)%Z
    with (a + (b + 2147483648) mod 4294967296)%Z by lia.
  rewrite Z.add_mod_idemp_r by lia. f_equal. lia.
Qed.

Lemma int32_add_exact (a b : Z) :
  in_int32 (a + b) → int32_add a (wrap32 b) = (a + b)%Z.
Proof.
  intros Hfit. unfold int32_add.
  by rewrite wrap32_add_wrap32_r, wrap32_id.
Qed.

Lemma astype_int32_truncate (q : Q) :
  in_int32 (Qtruncate q) → astype_int32 q = Qtruncate q.
Proof. intros Hq. unfold astype_int32. by rewrite decide_True. Qed.

Lemma int32_row_truncated (r : box) :
  box_in_int32 r → int32_row r = truncated r.
Proof.
  unfold box_in_int32, int32_row, truncated. intros Hr.
  apply Forall_fmap_ext_1. eapply Forall_impl; [exact Hr|].
  intros q Hq. by apply astype_int32_truncate.
Qed.

Lemma Qtruncate_le (p q : Q) :
  (p <= q)%Q → (Qtruncate p ≤ Qtruncate q)%Z.
Proof.
  destruct p as [a b], q as [c d]. unfold Qle, Qtruncate. cbn. intros Hle.
  rewrite <- (Z.quot_mul_cancel_r a (Z.pos b) (Z.pos d)) by lia.
  rewrite <- (Z.quot_mul_cancel_r c (Z.pos d) (Z.pos b)) by lia.
  rewrite (Z.mul_comm (Z.pos d) (Z.pos b)).
  apply Z.quot_le_mono; lia.
Qed.

(** ** The anchor grid in closed form *)

Lemma length_tf_mul t k : length (tf_mul t k) = length t.
Proof. apply length_fmap. Qed.

Lemma length_tf_range n : length (tf_range n) = n.
Proof. unfold tf_range. by rewrite length_fmap, length_seq. Qed.

Lemma length_grid_points stride H W :
  length (grid_points stride H W) = H * W.
Proof.
  unfold grid_points.
  rewrite (length_concat_uniform W).
  - by rewrite length_fmap, length_tf_mul, length_tf_range.
  - apply Forall_fmap, Forall_forall. intros sy _. cbn.
    by rewrite length_fmap, length_tf_mul, length_tf_range.
Qed.

Lemma tf_stack_shifts (a b : list Z) :
  length a = length b → tf_stack [a; b; a; b] = Ok [a; b; a; b].
Proof.
  intros Hlen. unfold tf_stack.
  rewrite decide_True; [done|].
  cbn [hd]. repeat constructor; done.
Qed.

Lemma anchor_shifts_eq stride H W :
  anchor_shifts stride H W = Ok (shift_row <$> grid_points stride H W).
Proof.
  unfold anchor_shifts, meshgrid, flat2, grid_points.
  set (xs := tf_mul (tf_range W) stride).
  set (ys := tf_mul (tf_range H) stride).
  assert (Hlen : length (concat ((λ _ : Z, xs) <$> ys))
               = length (concat ((λ yi : Z, (λ _ : Z, yi) <$> xs) <$> ys))).
  { rewrite !(length_concat_uniform (length xs)).
    - by rewrite !length_fmap.
    - apply Forall_fmap, Forall_forall. intros y _. cbn. apply length_fmap.
    - apply Forall_fmap, Forall_forall. by intros y _. }
  rewrite tf_stack_shifts by done. cbn [mbind result_bind mret result_ret].
  f_equal. unfold tf_transpose. cbn [hd fmap list_fmap].
  rewrite (fmap_seq_zip_with (λ sx sy, [sx; sy; sx; sy])) by done.
  rewrite (zip_with_concat_blocks _ (λ _, xs) (λ yi, (λ _, yi) <$> xs))
    by (intros y; by rewrite length_fmap).
  rewrite fmap_concat, <- list_fmap_compose. f_equal.
  apply list_fmap_ext. intros _ y _. cbn.
  rewrite zip_with_fmap_r, zip_with_diag, <- list_fmap_compose. done.
Qed.

Lemma reshape2_concat {A} (rows : list (list A)) n m :
  Forall (λ r, length r = m) rows → n = length rows →
  reshape2 (concat rows) n m = Ok rows.
Proof.
  intros Hrows ->. unfold reshape2.
  rewrite decide_True by by apply length_concat_uniform.
  by rewrite reshape_concat.
Qed.

Lemma tf_transpose_singleton {A} `{Inhabited A} (l : list A) :
  tf_transpose [l] = (λ x, [x]) <$> l.
Proof.
  unfold tf_transpose. cbn [hd fmap list_fmap].
  rewrite (fmap_seq_zip_with (λ x _ : A, [x]) l l) by done.
  apply zip_with_diag.
Qed.

Lemma mapM_fmap_Ok {A B C} (f : B → result C) (h : A → B) (g : A → C)
    (l : list A) :
  (∀ x, x ∈ l → f (h x) = Ok (g x)) → mapM f (h <$> l) = Ok (g <$> l).
Proof.
  induction l as [|x l IH]; intros Hf; [done|].
  cbn [fmap list_fmap mapM]. rewrite Hf by left.
  fold (h <$> l).
  rewrite IH by (intros y Hy; apply Hf; by right). done.
Qed.

Lemma broadcast_stretch_r {A B C D} (f : B → C → result D) (h : A → B)
    (g : A → D) (l : list A) (y : C) :
  (∀ x, x ∈ l → f (h x) y = Ok (g x)) →
  broadcast f (h <$> l) [y] = Ok (g <$> l).
Proof.
  intros Hf. destruct l as [|x [|x' l]]; cbn.
  - done.
  - rewrite Hf by left. done.
  - rewrite (Hf x) by left. rewrite (Hf x') by (right; left). cbn.
    fold (h <$> l).
    rewrite (mapM_fmap_Ok _ h g) by (intros z Hz; apply Hf; by do 2 right).
    done.
Qed.

Lemma add_row (r : box) (p : Z * Z) :
  broadcast (λ a b, Ok (int32_add a b)) (int32_row r) (shift_row p)
  = Ok (translate r p).
Proof. reflexivity. Qed.

Lemma translate_zip_with (r : box) (p : Z * Z) :
  translate r p = zip_with int32_add (int32_row r) (shift_row p).
Proof. reflexivity. Qed.

Lemma Forall_length_ndarray refs : Forall (λ r, length r = 4) (ndarray refs).
Proof. apply Forall_fmap, Forall_forall. by intros r _. Qed.

Lemma Forall_length_grid_anchors refs pts :
  Forall (λ r, length r = 4) (grid_anchors refs pts).
Proof.
  apply Forall_concat, Forall_fmap, Forall_forall. intros p _. cbn.
  apply Forall_fmap, Forall_forall. by intros r _.
Qed.

Lemma length_grid_anchors refs pts :
  length (grid_anchors refs pts) = length pts * length refs.
Proof.
  unfold grid_anchors. rewrite (length_concat_uniform (length refs)).
  - by rewrite length_fmap.
  - apply Forall_fmap, Forall_forall. intros p _. cbn. apply length_fmap.
Qed.

Lemma grid_anchors_shifted refs pts :
  grid_anchors refs pts = shifted refs (shift_row <$> pts).
Proof.
  unfold grid_anchors, shifted. by rewrite <- list_fmap_compose.
Qed.

Lemma generate_anchors_rank3 (self : FasterRCNN) (n H W : nat)
    (rest : list nat) (data : list Q) :
  _generate_anchors self (Tensor (n :: H :: W :: rest) data)
  = Ok (grid_anchors (_anchor_reference self)
          (grid_points (_anchor_stride self) H W)).
Proof.
  unfold _generate_anchors. cbn [tf_shape tshape].
  change (getitem (slice 1 3 (n :: H :: W :: rest)) 1) with (Ok W).
  change (getitem (slice 1 3 (n :: H :: W :: rest)) 0) with (Ok H).
  cbn [mbind result_bind].
  rewrite anchor_shifts_eq. cbn [mbind result_bind].
  set (refs := _anchor_reference self).
  set (pts := grid_points (_anchor_stride self) H W).
  unfold reshape_1, flat2.
  rewrite (reshape2_concat (ndarray refs)) by auto using Forall_length_ndarray.
  rewrite (reshape2_concat (shift_row <$> pts));
    [|apply Forall_fmap, Forall_forall; by intros p _|done].
  cbn [mbind result_bind mret result_ret].
  rewrite tf_transpose_singleton. unfold add3, convert_to_int32, ndarray.
  cbn [fmap list_fmap]. fold (int32_row <$> refs).
  rewrite <- !list_fmap_compose.
  change (((λ row : list Q, astype_int32 <$> row) ∘ box_row) <$> refs)
    with (int32_row <$> refs).
  cbn [broadcast].
  rewrite (mapM_fmap_Ok _ _ (λ p, (λ r, translate r p) <$> refs)).
  2:{ intros p _. cbn [compose].
      apply broadcast_stretch_r. intros r _. apply add_row. }
  cbn [mbind result_bind]. unfold flat3.
  apply reshape2_concat.
  - apply Forall_length_grid_anchors.
  - fold (grid_anchors refs pts). rewrite length_grid_anchors.
    rewrite !length_fmap. lia.
Qed.

Lemma generate_anchors_eq self n H W c data :
  _generate_anchors self (Tensor [n; H; W; c] data)
  = Ok (grid_anchors (_anchor_reference self)
          (grid_points (_anchor_stride self) H W)).
Proof. apply generate_anchors_rank3. Qed.

(** ** Membership in the grid *)

Lemma elem_of_concat {A} (x : A) (ls : list (list A)) :
  x ∈ concat ls ↔ ∃ l, l ∈ ls ∧ x ∈ l.
Proof.
  rewrite list_elem_of_In, in_concat. split.
  - intros (l & Hl & Hx). exists l. by rewrite !list_elem_of_In.
  - intros (l & Hl & Hx). exists l. by rewrite <- !list_elem_of_In.
Qed.

Lemma elem_of_tf_mul_range (v : Z) (n : nat) (k : Z) :
  v ∈ tf_mul (tf_range n) k ↔ ∃ i, i < n ∧ v = wrap32 (Z.of_nat i * k).
Proof.
  unfold tf_mul, tf_range. rewrite <- list_fmap_compose, list_elem_of_fmap.
  split.
  - intros (i & -> & Hi). apply elem_of_seq in Hi. exists i. split; [lia|done].
  - intros (i & Hi & ->). exists i. split; [done|]. apply elem_of_seq. lia.
Qed.

Lemma elem_of_grid_points stride H W (p : Z * Z) :
  p ∈ grid_points stride H W ↔
  ∃ i j, i < W ∧ j < H ∧
    p = (wrap32 (Z.of_nat i * stride), wrap32 (Z.of_nat j * stride)).
Proof.
  unfold grid_points. rewrite elem_of_concat. split.
  - intros (l & Hl & Hp).
    apply list_elem_of_fmap in Hl as (sy & -> & Hsy).
    apply list_elem_of_fmap in Hp as (sx & -> & Hsx).
    apply elem_of_tf_mul_range in Hsy as (j & Hj & ->).
    apply elem_of_tf_mul_range in Hsx as (i & Hi & ->).
    by exists i, j.
  - intros (i & j & Hi & Hj & ->).
    exists ((λ sx, (sx, wrap32 (Z.of_nat j * stride)))
              <$> tf_mul (tf_range W) stride).
    split.
    + apply (list_elem_of_fmap_2
               (λ sy, (λ sx, (sx, sy)) <$> tf_mul (tf_range W) stride)).
      apply elem_of_tf_mul_range. by exists j.
    + apply (list_elem_of_fmap_2 (λ sx, (sx, wrap32 (Z.of_nat j * stride)))).
      apply elem_of_tf_mul_range. by exists i.
Qed.

Lemma elem_of_grid_anchors refs pts (b : list Z) :
  b ∈ grid_anchors refs pts ↔ ∃ r p, r ∈ refs ∧ p ∈ pts ∧ b = translate r p.
Proof.
  unfold grid_anchors. rewrite elem_of_concat. split.
  - intros (l & Hl & Hb).
    apply list_elem_of_fmap in Hl as (p & -> & Hp).
    apply list_elem_of_fmap in Hb as (r & -> & Hr).
    by exists r, p.
  - intros (r & p & Hr & Hp & ->).
    exists ((λ r, translate r p) <$> refs). split.
    + by apply (list_elem_of_fmap_2 (λ p, (λ r, translate r p) <$> refs)).
    + by apply (list_elem_of_fmap_2 (λ r, translate r p)).
Qed.

(** ** Rows as numbers *)

Lemma zip_with_int32_add_exact (u v : list Z) :
  Forall in_int32 (zip_with Z.add u v) →
  zip_with int32_add u v = zip_with Z.add u v.
Proof.
  revert v. induction u as [|a u IH]; intros [|b v]; cbn; try done.
  intros [Hab Hrest]%Forall_cons. f_equal; [|by apply IH].
  by apply wrap32_id.
Qed.

Lemma same_numbers_zip (qs : list Q) (s : list Z) :
  Forall integral qs →
  same_numbers (zip_with Z.add (Qtruncate <$> qs) s)
    (zip_with Qplus qs (inject_Z <$> s)).
Proof.
  intros Hqs. revert s.
  induction Hqs as [|q qs Hq _ IH]; intros [|z s]; cbn; try by constructor.
  constructor; [|apply IH].
  rewrite inject_Z_plus. unfold integral in Hq. rewrite Hq. reflexivity.
Qed.

Lemma same_numbers_inj (b b' : list Z) (v : list Q) :
  same_numbers b v → same_numbers b' v → b = b'.
Proof.
  intros Hb. revert b'.
  induction Hb as [|z q b v Hz _ IH]; intros b' Hb'.
  - by apply Forall2_nil_inv_r in Hb'.
  - apply Forall2_cons_inv_r in Hb' as (z' & b'' & Hz' & Hb'' & ->).
    f_equal; [|by apply IH].
    apply inject_Z_injective. by rewrite Hz, Hz'.
Qed.

Lemma same_numbers_plain (r : box) (s b : list Z) :
  Forall integral (box_row r) →
  same_numbers b (plain_translate r s) ↔ b = zip_with Z.add (truncated r) s.
Proof.
  intros Hr. split.
  - intros Hb. eapply same_numbers_inj; [exact Hb|].
    by apply same_numbers_zip.
  - intros ->. by apply same_numbers_zip.
Qed.

Lemma same_numbers_shift (r : box) (sx sy : Z) (b : list Z) :
  Forall integral (box_row r) →
  same_numbers b
    [x1 r + inject_Z sx; y1 r + inject_Z sy;
     x2 r + inject_Z sx; y2 r + inject_Z sy]%Q
  ↔ b = zip_with Z.add (truncated r) (shift_row (sx, sy)).
Proof. apply (same_numbers_plain r (shift_row (sx, sy)) b). Qed.

Lemma translate_truncated (r : box) (p : Z * Z) :
  box_in_int32 r →
  translate r p = zip_with int32_add (truncated r) (shift_row p).
Proof.
  intros Hr. by rewrite translate_zip_with, int32_row_truncated.
Qed.

Lemma translate_exact (r : box) (sx sy : Z) :
  box_in_int32 r →
  Forall in_int32 (zip_with Z.add (truncated r) (shift_row (sx, sy))) →
  translate r (wrap32 sx, wrap32 sy)
  = zip_with Z.add (truncated r) (shift_row (sx, sy)).
Proof.
  intros Hr Hfit. rewrite translate_truncated by done.
  destruct r as [a b c d]. cbn in *.
  apply Forall_cons in Hfit as [H1 Hfit].
  apply Forall_cons in Hfit as [H2 Hfit].
  apply Forall_cons in Hfit as [H3 Hfit].
  apply Forall_cons in Hfit as [H4 _].
  by rewrite !int32_add_exact.
Qed.

(** ** Least and greatest entries *)

Lemma foldr_min_spec (x : Z) (v : list Z) :
  foldr Z.min x v ∈ x :: v ∧ ∀ y, y ∈ x :: v → (foldr Z.min x v ≤ y)%Z.
Proof.
  induction v as [|z v [IHin IHle]]; cbn [foldr].
  - split; [left|]. intros y ->%list_elem_of_singleton. lia.
  - split.
    + destruct (Z.min_spec z (foldr Z.min x v)) as [[_ ->]|[_ ->]].
      * right; left.
      * apply elem_of_cons in IHin as [->|Hin]; [left|by do 2 right].
    + intros y Hy. apply elem_of_cons in Hy as [->|Hy].
      * specialize (IHle x ltac:(left)). lia.
      * apply elem_of_cons in Hy as [->|Hy]; [lia|].
        specialize (IHle y ltac:(by right)). lia.
Qed.

Lemma foldr_max_spec (x : Z) (v : list Z) :
  foldr Z.max x v ∈ x :: v ∧ ∀ y, y ∈ x :: v → (y ≤ foldr Z.max x v)%Z.
Proof.
  induction v as [|z v [IHin IHle]]; cbn [foldr].
  - split; [left|]. intros y ->%list_elem_of_singleton. lia.
  - split.
    + destruct (Z.max_spec z (foldr Z.max x v)) as [[_ ->]|[_ ->]].
      * apply elem_of_cons in IHin as [->|Hin]; [left|by do 2 right].
      * right; left.
    + intros y Hy. apply elem_of_cons in Hy as [->|Hy].
      * specialize (IHle x ltac:(left)). lia.
      * apply elem_of_cons in Hy as [->|Hy]; [lia|].
        specialize (IHle y ltac:(by right)). lia.
Qed.

Lemma minimum_eq (v : list Z) (m : Z) :
  m ∈ v → (∀ y, y ∈ v → (m ≤ y)%Z) → minimum v = Some m.
Proof.
  destruct v as [|x v]; [by intros ?%elem_of_nil|].
  intros Hm Hle. cbn [minimum]. f_equal.
  destruct (foldr_min_spec x v) as [Hin Hmin].
  specialize (Hle _ Hin). specialize (Hmin _ Hm). lia.
Qed.

Lemma maximum_eq (v : list Z) (m : Z) :
  m ∈ v → (∀ y, y ∈ v → (y ≤ m)%Z) → maximum v = Some m.
Proof.
  destruct v as [|x v]; [by intros ?%elem_of_nil|].
  intros Hm Hle. cbn [maximum]. f_equal.
  destruct (foldr_max_spec x v) as [Hin Hmax].
  specialize (Hle _ Hin). specialize (Hmax _ Hm). lia.
Qed.

Lemma column_shift_rows_0 (pts : list (Z * Z)) :
  column 0 (shift_row <$> pts) = fst <$> pts.
Proof. unfold column. rewrite <- list_fmap_compose. done. Qed.

Lemma column_shift_rows_1 (pts : list (Z * Z)) :
  column 1 (shift_row <$> pts) = snd <$> pts.
Proof. unfold column. rewrite <- list_fmap_compose. done. Qed.

(** The shifts of a grid whose last shift is an [int32] value are the
    plain products. *)
Lemma shift_exact (k : nat) (n : nat) (stride : Z) :
  (0 ≤ stride)%Z → (Z.of_nat (n - 1) * stride ≤ int32_max)%Z → k < n →
  wrap32 (Z.of_nat k * stride) = (Z.of_nat k * stride)%Z ∧
  (0 ≤ Z.of_nat k * stride ≤ Z.of_nat (n - 1) * stride)%Z.
Proof.
  intros HS Hlast Hk.
  assert (0 ≤ Z.of_nat k * stride ≤ Z.of_nat (n - 1) * stride)%Z by nia.
  split; [|done]. apply wrap32_id.
  unfold in_int32, int32_min, int32_max in *. lia.
Qed.

(** ** Anchor grid: the claims *)

(** C1 (amended). For a feature map of spatial shape (H, W), a stride S
    that is an [int32] value and reference anchors whose coordinates are
    within [int32], [_generate_anchors] returns, and a box is in its
    result exactly when it is a reference anchor, its coordinates
    truncated toward zero, translated componentwise by
    (shift_x, shift_y, shift_x, shift_y) with shift_x = i*S for some
    i < W and shift_y = j*S for some j < H, the products and sums taken
    in [int32], that is modulo 2^32.  When moreover the reference
    coordinates are integers and no shifted coordinate leaves [int32], a
    box is in the result exactly when it is, as numbers, a reference
    anchor plus (i*S, j*S, i*S, j*S).  Nothing is clipped. *)
Theorem generate_anchors_translated_references
    (self : FasterRCNN) (n H W c : nat) (data : list Q) :
  in_int32 (_anchor_stride self) →
  Forall box_in_int32 (_anchor_reference self) →
  ∃ all_anchors,
    _generate_anchors self (Tensor [n; H; W; c] data) = Ok all_anchors ∧
    (∀ b : list Z,
       b ∈ all_anchors ↔
       ∃ (r : box) (i j : nat),
         r ∈ _anchor_reference self ∧ i < W ∧ j < H ∧
         let shift_x := wrap32 (Z.of_nat i * _anchor_stride self) in
         let shift_y := wrap32 (Z.of_nat j * _anchor_stride self) in
         b = [wrap32 (Qtruncate (x1 r) + shift_x);
              wrap32 (Qtruncate (y1 r) + shift_y);
              wrap32 (Qtruncate (x2 r) + shift_x);
              wrap32 (Qtruncate (y2 r) + shift_y)]) ∧
    ((∀ r, r ∈ _anchor_reference self → Forall integral (box_row r)) →
     no_overflow (_anchor_reference self) (_anchor_stride self) H W →
     ∀ b : list Z,
       b ∈ all_anchors ↔
       ∃ (r : box) (i j : nat),
         r ∈ _anchor_reference self ∧ i < W ∧ j < H ∧
         let shift_x := inject_Z (Z.of_nat i * _anchor_stride self) in
         let shift_y := inject_Z (Z.of_nat j * _anchor_stride self) in
         same_numbers b
           [x1 r + shift_x; y1 r + shift_y;
            x2 r + shift_x; y2 r + shift_y]%Q).
Proof.
  intros _ Hrefs. rewrite Forall_forall in Hrefs.
  eexists. split; [apply generate_anchors_eq|]. split.
  - intros b. rewrite elem_of_grid_anchors. split.
    + intros (r & p & Hr & Hp & ->).
      apply elem_of_grid_points in Hp as (i & j & Hi & Hj & ->).
      exists r, i, j. do 3 (split; [done|]). cbn zeta.
      rewrite translate_truncated by auto. done.
    + intros (r & i & j & Hr & Hi & Hj & ->).
      exists r, (wrap32 (Z.of_nat i * _anchor_stride self),
                 wrap32 (Z.of_nat j * _anchor_stride self)).
      split; [done|]. split.
      * apply elem_of_grid_points. by exists i, j.
      * rewrite translate_truncated by auto. done.
  - intros Hint Hfit b. rewrite elem_of_grid_anchors. split.
    + intros (r & p & Hr & Hp & ->).
      apply elem_of_grid_points in Hp as (i & j & Hi & Hj & ->).
      exists r, i, j. do 3 (split; [done|]). cbn zeta.
      rewrite translate_exact by auto.
      apply same_numbers_shift; auto.
    + intros (r & i & j & Hr & Hi & Hj & Hb). cbn zeta in Hb.
      exists r, (wrap32 (Z.of_nat i * _anchor_stride self),
                 wrap32 (Z.of_nat j * _anchor_stride self)).
      split; [done|]. split.
      * apply elem_of_grid_points. by exists i, j.
      * rewrite translate_exact by auto.
        apply same_numbers_shift in Hb; auto.
Qed.

(** C2 (amended). For a stride S that is an [int32] value,
    [_generate_anchors] produces exactly H * W * A boxes, A the number of
    reference anchors, by moving every reference anchor by every row of
    the shifts tensor; and on a grid with at least one cell, for S not
    negative and (W-1)*S and (H-1)*S within [int32], the least x- and
    y-shift among those rows is 0 and the greatest are (W-1)*S and
    (H-1)*S. *)
Theorem generate_anchors_count_and_shift_range
    (self : FasterRCNN) (n H W c : nat) (data : list Q) :
  in_int32 (_anchor_stride self) →
  ∃ all_anchors shifts,
    _generate_anchors self (Tensor [n; H; W; c] data) = Ok all_anchors ∧
    anchor_shifts (_anchor_stride self) H W = Ok shifts ∧
    all_anchors = shifted (_anchor_reference self) shifts ∧
    length all_anchors = H * W * length (_anchor_reference self) ∧
    (0 < H → 0 < W → (0 ≤ _anchor_stride self)%Z →
     (Z.of_nat (W - 1) * _anchor_stride self ≤ int32_max)%Z →
     (Z.of_nat (H - 1) * _anchor_stride self ≤ int32_max)%Z →
     minimum (column 0 shifts) = Some 0%Z ∧
     maximum (column 0 shifts)
       = Some (Z.of_nat (W - 1) * _anchor_stride self)%Z ∧
     minimum (column 1 shifts) = Some 0%Z ∧
     maximum (column 1 shifts)
       = Some (Z.of_nat (H - 1) * _anchor_stride self)%Z).
Proof.
  intros _. do 2 eexists.
  split; [apply generate_anchors_eq|]. split; [apply anchor_shifts_eq|].
  split; [apply grid_anchors_shifted|].
  split; [by rewrite length_grid_anchors, length_grid_points|].
  intros HH HW HS HWmax HHmax.
  set (S := _anchor_stride self) in *.
  rewrite column_shift_rows_0, column_shift_rows_1.
  assert (Hin : ∀ i j, i < W → j < H →
            (Z.of_nat i * S, Z.of_nat j * S)%Z ∈ grid_points S H W).
  { intros i j Hi Hj. apply elem_of_grid_points. exists i, j.
    do 2 (split; [done|]).
    destruct (shift_exact i W S) as [-> _]; try done.
    destruct (shift_exact j H S) as [-> _]; done. }
  assert (Hbound : ∀ p, p ∈ grid_points S H W →
            (0 ≤ p.1 ≤ Z.of_nat (W - 1) * S)%Z ∧
            (0 ≤ p.2 ≤ Z.of_nat (H - 1) * S)%Z).
  { intros p (i & j & Hi & Hj & ->)%elem_of_grid_points. cbn [fst snd].
    destruct (shift_exact i W S) as [-> ?]; try done.
    destruct (shift_exact j H S) as [-> ?]; done. }
  repeat split.
  - apply minimum_eq.
    + apply (list_elem_of_fmap_2' _ _ _ _ (Hin 0 0 HW HH)). cbn. lia.
    + intros y (p & -> & Hp)%list_elem_of_fmap. apply Hbound in Hp. lia.
  - apply maximum_eq.
    + apply (list_elem_of_fmap_2' _ _ _ _
               (Hin (W - 1) 0 ltac:(lia) HH)). done.
    + intros y (p & -> & Hp)%list_elem_of_fmap. apply Hbound in Hp. lia.
  - apply minimum_eq.
    + apply (list_elem_of_fmap_2' _ _ _ _ (Hin 0 0 HW HH)). cbn. lia.
    + intros y (p & -> & Hp)%list_elem_of_fmap. apply Hbound in Hp. lia.
  - apply maximum_eq.
    + apply (list_elem_of_fmap_2' _ _ _ _
               (Hin 0 (H - 1) HW ltac:(lia))). done.
    + intros y (p & -> & Hp)%list_elem_of_fmap. apply Hbound in Hp. lia.
Qed.

(** C3 (amended). The result is laid out grid cell by grid cell: with A
    reference anchors, a stride that is an [int32] value and reference
    coordinates within [int32], the anchor at flat index p * A + a is
    reference anchor a, its coordinates truncated toward zero, moved by
    row p of the shifts tensor, the sums taken in [int32]; when the
    coordinates of that reference anchor are integers and the four sums
    stay within [int32], it is, as numbers, the reference anchor plus
    that row. *)
Theorem generate_anchors_cell_major
    (self : FasterRCNN) (n H W c : nat) (data : list Q) :
  in_int32 (_anchor_stride self) →
  Forall box_in_int32 (_anchor_reference self) →
  ∃ all_anchors shifts,
    _generate_anchors self (Tensor [n; H; W; c] data) = Ok all_anchors ∧
    anchor_shifts (_anchor_stride self) H W = Ok shifts ∧
    length shifts = H * W ∧
    ∀ (p a : nat) (s : list Z) (r : box),
      shifts !! p = Some s →
      _anchor_reference self !! a = Some r →
      all_anchors !! (p * length (_anchor_reference self) + a)
      = Some (zip_with int32_add (truncated r) s) ∧
      (Forall integral (box_row r) →
       Forall in_int32 (zip_with Z.add (truncated r) s) →
       ∃ row,
         all_anchors !! (p * length (_anchor_reference self) + a)
         = Some row ∧
         same_numbers row (plain_translate r s)).
Proof.
  intros _ Hrefs. rewrite Forall_forall in Hrefs.
  do 2 eexists.
  split; [apply generate_anchors_eq|]. split; [apply anchor_shifts_eq|].
  split; [by rewrite length_fmap, length_grid_points|].
  intros p a s r Hs Hr.
  apply list_lookup_fmap_Some in Hs as (pt & -> & Hpt).
  assert (Hrow :
    grid_anchors (_anchor_reference self)
      (grid_points (_anchor_stride self) H W)
      !! (p * length (_anchor_reference self) + a)
    = Some (zip_with int32_add (truncated r) (shift_row pt))).
  { unfold grid_anchors.
    rewrite (lookup_concat_uniform (length (_anchor_reference self))).
    - rewrite list_lookup_fmap, Hpt. cbn.
      rewrite list_lookup_fmap, Hr. cbn.
      rewrite translate_truncated; [done|].
      apply Hrefs. by eapply list_elem_of_lookup_2.
    - apply Forall_fmap, Forall_forall. intros q _. cbn. apply length_fmap.
    - by apply lookup_lt_Some in Hr. }
  split; [exact Hrow|].
  intros Hint Hfit. eexists. split; [exact Hrow|].
  rewrite zip_with_int32_add_exact by done.
  by apply same_numbers_plain.
Qed.

(** ** Construction: facts *)




Lemma result_bind_Ok {A B} (m : result A) (f : A → result B) (b : B) :
  m ≫= f = Ok b → ∃ a, m = Ok a ∧ f a = Ok b.
Proof. destruct m as [a|e]; [|done]. intros Hf. by exists a. Qed.

Lemma result_bind_Raise {A B} (m : result A) (f : A → result B)
    (e : exception) :
  m ≫= f = Raise e → m = Raise e ∨ ∃ a, m = Ok a ∧ f a = Raise e.
Proof.
  destruct m as [a|e']; cbn.
  - intros Hf. right. by exists a.
  - intros [= ->]. by left.
Qed.

Ltac result_inv H :=
  repeat
    (let a := fresh "v" in
     let Ha := fresh "Hv" in
     apply result_bind_Ok in H as (a & Ha & H)).

Section construction.
Context `{AR : AnchorReference}.
Context (config : config) (debug with_rcnn : bool)
          (num_classes : option nat) (name : string).



(** What a returning constructor has built. *)
Lemma init_inv pretrained_type self :
    __init__ config debug with_rcnn num_classes pretrained_type name
    = Ok self →
    PRETRAINED_MODULES !! pretrained_type = Some (_pretrained_class self) ∧
    generate_anchors_reference (ANCHOR_BASE_SIZE config)
      (ANCHOR_RATIOS config) (ANCHOR_SCALES config)
    = Ok (_anchor_reference self) ∧
    _anchor_stride self = ANCHOR_STRIDE config ∧
    _with_rcnn self = with_rcnn ∧
    _debug self = debug ∧
    _rpn_cls_loss_weight self = 1.0%Q ∧
    _rpn_reg_loss_weight self = 2.0%Q ∧
    _rcnn_cls_loss_weight self = 1.0%Q ∧
    _rcnn_reg_loss_weight self = 2.0%Q ∧
    _rcnn self
    = (if with_rcnn
       then Some {| rcnn_num_classes := num_classes; rcnn_debug := debug |}
       else None) ∧
    _roi_pool self
    = (if with_rcnn then Some {| roi_debug := debug |} else None) ∧
    _num_anchors self = length (_anchor_reference self) ∧
    _rpn self = {| rpn_num_anchors := length (_anchor_reference self);
                   rpn_debug := debug |} ∧
    _pretrained self = {| pretrained_cls := _pretrained_class self;
                          trainable := PRETRAINED_TRAINABLE config |} ∧
    AbstractModule_init name = Ok ().
  Proof.
    intros Hinit. unfold __init__ in Hinit.
    apply result_bind_Ok in Hinit as ([] & Hname & Hinit).
    apply result_bind_Ok in Hinit as (refs & Hrefs & Hinit).
    case_decide as Hnone; [done|].
    apply result_bind_Ok in Hinit as (cls & Hcls & Hinit).
    apply result_bind_Ok in Hinit as ([] & _ & Hinit).
    apply result_bind_Ok in Hinit as ([] & _ & Hinit).
    apply result_bind_Ok in Hinit as (heads & Hheads & Hinit).
    injection Hinit as <-. cbn.
    assert (heads
            = (if with_rcnn then Some {| roi_debug := debug |} else None,
               if with_rcnn
               then Some {| rcnn_num_classes := num_classes;
                            rcnn_debug := debug |}
               else None)) as ->.
    { destruct with_rcnn.
      - apply result_bind_Ok in Hheads as ([] & _ & Hheads).
        apply result_bind_Ok in Hheads as ([] & _ & Hheads).
        by injection Hheads as <-.
      - by injection Hheads as <-. }
    unfold getkey in Hcls.
    destruct (PRETRAINED_MODULES !! pretrained_type) as [cls'|]; [|done].
    injection Hcls as ->. by repeat split.
  Qed.


End construction.

Lemma init_modules `{AR : AnchorReference} (config : config)
    (debug with_rcnn : bool) (num_classes : option nat)
    (pretrained_type name : string) (self : FasterRCNN) :
  __init__ config debug with_rcnn num_classes pretrained_type name
  = Ok self →
  _num_anchors self = length (_anchor_reference self) ∧
  _rpn self = {| rpn_num_anchors := length (_anchor_reference self);
                 rpn_debug := debug |} ∧
  _pretrained self = {| pretrained_cls := _pretrained_class self;
                        trainable := PRETRAINED_TRAINABLE config |} ∧
  _roi_pool self
  = (if with_rcnn then Some {| roi_debug := debug |} else None) ∧
  _rcnn self
  = (if with_rcnn
     then Some {| rcnn_num_classes := num_classes; rcnn_debug := debug |}
     else None) ∧
  _with_rcnn self = with_rcnn ∧
  _debug self = debug.
Proof.
  intros (_ & _ & _ & Hwith & Hdebug & _ & _ & _ & _
          & Hrcnn & Hroi & Hnum & Hrpn & Hp & _)%init_inv.
  by repeat split.
Qed.



(** ** Forward pass: facts *)

(** The bundle [_build] returns, by the two flags. *)
Lemma build_inv `{ST : Stages} (self : FasterRCNN) (image gt_boxes : tensor)
    (is_training : bool) (d : gmap string pyval) :
  _build self image gt_boxes is_training = Ok d →
  ∃ (pretrained_dict rpn_prediction : gmap string pyval)
    (all_anchors : list (list Z)),
    let base : gmap string pyval :=
      {[ "rpn_prediction" := VDict rpn_prediction ]} in
    let debugged : gmap string pyval :=
      <["pretrained_dict" := VDict pretrained_dict]>
        (<["gt_boxes" := VTensor gt_boxes]>
          (<["all_anchors" := VAnchors all_anchors]>
            (<["image_shape" := VShape (slice 1 3 (tf_shape image))]>
              (<["image" := VTensor image]> base)))) in
    match _debug self, _with_rcnn self with
    | false, false => d = base
    | true, false => d = debugged
    | false, true =>
        ∃ cp, d = <["classification_prediction" := VDict cp]> base
    | true, true =>
        ∃ cp roi,
          d = <["roi_prediction" := VDict roi]>
                (<["classification_prediction" := VDict cp]> debugged)
    end.
Proof.
  intros Hb. unfold _build in Hb.
  apply result_bind_Ok in Hb as (pretrained_dict & _ & Hb).
  apply result_bind_Ok in Hb as (net & _ & Hb).
  apply result_bind_Ok in Hb as (fm & _ & Hb).
  apply result_bind_Ok in Hb as (all_anchors & _ & Hb).
  apply result_bind_Ok in Hb as (rpn_prediction & _ & Hb).
  exists pretrained_dict, rpn_prediction, all_anchors.
  destruct (_debug self), (_with_rcnn self); cbn zeta.
  - result_inv Hb. injection Hb as <-. by do 2 eexists.
  - by injection Hb as <-.
  - result_inv Hb. injection Hb as <-. by eexists.
  - by injection Hb as <-.
Qed.


(** ** Loss: facts *)

Lemma stateful_bind_Ok {A B} (m : stateful A) (f : A → stateful B)
    (s s' : state) (b : B) :
  (m ≫= f) s = (Ok b, s') → ∃ a s1, m s = (Ok a, s1) ∧ f a s1 = (Ok b, s').
Proof.
  unfold mbind, stateful_bind.
  destruct (m s) as [[a|e] s1]; [|done]. intros Hf. by exists a, s1.
Qed.

Lemma lift_Ok {A} (r : result A) (s s1 : state) (a : A) :
  lift r s = (Ok a, s1) → r = Ok a ∧ s1 = s.
Proof. unfold lift. by intros [= -> ->]. Qed.

Lemma getkey_Ok {V} (d : gmap string V) (k : string) (v : V) :
  getkey d k = Ok v → d !! k = Some v.
Proof. unfold getkey. destruct (d !! k); by intros [= ->]. Qed.

Lemma getitem_str_Ok {V} (d : list (string * V)) (k : string) (v : V) :
  getitem_str d k = Ok v → dict_get d k = Some v.
Proof. unfold getitem_str. destruct (dict_get d k); by intros [= ->]. Qed.

Lemma getattr_Ok {A} (attr : string) (o : option A) (a : A) :
  getattr attr o = Ok a → o = Some a.
Proof. destruct o; by intros [= ->]. Qed.

Lemma dict_get_set_eq {V} (d : list (string * V)) (k : string) (v : V) :
  dict_get (dict_set d k v) k = Some v.
Proof.
  induction d as [|[k' v'] d IH]; cbn.
  - by rewrite decide_True.
  - case_decide; cbn; [by rewrite decide_True|by rewrite decide_False].
Qed.

Lemma dict_get_set_ne {V} (d : list (string * V)) (k k' : string) (v : V) :
  k ≠ k' → dict_get (dict_set d k v) k' = dict_get d k'.
Proof.
  intros Hne. induction d as [|[k0 v0] d IH]; cbn.
  - by rewrite decide_False.
  - case_decide; cbn.
    + subst k0. by rewrite !decide_False.
    + case_decide; [done|apply IH].
Qed.

Lemma dict_set_not_nil {V} (d : list (string * V)) (k : string) (v : V) :
  dict_set d k v ≠ [].
Proof. destruct d as [|[k' v'] d]; cbn; [done|by case_decide]. Qed.

(** The loop of [loss] over the items: one summary and one entry of the
    losses collection per item, in order. *)
Lemma for_each_items (items : list (string * Q)) (s : state) :
  for_each items (λ item,
      _ ← summary_scalar item.1 item.2 "Losses"; add_loss item.2) s
  = (Ok (),
     State (losses s ++ (snd <$> items)) (regularization_losses s)
       (summaries s ++ (loss_summary <$> items)) (bundle s)).
Proof.
  revert s.
  set (body := λ item : string * Q,
         _ ← summary_scalar item.1 item.2 "Losses"; add_loss item.2).
  induction items as [|item items IH]; intros s.
  - destruct s. cbn. by rewrite !app_nil_r.
  - cbn [for_each]. unfold mbind at 1, stateful_bind at 1.
    assert (Hbody : body item s
              = (Ok (),
                 State (losses s ++ [item.2]) (regularization_losses s)
                   (summaries s ++ [loss_summary item]) (bundle s)))
      by reflexivity.
    rewrite Hbody, IH. cbn. by rewrite <- !app_assoc.
Qed.

Ltac stateful_step H a Ha :=
  let s1 := fresh "s" in
  apply stateful_bind_Ok in H as (a & s1 & Ha & H);
  first
    [ apply lift_Ok in Ha as [Ha ->]
    | injection Ha as Ha <- ].

(** What a returning call of [loss] has done. *)
Lemma loss_inv `{ST : Stages} (self : FasterRCNN) (s s' : state)
    (total : Q) :
  loss self s = (Ok total, s') →
  ∃ (rpn_prediction : pyval) (raw_rpn : list (string * Q)) (a b : Q)
    (rcnn_loss_dict : list (string * Q)),
    bundle s !! "rpn_prediction" = Some rpn_prediction ∧
    rpn_loss (_rpn self) rpn_prediction = Ok raw_rpn ∧
    dict_get raw_rpn "rpn_cls_loss" = Some a ∧
    dict_get raw_rpn "rpn_reg_loss" = Some b ∧
    let rpn_loss_dict :=
      dict_set
        (dict_set raw_rpn "rpn_cls_loss" (a * _rpn_cls_loss_weight self)%Q)
        "rpn_reg_loss" (b * _rpn_reg_loss_weight self)%Q in
    (if _with_rcnn self then
       ∃ (rcnn : RCNN) (classification_prediction : pyval)
         (raw_rcnn : list (string * Q)) (c d : Q),
         _rcnn self = Some rcnn ∧
         bundle s !! "classification_prediction"
           = Some classification_prediction ∧
         rcnn_loss rcnn classification_prediction = Ok raw_rcnn ∧
         dict_get raw_rcnn "rcnn_cls_loss" = Some c ∧
         dict_get raw_rcnn "rcnn_reg_loss" = Some d ∧
         rcnn_loss_dict
         = dict_set
             (dict_set raw_rcnn "rcnn_cls_loss"
                (c * _rcnn_cls_loss_weight self)%Q)
             "rcnn_reg_loss" (d * _rcnn_reg_loss_weight self)%Q ∧
         bundle s'
         = <["rcnn_loss_dict" := VLosses rcnn_loss_dict]>
             (<["rpn_loss_dict" := VLosses rpn_loss_dict]> (bundle s))
     else
       rcnn_loss_dict = [] ∧
       bundle s' = <["rpn_loss_dict" := VLosses rpn_loss_dict]> (bundle s)) ∧
    losses s' = losses s ++ (snd <$> rpn_loss_dict ++ rcnn_loss_dict) ∧
    regularization_losses s' = regularization_losses s ∧
    add_n (losses s' ++ regularization_losses s') = Ok total ∧
    ∃ no_reg_loss regularization_loss : Q,
      add_n (losses s') = Ok no_reg_loss ∧
      summaries s'
      = summaries s ++ (loss_summary <$> rpn_loss_dict ++ rcnn_loss_dict)
        ++ [("Losses", "total_loss", total);
            ("Losses", "no_reg_loss", no_reg_loss);
            ("Losses", "regularization_loss", regularization_loss)].
Proof.
  intros Hl. unfold loss in Hl.
  stateful_step Hl rpn_prediction Hrp. apply getkey_Ok in Hrp.
  stateful_step Hl raw_rpn Hraw.
  stateful_step Hl a Ha. apply getitem_str_Ok in Ha.
  stateful_step Hl b Hb. apply getitem_str_Ok in Hb.
  rewrite dict_get_set_ne in Hb by done.
  exists rpn_prediction, raw_rpn, a, b.
  set (rpn_loss_dict := dict_set (dict_set raw_rpn _ _) _ _) in *.
  stateful_step Hl u Hu.
  apply stateful_bind_Ok in Hl as (rcnn_loss_dict & s2 & Hr & Hl).
  exists rcnn_loss_dict.
  apply stateful_bind_Ok in Hl as (u1 & s3 & Hf & Hl).
  rewrite for_each_items in Hf. injection Hf as _ <-.
  stateful_step Hl regularization_loss Hreg.
  stateful_step Hl no_reg_loss Hnoreg.
  stateful_step Hl total_loss Htotal.
  stateful_step Hl u2 Hu2. stateful_step Hl u3 Hu3. stateful_step Hl u4 Hu4.
  unfold mret, stateful_ret in Hl. injection Hl as <- <-. cbn in *.
  rewrite app_nil_r in Hnoreg.
  assert (Hrcnn :
    (if _with_rcnn self then
       ∃ (rcnn : RCNN) (classification_prediction : pyval)
         (raw_rcnn : list (string * Q)) (c d : Q),
         _rcnn self = Some rcnn ∧
         bundle s !! "classification_prediction"
           = Some classification_prediction ∧
         rcnn_loss rcnn classification_prediction = Ok raw_rcnn ∧
         dict_get raw_rcnn "rcnn_cls_loss" = Some c ∧
         dict_get raw_rcnn "rcnn_reg_loss" = Some d ∧
         rcnn_loss_dict
         = dict_set
             (dict_set raw_rcnn "rcnn_cls_loss"
                (c * _rcnn_cls_loss_weight self)%Q)
             "rcnn_reg_loss" (d * _rcnn_reg_loss_weight self)%Q ∧
         bundle s2
         = <["rcnn_loss_dict" := VLosses rcnn_loss_dict]>
             (<["rpn_loss_dict" := VLosses rpn_loss_dict]> (bundle s))
     else
       rcnn_loss_dict = [] ∧
       bundle s2 = <["rpn_loss_dict" := VLosses rpn_loss_dict]> (bundle s))
    ∧ losses s2 = losses s
    ∧ regularization_losses s2 = regularization_losses s
    ∧ summaries s2 = summaries s).
  { destruct (_with_rcnn self).
    - stateful_step Hr rcnn Hrcnn. apply getattr_Ok in Hrcnn.
      stateful_step Hr classification_prediction Hcp.
      apply getkey_Ok in Hcp. cbn in Hcp.
      rewrite lookup_insert_ne in Hcp by done.
      stateful_step Hr raw_rcnn Hraw2.
      stateful_step Hr c Hc. apply getitem_str_Ok in Hc.
      stateful_step Hr d Hd. apply getitem_str_Ok in Hd.
      rewrite dict_get_set_ne in Hd by done.
      stateful_step Hr u5 Hu5.
      unfold mret, stateful_ret in Hr. injection Hr as <- <-. cbn.
      split; [|by repeat split].
      by exists rcnn, classification_prediction, raw_rcnn, c, d.
    - unfold mret, stateful_ret in Hr. injection Hr as <- <-.
      cbn. by repeat split. }
  destruct Hrcnn as (Hrcnn & Hl2 & Hr2 & Hs2).
  rewrite Hl2, Hr2, Hs2 in *.
  repeat split; try done.
  exists no_reg_loss, regularization_loss. split; [done|].
  by rewrite <- !app_assoc.
Qed.

Lemma stateful_bind_run {A B} (m : stateful A) (f : A → stateful B)
    (s s1 : state) (a : A) :
  m s = (Ok a, s1) → (m ≫= f) s = f a s1.
Proof. unfold mbind, stateful_bind. by intros ->. Qed.

Lemma stateful_bind_fail {A B} (m : stateful A) (f : A → stateful B)
    (s s1 : state) (e : exception) :
  m s = (Raise e, s1) → (m ≫= f) s = (Raise e, s1).
Proof. unfold mbind, stateful_bind. by intros ->. Qed.

(** Lines 162-170 of [loss]: the three sums are asked of [add_n] in
    turn, and the summaries are written once all three are there. *)
Lemma loss_totals_run `{ST : Stages} (s : state)
    (total no_reg_loss regularization_loss : Q) :
  regularization_total (regularization_losses s) = Ok regularization_loss →
  add_n (losses s) = Ok no_reg_loss →
  add_n (losses s ++ regularization_losses s) = Ok total →
  loss_totals s
  = (Ok total,
     State (losses s) (regularization_losses s)
       (summaries s ++ totals_logged total no_reg_loss regularization_loss)
       (bundle s)).
Proof.
  intros Hreg Hnoreg Htotal.
  unfold loss_totals, mbind, stateful_bind, get_regularization_loss,
    get_total_loss, summary_scalar, mret, stateful_ret.
  rewrite Hreg, app_nil_r, Hnoreg, Htotal. cbn.
  by rewrite <- !app_assoc.
Qed.

Lemma loss_totals_inv `{ST : Stages} (s s' : state) (r : result Q) :
  loss_totals s = (r, s') →
  match r with
  | Ok total =>
      ∃ no_reg_loss regularization_loss : Q,
        regularization_total (regularization_losses s)
          = Ok regularization_loss ∧
        add_n (losses s) = Ok no_reg_loss ∧
        add_n (losses s ++ regularization_losses s) = Ok total ∧
        s' = State (losses s) (regularization_losses s)
               (summaries s
                ++ totals_logged total no_reg_loss regularization_loss)
               (bundle s)
  | Raise e =>
      s' = s ∧
      (regularization_total (regularization_losses s) = Raise e ∨
       add_n (losses s) = Raise e ∨
       add_n (losses s ++ regularization_losses s) = Raise e)
  end.
Proof.
  unfold loss_totals, mbind, stateful_bind, get_regularization_loss,
    get_total_loss, summary_scalar, mret, stateful_ret.
  rewrite app_nil_r.
  destruct (regularization_total (regularization_losses s)) as [rg|e1];
    [|intros [= <- <-]; auto].
  destruct (add_n (losses s)) as [nr|e2]; [|intros [= <- <-]; auto].
  destruct (add_n (losses s ++ regularization_losses s)) as [total|e3];
    [|intros [= <- <-]; auto].
  cbn. intros [= <- <-]. exists nr, rg. do 3 (split; [done|]).
  by rewrite <- !app_assoc.
Qed.

(** A call of [loss] gets as far as the three sums once the bundle and
    the loss dicts of the stages have the keys it reads. *)
Lemma loss_reaches_totals `{ST : Stages} (self : FasterRCNN) (s : state)
    (rpn_prediction : pyval) (raw_rpn : list (string * Q)) (a b : Q)
    (rcnn_loss_dict : list (string * Q)) (bundle' : gmap string pyval) :
  bundle s !! "rpn_prediction" = Some rpn_prediction →
  rpn_loss (_rpn self) rpn_prediction = Ok raw_rpn →
  dict_get raw_rpn "rpn_cls_loss" = Some a →
  dict_get raw_rpn "rpn_reg_loss" = Some b →
  let rpn_loss_dict :=
    dict_set
      (dict_set raw_rpn "rpn_cls_loss" (a * _rpn_cls_loss_weight self)%Q)
      "rpn_reg_loss" (b * _rpn_reg_loss_weight self)%Q in
  (if _with_rcnn self then
     ∃ (rcnn : RCNN) (classification_prediction : pyval)
       (raw_rcnn : list (string * Q)) (c d : Q),
       _rcnn self = Some rcnn ∧
       bundle s !! "classification_prediction"
         = Some classification_prediction ∧
       rcnn_loss rcnn classification_prediction = Ok raw_rcnn ∧
       dict_get raw_rcnn "rcnn_cls_loss" = Some c ∧
       dict_get raw_rcnn "rcnn_reg_loss" = Some d ∧
       rcnn_loss_dict
       = dict_set
           (dict_set raw_rcnn "rcnn_cls_loss"
              (c * _rcnn_cls_loss_weight self)%Q)
           "rcnn_reg_loss" (d * _rcnn_reg_loss_weight self)%Q ∧
       bundle'
       = <["rcnn_loss_dict" := VLosses rcnn_loss_dict]>
           (<["rpn_loss_dict" := VLosses rpn_loss_dict]> (bundle s))
   else
     rcnn_loss_dict = [] ∧
     bundle' = <["rpn_loss_dict" := VLosses rpn_loss_dict]> (bundle s)) →
  loss self s
  = loss_totals (after_loop s (rpn_loss_dict ++ rcnn_loss_dict) bundle').
Proof.
  intros Hrp Hraw Ha Hb rpn_loss_dict Hrcnn.
  unfold loss.
  erewrite stateful_bind_run
    by (unfold bundle_get, getkey; by rewrite Hrp).
  erewrite stateful_bind_run by (unfold lift; by rewrite Hraw).
  erewrite stateful_bind_run by (unfold lift, getitem_str; by rewrite Ha).
  erewrite stateful_bind_run
    by (unfold lift, getitem_str;
        by rewrite dict_get_set_ne, Hb by done).
  fold rpn_loss_dict.
  erewrite stateful_bind_run by reflexivity.
  erewrite (stateful_bind_run _ _ _
              (State (losses s) (regularization_losses s) (summaries s)
                 bundle')
              rcnn_loss_dict).
  2:{ destruct (_with_rcnn self).
      - destruct Hrcnn as (rcnn & cp & raw & c & d
                           & Hr & Hcp & Hraw2 & Hc & Hd & -> & ->).
        erewrite stateful_bind_run by (unfold lift; by rewrite Hr).
        erewrite stateful_bind_run
          by (unfold bundle_get, getkey; cbn;
              by rewrite lookup_insert_ne, Hcp by done).
        erewrite stateful_bind_run by (unfold lift; by rewrite Hraw2).
        erewrite stateful_bind_run
          by (unfold lift, getitem_str; by rewrite Hc).
        erewrite stateful_bind_run
          by (unfold lift, getitem_str;
              by rewrite dict_get_set_ne, Hd by done).
        erewrite stateful_bind_run by reflexivity.
        reflexivity.
      - destruct Hrcnn as [-> ->]. reflexivity. }
  erewrite stateful_bind_run by apply for_each_items.
  reflexivity.
Qed.

(** A call of [loss] returns once, moreover, [add_n] returns the three
    sums. *)
Lemma loss_run `{ST : Stages} (self : FasterRCNN) (s : state)
    (rpn_prediction : pyval) (raw_rpn : list (string * Q)) (a b : Q)
    (rcnn_loss_dict : list (string * Q)) (bundle' : gmap string pyval)
    (total no_reg_loss regularization_loss : Q) :
  bundle s !! "rpn_prediction" = Some rpn_prediction →
  rpn_loss (_rpn self) rpn_prediction = Ok raw_rpn →
  dict_get raw_rpn "rpn_cls_loss" = Some a →
  dict_get raw_rpn "rpn_reg_loss" = Some b →
  let rpn_loss_dict :=
    dict_set
      (dict_set raw_rpn "rpn_cls_loss" (a * _rpn_cls_loss_weight self)%Q)
      "rpn_reg_loss" (b * _rpn_reg_loss_weight self)%Q in
  (if _with_rcnn self then
     ∃ (rcnn : RCNN) (classification_prediction : pyval)
       (raw_rcnn : list (string * Q)) (c d : Q),
       _rcnn self = Some rcnn ∧
       bundle s !! "classification_prediction"
         = Some classification_prediction ∧
       rcnn_loss rcnn classification_prediction = Ok raw_rcnn ∧
       dict_get raw_rcnn "rcnn_cls_loss" = Some c ∧
       dict_get raw_rcnn "rcnn_reg_loss" = Some d ∧
       rcnn_loss_dict
       = dict_set
           (dict_set raw_rcnn "rcnn_cls_loss"
              (c * _rcnn_cls_loss_weight self)%Q)
           "rcnn_reg_loss" (d * _rcnn_reg_loss_weight self)%Q ∧
       bundle'
       = <["rcnn_loss_dict" := VLosses rcnn_loss_dict]>
           (<["rpn_loss_dict" := VLosses rpn_loss_dict]> (bundle s))
   else
     rcnn_loss_dict = [] ∧
     bundle' = <["rpn_loss_dict" := VLosses rpn_loss_dict]> (bundle s)) →
  let items := rpn_loss_dict ++ rcnn_loss_dict in
  let collected := losses s ++ (snd <$> items) in
  regularization_total (regularization_losses s) = Ok regularization_loss →
  add_n collected = Ok no_reg_loss →
  add_n (collected ++ regularization_losses s) = Ok total →
  loss self s
  = (Ok total,
     State collected (regularization_losses s)
       (summaries s ++ (loss_summary <$> items)
        ++ totals_logged total no_reg_loss regularization_loss)
       bundle').
Proof.
  intros Hrp Hraw Ha Hb rpn_loss_dict Hrcnn items collected
    Hreg Hnoreg Htotal.
  rewrite (loss_reaches_totals self s rpn_prediction raw_rpn a b
             rcnn_loss_dict bundle') by done.
  fold rpn_loss_dict. fold items.
  rewrite (loss_totals_run _ total no_reg_loss regularization_loss)
    by done.
  unfold after_loop. cbn [losses regularization_losses summaries bundle].
  by rewrite <- app_assoc.
Qed.

(** ** Forward pass and loss: the claims *)

(** C4. An orchestrator built with the classification head has weights
    1.0 (classification) and 2.0 (regression) for both stages.  On a
    graph with no earlier losses, with the RPN terms a, b and the RCNN
    terms c, d, the losses collected by [loss] are the four weighted
    terms a*1.0, b*2.0, c*1.0, d*2.0; the total without regularization,
    logged as [no_reg_loss] and, with no regularization losses, returned,
    is what [add_n] makes of these four; and [loss] returns once [add_n]
    returns on them.  When all four terms are 1.0, that total is 6.0 for
    every [add_n] that is exact on small integers, as a float sum is. *)
Theorem loss_weights_and_total `{AR : AnchorReference} `{ST : Stages}
    (config : config) (debug : bool) (num_classes : option nat)
    (pretrained_type name : string) (self : FasterRCNN) (s : state)
    (rpn_prediction classification_prediction : pyval) (a b c d : Q) :
  __init__ config debug true num_classes pretrained_type name = Ok self →
  bundle s !! "rpn_prediction" = Some rpn_prediction →
  bundle s !! "classification_prediction" = Some classification_prediction →
  rpn_loss (_rpn self) rpn_prediction
    = Ok [("rpn_cls_loss", a); ("rpn_reg_loss", b)] →
  rcnn_loss {| rcnn_num_classes := num_classes; rcnn_debug := debug |}
      classification_prediction
    = Ok [("rcnn_cls_loss", c); ("rcnn_reg_loss", d)] →
  losses s = [] →
  let terms := [a * 1.0; b * 2.0; c * 1.0; d * 2.0]%Q in
  _rpn_cls_loss_weight self = 1.0%Q ∧
  _rpn_reg_loss_weight self = 2.0%Q ∧
  _rcnn_cls_loss_weight self = 1.0%Q ∧
  _rcnn_reg_loss_weight self = 2.0%Q ∧
  (∀ no_reg_loss : Q,
     add_n terms = Ok no_reg_loss → regularization_losses s = [] →
     ∃ s', loss self s = (Ok no_reg_loss, s')) ∧
  (∀ (total : Q) (s' : state),
     loss self s = (Ok total, s') →
     losses s' = terms ∧
     ∃ no_reg_loss : Q,
       get_total_loss false s' = (Ok no_reg_loss, s') ∧
       add_n terms = Ok no_reg_loss ∧
       ("Losses", "no_reg_loss", no_reg_loss) ∈ summaries s' ∧
       (regularization_losses s = [] → total = no_reg_loss) ∧
       (exact_on_small_integers add_n →
        a == 1.0 → b == 1.0 → c == 1.0 → d == 1.0 →
        no_reg_loss == 6.0)%Q).
Proof.
  intros Hinit Hrp Hcp Hrpn Hrcnn Hnil terms.
  apply init_inv in Hinit
    as (_ & _ & _ & Hwith & _ & Hw1 & Hw2 & Hw3 & Hw4 & Hobj & _).
  do 4 (split; [done|]). split.
  - intros no_reg_loss Hsum Hregs. eexists.
    eapply (loss_run self s rpn_prediction _ a b
              [("rcnn_cls_loss", c * 1.0); ("rcnn_reg_loss", d * 2.0)]%Q
              (<["rcnn_loss_dict" :=
                   VLosses [("rcnn_cls_loss", c * 1.0);
                            ("rcnn_reg_loss", d * 2.0)]%Q]>
                 (<["rpn_loss_dict" :=
                      VLosses [("rpn_cls_loss", a * 1.0);
                               ("rpn_reg_loss", b * 2.0)]%Q]> (bundle s)))
              no_reg_loss no_reg_loss 0.0%Q
              Hrp Hrpn eq_refl eq_refl).
    + rewrite Hwith, Hw1, Hw2, Hw3, Hw4, Hobj.
      eexists _, classification_prediction, _, c, d.
      split; [done|]. split; [done|]. split; [exact Hrcnn|].
      by repeat split.
    + by rewrite Hregs.
    + rewrite Hw1, Hw2, Hnil. exact Hsum.
    + rewrite Hw1, Hw2, Hnil, Hregs, app_nil_r. exact Hsum.
  - intros total s' Hloss.
    apply loss_inv in Hloss
      as (rp & raw & a' & b' & rcnn_loss_dict
          & Hrp' & Hraw & Ha & Hb & Hhead & Hlosses & Hregs & Htotal
          & nr & rg & Hnr & Hsum).
    rewrite Hrp in Hrp'. injection Hrp' as <-.
    rewrite Hrpn in Hraw. injection Hraw as <-.
    injection Ha as <-. injection Hb as <-.
    rewrite Hwith, Hobj in Hhead.
    destruct Hhead as (rcnn & cp & raw2 & c' & d'
                       & [= <-] & Hcp' & Hraw2 & Hc & Hd & -> & _).
    rewrite Hcp in Hcp'. injection Hcp' as <-.
    rewrite Hrcnn in Hraw2. injection Hraw2 as <-.
    injection Hc as <-. injection Hd as <-.
    rewrite Hw1, Hw2, Hw3, Hw4, Hnil in Hlosses. cbn in Hlosses.
    split; [exact Hlosses|].
    exists nr. rewrite Hlosses in Hnr.
    split; [|split; [exact Hnr|split; [|split]]].
    + unfold get_total_loss. by rewrite app_nil_r, Hlosses, Hnr.
    + rewrite Hsum, !elem_of_app, !elem_of_cons. right. right. right.
      by left.
    + intros Hnone. rewrite Hregs, Hnone, app_nil_r, Hlosses in Htotal.
      congruence.
    + intros Hexact Ha Hb Hc Hd.
      rewrite (Hexact terms nr); [|exists [1; 2; 1; 2]%Z|exact Hnr].
      * unfold terms, Qsum. cbn [foldr]. rewrite Ha, Hb, Hc, Hd. done.
      * split; [|done]. unfold terms.
        repeat constructor; rewrite ?Ha, ?Hb, ?Hc, ?Hd; done.
Qed.

(** C6. With the classification head disabled, a bundle returned by the
    forward pass holds only the RPN outputs and the debug intermediates,
    so none of the classification keys; and a returning [loss] adds to
    the losses collection the weighted terms of the RPN loss dict and
    nothing else, stores no RCNN loss dict, and its total is the sum of
    those terms (after the losses and regularization losses the graph
    already held). *)
Theorem classification_head_disabled `{ST : Stages} (self : FasterRCNN) :
  _with_rcnn self = false →
  (∀ (image gt_boxes : tensor) (is_training : bool)
     (prediction_dict : gmap string pyval),
     _build self image gt_boxes is_training = Ok prediction_dict →
     (∀ k, is_Some (prediction_dict !! k) →
        k = "rpn_prediction" ∨ k ∈ debug_keys) ∧
     (∀ k, k ∈ classification_keys → prediction_dict !! k = None)) ∧
  (∀ (s s' : state) (total : Q),
     loss self s = (Ok total, s') →
     ∃ (rpn_prediction : pyval) (raw_rpn : list (string * Q)) (a b : Q),
       bundle s !! "rpn_prediction" = Some rpn_prediction ∧
       rpn_loss (_rpn self) rpn_prediction = Ok raw_rpn ∧
       dict_get raw_rpn "rpn_cls_loss" = Some a ∧
       dict_get raw_rpn "rpn_reg_loss" = Some b ∧
       let rpn_loss_dict :=
         dict_set
           (dict_set raw_rpn "rpn_cls_loss"
              (a * _rpn_cls_loss_weight self)%Q)
           "rpn_reg_loss" (b * _rpn_reg_loss_weight self)%Q in
       losses s' = losses s ++ (snd <$> rpn_loss_dict) ∧
       bundle s' = <["rpn_loss_dict" := VLosses rpn_loss_dict]> (bundle s) ∧
       add_n (losses s ++ (snd <$> rpn_loss_dict)
              ++ regularization_losses s) = Ok total ∧
       (losses s = [] → regularization_losses s = [] →
        add_n (snd <$> rpn_loss_dict) = Ok total)).
Proof.
  intros Hoff. split.
  - intros image gt_boxes is_training d (pd & rp & aa & Hd)%build_inv.
    rewrite Hoff in Hd. unfold debug_keys, classification_keys.
    destruct (_debug self); cbn zeta in Hd; subst d; split.
    + intros k Hk.
      repeat (apply lookup_insert_is_Some in Hk as [<-|[_ Hk]];
              [right; set_solver|]).
      apply lookup_singleton_is_Some in Hk as <-. by left.
    + intros k Hk.
      repeat (apply elem_of_cons in Hk as [->|Hk]);
        [..|by apply elem_of_nil in Hk]; by simplify_map_eq.
    + intros k Hk. apply lookup_singleton_is_Some in Hk as <-. by left.
    + intros k Hk.
      repeat (apply elem_of_cons in Hk as [->|Hk]);
        [..|by apply elem_of_nil in Hk]; by simplify_map_eq.
  - intros s s' total Hloss.
    apply loss_inv in Hloss
      as (rp & raw & a & b & rcnn_loss_dict
          & Hrp & Hraw & Ha & Hb & Hrcnn & Hlosses & Hregs & Htotal & _).
    rewrite Hoff in Hrcnn. destruct Hrcnn as [-> Hbundle].
    rewrite app_nil_r in Hlosses.
    exists rp, raw, a, b. cbn zeta.
    rewrite Hlosses, Hregs, <- app_assoc in Htotal.
    repeat split; try done.
    intros Hl Hr. by rewrite Hl, Hr, app_nil_r in Htotal.
Qed.

(** C9. A returning [loss] yields one scalar, the total of the losses
    collection and the regularization losses, and leaves the bundle
    changed in this way only: ['rpn_loss_dict'] holds the RPN loss dict
    with its classification and regression terms multiplied by their
    weights, and, when the classification head is on, ['rcnn_loss_dict']
    holds the RCNN loss dict weighted likewise (with the head off that key
    is untouched). *)
Theorem loss_itemizes_weighted_terms `{ST : Stages} (self : FasterRCNN)
    (s s' : state) (total : Q) :
  loss self s = (Ok total, s') →
  add_n (losses s' ++ regularization_losses s') = Ok total ∧
  (∀ k, k ≠ "rpn_loss_dict" → k ≠ "rcnn_loss_dict" →
     bundle s' !! k = bundle s !! k) ∧
  (∃ (rpn_prediction : pyval) (raw stored : list (string * Q)) (a b : Q),
     bundle s !! "rpn_prediction" = Some rpn_prediction ∧
     rpn_loss (_rpn self) rpn_prediction = Ok raw ∧
     bundle s' !! "rpn_loss_dict" = Some (VLosses stored) ∧
     dict_get raw "rpn_cls_loss" = Some a ∧
     dict_get raw "rpn_reg_loss" = Some b ∧
     dict_get stored "rpn_cls_loss"
       = Some (a * _rpn_cls_loss_weight self)%Q ∧
     dict_get stored "rpn_reg_loss"
       = Some (b * _rpn_reg_loss_weight self)%Q ∧
     ∀ k, k ≠ "rpn_cls_loss" → k ≠ "rpn_reg_loss" →
       dict_get stored k = dict_get raw k) ∧
  (if _with_rcnn self then
     ∃ (rcnn : RCNN) (classification_prediction : pyval)
       (raw stored : list (string * Q)) (c d : Q),
       _rcnn self = Some rcnn ∧
       bundle s !! "classification_prediction"
         = Some classification_prediction ∧
       rcnn_loss rcnn classification_prediction = Ok raw ∧
       bundle s' !! "rcnn_loss_dict" = Some (VLosses stored) ∧
       dict_get raw "rcnn_cls_loss" = Some c ∧
       dict_get raw "rcnn_reg_loss" = Some d ∧
       dict_get stored "rcnn_cls_loss"
         = Some (c * _rcnn_cls_loss_weight self)%Q ∧
       dict_get stored "rcnn_reg_loss"
         = Some (d * _rcnn_reg_loss_weight self)%Q ∧
       ∀ k, k ≠ "rcnn_cls_loss" → k ≠ "rcnn_reg_loss" →
         dict_get stored k = dict_get raw k
   else bundle s' !! "rcnn_loss_dict" = bundle s !! "rcnn_loss_dict").
Proof.
  intros Hloss.
  apply loss_inv in Hloss
    as (rp & raw & a & b & rcnn_loss_dict
        & Hrp & Hraw & Ha & Hb & Hrcnn & _ & _ & Htotal & _).
  cbn zeta in Hrcnn.
  set (rpn_loss_dict := dict_set (dict_set raw _ _) _ _) in *.
  split; [done|].
  assert (Hrpn_dict :
    dict_get rpn_loss_dict "rpn_cls_loss"
      = Some (a * _rpn_cls_loss_weight self)%Q ∧
    dict_get rpn_loss_dict "rpn_reg_loss"
      = Some (b * _rpn_reg_loss_weight self)%Q ∧
    ∀ k, k ≠ "rpn_cls_loss" → k ≠ "rpn_reg_loss" →
      dict_get rpn_loss_dict k = dict_get raw k).
  { unfold rpn_loss_dict. split; [|split].
    - by rewrite dict_get_set_ne, dict_get_set_eq.
    - by rewrite dict_get_set_eq.
    - intros k Hk1 Hk2. by rewrite !dict_get_set_ne. }
  destruct Hrpn_dict as (Hcls & Hreg & Hother).
  destruct (_with_rcnn self).
  - destruct Hrcnn as (rcnn & cp & raw2 & c & d
                       & Hr & Hcp & Hraw2 & Hc & Hd & -> & Hbundle).
    rewrite Hbundle. split; [|split].
    + intros k Hk1 Hk2. by rewrite !lookup_insert_ne.
    + exists rp, raw, rpn_loss_dict, a, b.
      rewrite lookup_insert_ne, lookup_insert_eq by done. by repeat split.
    + eexists rcnn, cp, raw2, _, c, d. rewrite lookup_insert_eq.
      repeat split; try done.
      * by rewrite dict_get_set_ne, dict_get_set_eq.
      * by rewrite dict_get_set_eq.
      * intros k Hk1 Hk2. by rewrite !dict_get_set_ne.
  - destruct Hrcnn as [-> Hbundle].
    rewrite Hbundle. split; [|split].
    + intros k Hk1 Hk2. by rewrite lookup_insert_ne.
    + exists rp, raw, rpn_loss_dict, a, b.
      rewrite lookup_insert_eq. by repeat split.
    + by rewrite lookup_insert_ne.
Qed.

(** ** The definitions run on the sample instance *)

Example sample_init :
  __init__ (AR := Sample.reference) Sample.cfg false true (Some 20) "vgg"
    "fasterrcnn"
  = Ok (Sample.net false true).
Proof. vm_refl. Qed.

Example sample_init_invalid :
  __init__ (AR := Sample.reference) Sample.cfg false true (Some 20)
    "alexnet" "fasterrcnn"
  = Raise (ValueError "Invalid type for pretrained module").
Proof. vm_refl. Qed.


(** Feature map of shape (2, 3), stride 16: six cells, x-shifts 0, 16, 32
    and y-shifts 0, 16. *)
Example sample_shifts :
  anchor_shifts 16 2 3
  = Ok [[0; 0; 0; 0]; [16; 0; 16; 0]; [32; 0; 32; 0];
        [0; 16; 0; 16]; [16; 16; 16; 16]; [32; 16; 32; 16]]%Z.
Proof. vm_refl. Qed.

(** Two reference anchors on that grid: twelve boxes, the two variants
    of a cell next to each other, coordinates left as they come (also
    negative ones). *)
Example sample_anchors :
  _generate_anchors (Sample.net false true) Sample.feature_map
  = Ok [[-8; -8; 7; 7]; [-16; -16; 15; 15];
        [8; -8; 23; 7]; [0; -16; 31; 15];
        [24; -8; 39; 7]; [16; -16; 47; 15];
        [-8; 8; 7; 23]; [-16; 0; 15; 31];
        [8; 8; 23; 23]; [0; 0; 31; 31];
        [24; 8; 39; 23]; [16; 0; 47; 31]]%Z.
Proof. vm_refl. Qed.

Example sample_anchors_bad_rank :
  _generate_anchors (Sample.net false true) (Tensor [2; 3] [])
  = Raise (ValueError "slice index out of bounds").
Proof. vm_refl. Qed.

(** Stride 2^30 on a grid one cell high and three wide: the third
    x-shift, 2^31, wraps to -2^31, and so do the sums with it. *)
Example sample_shifts_wide_stride :
  anchor_shifts 1073741824 1 3
  = Ok [[0; 0; 0; 0]; [1073741824; 0; 1073741824; 0];
        [-2147483648; 0; -2147483648; 0]]%Z.
Proof. vm_refl. Qed.

Example sample_anchors_wide_stride :
  _generate_anchors Variant.wide_stride (Tensor [1; 1; 3; 8] [])
  = Ok [[-8; -8; 7; 7]; [1073741816; -8; 1073741831; 7];
        [2147483640; -8; -2147483641; 7]]%Z.
Proof. vm_refl. Qed.

(** Stride -16: the x-shifts are 0, -16, -32. *)
Example sample_shifts_negative_stride :
  anchor_shifts (-16) 2 3
  = Ok [[0; 0; 0; 0]; [-16; 0; -16; 0]; [-32; 0; -32; 0];
        [0; -16; 0; -16]; [-16; -16; -16; -16]; [-32; -16; -32; -16]]%Z.
Proof. vm_refl. Qed.

Example sample_anchors_negative_stride :
  _generate_anchors Variant.negative_stride (Tensor [1; 2; 3; 8] [])
  = Ok [[-8; -8; 7; 7]; [-24; -8; -9; 7]; [-40; -8; -25; 7];
        [-8; -24; 7; -9]; [-24; -24; -9; -9]; [-40; -24; -25; -9]]%Z.
Proof. vm_refl. Qed.

(** A reference anchor (-3.5, 2, 18.5, 13) enters the sum as
    (-3, 2, 18, 13). *)
Example sample_anchors_fractional :
  _generate_anchors Variant.fractional (Tensor [1; 1; 1; 8] [])
  = Ok [[-3; 2; 18; 13]]%Z.
Proof. vm_refl. Qed.

Example sample_build :
  _build (ST := Sample.stages) (Sample.net false true) Sample.image
    Sample.gt_boxes true
  = Ok Sample.prediction_dict.
Proof. vm_refl. Qed.

Example sample_build_rpn_only :
  _build (ST := Sample.stages) (Sample.net false false) Sample.image
    Sample.gt_boxes true
  = Ok {[ "rpn_prediction" := Sample.rpn_prediction ]}.
Proof. vm_refl. Qed.

Example sample_loss_total :
  (loss (ST := Sample.stages) (Sample.net false true)
     (Sample.state0 Sample.prediction_dict)).1 = Ok 6.00000000%Q.
Proof. vm_refl. Qed.

Example sample_loss_collected :
  losses (loss (ST := Sample.stages) (Sample.net false true)
            (Sample.state0 Sample.prediction_dict)).2
  = [1.00; 2.00; 1.00; 2.00]%Q.
Proof. vm_refl. Qed.

(** Without the key [loss] reads first, it raises and leaves the state. *)
Example sample_loss_missing_key :
  loss (ST := Sample.stages) (Sample.net false true) (Sample.state0 ∅)
  = (Raise (KeyError "rpn_prediction"), Sample.state0 ∅).
Proof. vm_refl. Qed.

(** The sum without rounding is the sum. *)
Lemma foldl_Qplus (x : Q) (l : list Q) : (foldl Qplus x l == x + Qsum l)%Q.
Proof.
  revert x. induction l as [|y l IH]; intros x; unfold Qsum; cbn [foldl foldr].
  - ring.
  - fold (Qsum l). rewrite IH. ring.
Qed.

Lemma rational_sum_Qsum (l : list Q) (t : Q) :
  Sample.rational_sum l = Ok t → (t == Qsum l)%Q.
Proof.
  destruct l as [|x l]; [done|]. intros [= <-].
  rewrite foldl_Qplus. reflexivity.
Qed.

Lemma rational_sum_exact : exact_on_small_integers Sample.rational_sum.
Proof. intros ts t _. apply rational_sum_Qsum. Qed.

(** [loss] on the sample bundle, by [loss_run]. *)
Lemma sample_loss_run (debug with_rcnn : bool) :
  ∃ (total : Q) (s' : state),
    loss (ST := Sample.stages) (Sample.net debug with_rcnn)
      (Sample.state0 Sample.prediction_dict) = (Ok total, s').
Proof.
  destruct with_rcnn.
  - eexists _, _.
    eapply (loss_run (ST := Sample.stages) (Sample.net debug true)
              (Sample.state0 Sample.prediction_dict)
              Sample.rpn_prediction
              [("rpn_cls_loss", 1.0%Q); ("rpn_reg_loss", 1.0%Q)]
              1.0%Q 1.0%Q
              [("rcnn_cls_loss", 1.0 * 1.0); ("rcnn_reg_loss", 1.0 * 2.0)]%Q
              (<["rcnn_loss_dict" :=
                   VLosses [("rcnn_cls_loss", 1.0 * 1.0);
                            ("rcnn_reg_loss", 1.0 * 2.0)]%Q]>
                 (<["rpn_loss_dict" :=
                      VLosses [("rpn_cls_loss", 1.0 * 1.0);
                               ("rpn_reg_loss", 1.0 * 2.0)]%Q]>
                    Sample.prediction_dict))).
    + vm_refl.
    + reflexivity.
    + reflexivity.
    + reflexivity.
    + eexists _, Sample.classification_prediction, _, 1.0%Q, 1.0%Q.
      split; [reflexivity|]. split; [vm_refl|].
      split; [reflexivity|]. by repeat split.
    + reflexivity.
    + reflexivity.
    + reflexivity.
  - eexists _, _.
    eapply (loss_run (ST := Sample.stages) (Sample.net debug false)
              (Sample.state0 Sample.prediction_dict)
              Sample.rpn_prediction
              [("rpn_cls_loss", 1.0%Q); ("rpn_reg_loss", 1.0%Q)]
              1.0%Q 1.0%Q []
              (<["rpn_loss_dict" :=
                   VLosses [("rpn_cls_loss", 1.0 * 1.0);
                            ("rpn_reg_loss", 1.0 * 2.0)]%Q]>
                 Sample.prediction_dict)).
    + vm_refl.
    + reflexivity.
    + reflexivity.
    + reflexivity.
    + by split.
    + reflexivity.
    + reflexivity.
    + reflexivity.
Defined.

(** ** The theorems at the sample instance *)

Lemma sample_boxes_in_int32 :
  Forall box_in_int32 (_anchor_reference (Sample.net false true)).
Proof.
  cbn [_anchor_reference Sample.net].
  repeat (apply Forall_cons; split); try apply Forall_nil;
    unfold box_in_int32, box_row;
    repeat (apply Forall_cons; split); try apply Forall_nil.
  all: unfold in_int32, int32_min, int32_max, Qtruncate; cbn;
    rewrite ?Z.quot_1_r; try done; lia.
Qed.

Lemma sample_stride_in_int32 :
  in_int32 (_anchor_stride (Sample.net false true)).
Proof. unfold in_int32, int32_min, int32_max. cbn. lia. Qed.

Lemma generate_anchors_translated_references_witness :
  ∃ all_anchors,
    _generate_anchors (Sample.net false true) Sample.feature_map
      = Ok all_anchors ∧
    [24; -8; 39; 7]%Z ∈ all_anchors.
Proof.
  destruct (generate_anchors_translated_references
              (Sample.net false true) 1 2 3 8 []
              sample_stride_in_int32 sample_boxes_in_int32)
    as (all_anchors & Hgen & Hin & _).
  exists all_anchors. split; [exact Hgen|].
  apply Hin. exists (Box (-8) (-8) 7 7), 2, 0.
  split; [left|]. split; [lia|]. split; [lia|]. reflexivity.
Defined.

(** C1, as stated, fails on a stride of 2^30 and a grid three cells
    wide: the last box of the result is (2147483640, -8, -2147483641, 7),
    which is no reference anchor plus (i*S, j*S, i*S, j*S). *)
Lemma generate_anchors_translated_references_counterexample :
  ∃ (all_anchors : list (list Z)) (b : list Z),
    _generate_anchors Variant.wide_stride (Tensor [1; 1; 3; 8] [])
      = Ok all_anchors ∧
    b ∈ all_anchors ∧
    ¬ ∃ (r : box) (i j : nat),
        r ∈ _anchor_reference Variant.wide_stride ∧ i < 3 ∧ j < 1 ∧
        let shift_x :=
          inject_Z (Z.of_nat i * _anchor_stride Variant.wide_stride) in
        let shift_y :=
          inject_Z (Z.of_nat j * _anchor_stride Variant.wide_stride) in
        same_numbers b
          [x1 r + shift_x; y1 r + shift_y; x2 r + shift_x; y2 r + shift_y]%Q.
Proof.
  eexists _, [2147483640; -8; -2147483641; 7]%Z.
  split; [exact sample_anchors_wide_stride|].
  split; [do 2 right; left|].
  intros (r & i & j & Hr & Hi & Hj & Hsame).
  apply list_elem_of_singleton in Hr as ->. cbn in Hsame.
  apply Forall2_cons in Hsame as [H1 Hsame].
  apply Forall2_cons in Hsame as [_ Hsame].
  apply Forall2_cons in Hsame as [H3 _].
  unfold Qeq in H1, H3. cbn in H1, H3. lia.
Qed.

Lemma generate_anchors_count_and_shift_range_witness :
  ∃ all_anchors shifts,
    _generate_anchors (Sample.net false true) Sample.feature_map
      = Ok all_anchors ∧
    anchor_shifts 16 2 3 = Ok shifts ∧
    all_anchors = shifted (_anchor_reference (Sample.net false true)) shifts ∧
    length all_anchors = 2 * 3 * 2 ∧
    minimum (column 0 shifts) = Some 0%Z ∧
    maximum (column 0 shifts) = Some 32%Z ∧
    minimum (column 1 shifts) = Some 0%Z ∧
    maximum (column 1 shifts) = Some 16%Z.
Proof.
  destruct (generate_anchors_count_and_shift_range
              (Sample.net false true) 1 2 3 8 [] sample_stride_in_int32)
    as (all_anchors & shifts & Hgen & Hshifts & Htie & Hlen & Hrange).
  exists all_anchors, shifts.
  split; [exact Hgen|]. split; [exact Hshifts|]. split; [exact Htie|].
  split; [exact Hlen|].
  apply Hrange; unfold int32_max; cbn; lia.
Defined.

(** C2, as stated, fails on a negative stride: with S = -16 on a grid of
    shape (2, 3) the x-shifts applied are 0, -16, -32, so the least is
    -32, not 0, and the greatest is 0, not (W-1)*S = -32. *)
Lemma generate_anchors_count_and_shift_range_counterexample :
  ∃ all_anchors shifts,
    _generate_anchors Variant.negative_stride (Tensor [1; 2; 3; 8] [])
      = Ok all_anchors ∧
    anchor_shifts (_anchor_stride Variant.negative_stride) 2 3
      = Ok shifts ∧
    all_anchors
      = shifted (_anchor_reference Variant.negative_stride) shifts ∧
    minimum (column 0 shifts) = Some (-32)%Z ∧
    minimum (column 0 shifts) ≠ Some 0%Z ∧
    maximum (column 0 shifts) = Some 0%Z ∧
    maximum (column 0 shifts)
      ≠ Some (Z.of_nat (3 - 1) * _anchor_stride Variant.negative_stride)%Z.
Proof.
  eexists _, _.
  split; [exact sample_anchors_negative_stride|].
  split; [exact sample_shifts_negative_stride|].
  split; [reflexivity|]. split; [reflexivity|]. split; [discriminate|].
  split; [reflexivity|discriminate].
Qed.

Lemma generate_anchors_cell_major_witness :
  ∃ all_anchors,
    _generate_anchors (Sample.net false true) Sample.feature_map
      = Ok all_anchors ∧
    all_anchors !! (4 * 2 + 1) = Some [0; 0; 31; 31]%Z.
Proof.
  destruct (generate_anchors_cell_major (Sample.net false true) 1 2 3 8 []
              sample_stride_in_int32 sample_boxes_in_int32)
    as (all_anchors & shifts & Hgen & Hshifts & _ & Hindex).
  exists all_anchors. split; [exact Hgen|].
  apply (Hindex 4 1 [16; 16; 16; 16]%Z (Box (-16) (-16) 15 15)).
  - change (anchor_shifts 16 2 3 = Ok shifts) in Hshifts.
    rewrite sample_shifts in Hshifts. injection Hshifts as <-. reflexivity.
  - reflexivity.
Defined.

(** C3, as stated, fails on a stride of 2^30 and a grid three cells
    wide: the shift of grid point 2 is -2^31, and the anchor at flat
    index 2 * 1 + 0 is (2147483640, -8, -2147483641, 7), not the
    reference anchor (-8, -8, 7, 7) plus that shift. *)
Lemma generate_anchors_cell_major_counterexample :
  ∃ (all_anchors shifts : list (list Z)) (s row : list Z) (r : box),
    _generate_anchors Variant.wide_stride (Tensor [1; 1; 3; 8] [])
      = Ok all_anchors ∧
    anchor_shifts (_anchor_stride Variant.wide_stride) 1 3 = Ok shifts ∧
    shifts !! 2 = Some s ∧
    _anchor_reference Variant.wide_stride !! 0 = Some r ∧
    all_anchors !! (2 * length (_anchor_reference Variant.wide_stride) + 0)
      = Some row ∧
    ¬ same_numbers row (plain_translate r s).
Proof.
  eexists _, _, _, _, _.
  split; [exact sample_anchors_wide_stride|].
  split; [exact sample_shifts_wide_stride|].
  split; [reflexivity|]. split; [reflexivity|]. split; [reflexivity|].
  intros [H1 _]%Forall2_cons. unfold Qeq in H1. cbn in H1. lia.
Qed.




Lemma loss_weights_and_total_witness :
  ∃ total s',
    loss (ST := Sample.stages) (Sample.net false true)
      (Sample.state0 Sample.prediction_dict) = (Ok total, s') ∧
    (total == 6.0)%Q.
Proof.
  destruct (loss_weights_and_total (AR := Sample.reference)
              (ST := Sample.stages) Sample.cfg false (Some 20) "vgg"
              "fasterrcnn" (Sample.net false true)
              (Sample.state0 Sample.prediction_dict)
              Sample.rpn_prediction Sample.classification_prediction
              1.0 1.0 1.0 1.0)
    as (_ & _ & _ & _ & Hreturns & Hterms); try vm_refl.
  destruct (Hreturns _ eq_refl eq_refl) as [s' Hloss].
  eexists _, s'. split; [exact Hloss|].
  destruct (Hterms _ _ Hloss) as (_ & nr & _ & _ & _ & Htotal & Hsix).
  rewrite (Htotal eq_refl).
  apply Hsix; [exact rational_sum_exact|reflexivity..].
Defined.

Lemma classification_head_disabled_witness :
  (_build (ST := Sample.stages) (Sample.net false false) Sample.image
     Sample.gt_boxes true
   = Ok {[ "rpn_prediction" := Sample.rpn_prediction ]} ∧
   ∀ k, k ∈ classification_keys →
     ({[ "rpn_prediction" := Sample.rpn_prediction ]} : gmap string pyval)
       !! k = None) ∧
  (∃ total s',
     loss (ST := Sample.stages) (Sample.net false false)
       (Sample.state0 Sample.prediction_dict) = (Ok total, s') ∧
     losses s' = [1.0 * 1.0; 1.0 * 2.0]%Q ∧
     add_n (Stages := Sample.stages) [1.0 * 1.0; 1.0 * 2.0]%Q = Ok total).
Proof.
  destruct (classification_head_disabled (ST := Sample.stages)
              (Sample.net false false) eq_refl) as [Hbuild Hloss].
  split.
  - assert (Hb : _build (ST := Sample.stages) (Sample.net false false)
                   Sample.image Sample.gt_boxes true
                 = Ok {[ "rpn_prediction" := Sample.rpn_prediction ]})
      by vm_refl.
    split; [exact Hb|]. exact (proj2 (Hbuild _ _ _ _ Hb)).
  - destruct (sample_loss_run false false) as (total & s' & Hrun).
    exists total, s'. split; [exact Hrun|].
    destruct (Hloss _ _ _ Hrun)
      as (rp & raw & a & b & _ & Hraw & Ha & Hb & Hlosses & _ & _ & Htotal).
    injection Hraw as <-. injection Ha as <-. injection Hb as <-.
    split; [exact Hlosses|]. by apply Htotal.
Defined.


Lemma loss_itemizes_weighted_terms_witness :
  ∃ total s' stored,
    loss (ST := Sample.stages) (Sample.net false true)
      (Sample.state0 Sample.prediction_dict) = (Ok total, s') ∧
    add_n (Stages := Sample.stages)
      (losses s' ++ regularization_losses s') = Ok total ∧
    bundle s' !! "rpn_loss_dict" = Some (VLosses stored) ∧
    dict_get stored "rpn_cls_loss" = Some (1.0 * 1.0)%Q ∧
    dict_get stored "rpn_reg_loss" = Some (1.0 * 2.0)%Q.
Proof.
  destruct (sample_loss_run false true) as (total & s' & Hrun).
  destruct (loss_itemizes_weighted_terms (ST := Sample.stages) _ _ _ _ Hrun)
    as (Htotal & _
        & (rp & raw & stored & a & b
           & _ & Hraw & Hstored & Ha & Hb & Hcls & Hreg & _) & _).
  injection Hraw as <-. injection Ha as <-. injection Hb as <-.
  exists total, s', stored. by repeat split.
Defined.

(** * Further properties of the orchestrator *)

(** ** Anchor grid: rank, dimensions, sizes *)

Lemma generate_anchors_low_rank (self : FasterRCNN) (fm : tensor) :
  length (tshape fm) < 3 →
  _generate_anchors self fm = Raise (ValueError "slice index out of bounds").
Proof.
  destruct fm as [[|a [|b [|c shape]]] data]; cbn [tshape length];
    intros Hlen; try lia; reflexivity.
Qed.

Lemma grid_points_nil (stride : Z) (H W : nat) :
  grid_points stride H W = [] ↔ H = 0 ∨ W = 0.
Proof.
  rewrite <- length_zero_iff_nil, length_grid_points. nia.
Qed.

Lemma grid_anchors_nil (refs : list box) (pts : list (Z * Z)) :
  grid_anchors refs pts = [] ↔ pts = [] ∨ refs = [].
Proof.
  rewrite <- !length_zero_iff_nil, length_grid_anchors. nia.
Qed.

Lemma generate_anchors_returns_iff_rank_aux (self : FasterRCNN)
    (fm : tensor) :
  is_Ok (_generate_anchors self fm) ↔ 3 ≤ length (tshape fm).
Proof.
  destruct (decide (length (tshape fm) < 3)) as [Hlow|Hhigh].
  - rewrite generate_anchors_low_rank by done. split; [by intros [a ?]|lia].
  - destruct fm as [[|n [|H [|W rest]]] data]; cbn [tshape length] in *;
      try lia.
    rewrite generate_anchors_rank3. split; [lia|by eexists].
Qed.

(** X1. [_generate_anchors] returns exactly on feature maps of rank 3 or
    more; on a tensor of lower rank the index into the sliced shape is out
    of range, which is refused with [ValueError]. *)
Theorem generate_anchors_returns_iff_rank (self : FasterRCNN) (fm : tensor) :
  (is_Ok (_generate_anchors self fm) ↔ 3 ≤ length (tshape fm)) ∧
  ((∃ msg, _generate_anchors self fm = Raise (ValueError msg))
   ↔ length (tshape fm) < 3) ∧
  (∀ e, _generate_anchors self fm = Raise e → ∃ msg, e = ValueError msg).
Proof.
  destruct (decide (length (tshape fm) < 3)) as [Hlow|Hhigh].
  - rewrite generate_anchors_low_rank by done. split; [|split]; [split|split|].
    + by intros [a ?].
    + lia.
    + done.
    + by eexists.
    + intros e [= <-]. by eexists.
  - destruct fm as [[|n [|H [|W rest]]] data]; cbn [tshape length] in *;
      try lia.
    rewrite generate_anchors_rank3. split; [|split]; [split|split|].
    + lia.
    + by eexists.
    + by intros [msg ?].
    + lia.
    + done.
Qed.

(** X2. Of the feature map only the two spatial dimensions matter: the
    batch size, the trailing dimensions and the contents are not read. *)
Theorem generate_anchors_only_spatial_dims (self : FasterRCNN)
    (n n' H W : nat) (rest rest' : list nat) (data data' : list Q) :
  _generate_anchors self (Tensor (n :: H :: W :: rest) data)
  = _generate_anchors self (Tensor (n' :: H :: W :: rest') data').
Proof. by rewrite !generate_anchors_rank3. Qed.

(** X3. The result is empty exactly when the grid has no cell or there is
    no reference anchor. *)
Theorem generate_anchors_empty_iff (self : FasterRCNN) (n H W : nat)
    (rest : list nat) (data : list Q) :
  _generate_anchors self (Tensor (n :: H :: W :: rest) data) = Ok []
  ↔ H = 0 ∨ W = 0 ∨ _anchor_reference self = [].
Proof.
  rewrite generate_anchors_rank3. split.
  - intros [= Hnil]. apply grid_anchors_nil in Hnil as [Hpts| ->]; [|auto].
    apply grid_points_nil in Hpts. tauto.
  - intros Hcase. f_equal. apply grid_anchors_nil.
    rewrite grid_points_nil. tauto.
Qed.

(** X4. Translation keeps sizes.  For a stride that is an [int32] value,
    reference coordinates within [int32] and a grid on which no shifted
    coordinate leaves [int32], every generated box has four coordinates,
    and its width and height are those of a reference anchor with its
    coordinates truncated toward zero; so when every reference anchor has
    x1 <= x2 and y1 <= y2, every generated box has. *)
Theorem generate_anchors_keep_sizes (self : FasterRCNN) (n H W : nat)
    (rest : list nat) (data : list Q) (all_anchors : list (list Z)) :
  _generate_anchors self (Tensor (n :: H :: W :: rest) data)
    = Ok all_anchors →
  in_int32 (_anchor_stride self) →
  Forall box_in_int32 (_anchor_reference self) →
  no_overflow (_anchor_reference self) (_anchor_stride self) H W →
  ∀ b, b ∈ all_anchors →
    ∃ (r : box) (bx1 by1 bx2 by2 : Z),
      r ∈ _anchor_reference self ∧
      b = [bx1; by1; bx2; by2] ∧
      (bx2 - bx1 = Qtruncate (x2 r) - Qtruncate (x1 r))%Z ∧
      (by2 - by1 = Qtruncate (y2 r) - Qtruncate (y1 r))%Z ∧
      ((x1 r <= x2 r)%Q → (bx1 ≤ bx2)%Z) ∧
      ((y1 r <= y2 r)%Q → (by1 ≤ by2)%Z).
Proof.
  intros Hgen _ Hrefs Hfit b Hb. rewrite Forall_forall in Hrefs.
  rewrite generate_anchors_rank3 in Hgen. injection Hgen as <-.
  apply elem_of_grid_anchors in Hb as (r & p & Hr & Hp & ->).
  apply elem_of_grid_points in Hp as (i & j & Hi & Hj & ->).
  rewrite translate_exact by auto.
  destruct r as [a1 b1 a2 b2]. cbn.
  eexists (Box a1 b1 a2 b2), _, _, _, _.
  split; [done|]. split; [reflexivity|]. cbn.
  split; [lia|]. split; [lia|]. split.
  - intros Hle%Qtruncate_le. lia.
  - intros Hle%Qtruncate_le. lia.
Qed.

Lemma sample_no_overflow :
  no_overflow (_anchor_reference (Sample.net false true))
    (_anchor_stride (Sample.net false true)) 2 3.
Proof.
  intros r i j Hr Hi Hj. cbn in Hr.
  assert (Z.of_nat i * 16 ≤ 32 ∧ 0 ≤ Z.of_nat i * 16)%Z by lia.
  assert (Z.of_nat j * 16 ≤ 16 ∧ 0 ≤ Z.of_nat j * 16)%Z by lia.
  apply elem_of_cons in Hr as [->|Hr];
    [|apply list_elem_of_singleton in Hr as ->].
  all: unfold truncated, box_row, Qtruncate; cbn [fmap list_fmap x1 y1 x2 y2
         Qnum Qden shift_row zip_with fst snd _anchor_stride Sample.net].
  all: rewrite !Z.quot_1_r.
  all: repeat (apply Forall_cons; split); try apply Forall_nil.
  all: unfold in_int32, int32_min, int32_max; lia.
Qed.

Lemma generate_anchors_keep_sizes_witness :
  ∃ (r : box) (bx1 by1 bx2 by2 : Z),
    r ∈ _anchor_reference (Sample.net false true) ∧
    [24; -8; 39; 7]%Z = [bx1; by1; bx2; by2] ∧
    (bx2 - bx1 = Qtruncate (x2 r) - Qtruncate (x1 r))%Z ∧
    (by2 - by1 = Qtruncate (y2 r) - Qtruncate (y1 r))%Z ∧
    ((x1 r <= x2 r)%Q → (bx1 ≤ bx2)%Z) ∧
    ((y1 r <= y2 r)%Q → (by1 ≤ by2)%Z).
Proof.
  apply (generate_anchors_keep_sizes (Sample.net false true) 1 2 3 [8] [] _
           sample_anchors sample_stride_in_int32 sample_boxes_in_int32
           sample_no_overflow).
  rewrite !elem_of_cons. auto 10.
Defined.

(** X5. On a grid with at least one cell the first cell has shift zero:
    for reference coordinates within [int32] the result starts with the
    reference anchors themselves, their coordinates truncated toward
    zero. *)
Theorem generate_anchors_origin_cell (self : FasterRCNN) (n H W : nat)
    (rest : list nat) (data : list Q) :
  0 < H → 0 < W →
  Forall box_in_int32 (_anchor_reference self) →
  ∃ all_anchors,
    _generate_anchors self (Tensor (n :: H :: W :: rest) data)
      = Ok all_anchors ∧
    take (length (_anchor_reference self)) all_anchors
    = truncated <$> _anchor_reference self.
Proof.
  intros HH HW Hrefs. eexists. split; [apply generate_anchors_rank3|].
  destruct H as [|H]; [lia|]. destruct W as [|W]; [lia|].
  unfold grid_anchors, grid_points, tf_mul, tf_range.
  cbn [seq fmap list_fmap concat app].
  rewrite take_app_length' by by rewrite length_fmap.
  apply Forall_fmap_ext_1. eapply Forall_impl; [exact Hrefs|].
  intros r Hr. rewrite translate_truncated by done.
  unfold box_in_int32 in Hr. destruct r as [a1 b1 a2 b2].
  cbn in Hr |- *.
  apply Forall_cons in Hr as [H1 Hr]. apply Forall_cons in Hr as [H2 Hr].
  apply Forall_cons in Hr as [H3 Hr]. apply Forall_cons in Hr as [H4 _].
  unfold int32_add, int32_mul. rewrite Z.mul_0_l.
  change (wrap32 0) with 0%Z. rewrite !Z.add_0_r.
  by rewrite !wrap32_id.
Qed.

Lemma generate_anchors_origin_cell_witness :
  ∃ all_anchors,
    _generate_anchors Variant.fractional (Tensor [1; 2; 3; 8] [])
      = Ok all_anchors ∧
    take 1 all_anchors = [[-3; 2; 18; 13]]%Z.
Proof.
  apply (generate_anchors_origin_cell Variant.fractional 1 2 3 [8] []);
    [lia|lia|].
  cbn [_anchor_reference Variant.fractional Variant.net_with].
  repeat (apply Forall_cons; split); try apply Forall_nil;
    unfold box_in_int32, box_row;
    repeat (apply Forall_cons; split); try apply Forall_nil.
  all: unfold in_int32, int32_min, int32_max; vm_compute;
    split; discriminate.
Defined.

(** ** Forward pass: data flow, keys, errors *)

Lemma as_tensor_Ok (v : pyval) (t : tensor) :
  as_tensor v = Ok t → v = VTensor t.
Proof. destruct v; by intros [= ->]. Qed.

Lemma build_inv_full `{ST : Stages} (self : FasterRCNN)
    (image gt_boxes : tensor) (is_training : bool)
    (d : gmap string pyval) :
  _build self image gt_boxes is_training = Ok d →
  ∃ (pretrained_dict rpn_prediction : gmap string pyval) (fm : tensor)
    (all_anchors : list (list Z)),
    pretrained_call (_pretrained self) image is_training
      = Ok pretrained_dict ∧
    pretrained_dict !! "net" = Some (VTensor fm) ∧
    _generate_anchors self fm = Ok all_anchors ∧
    rpn_call (_rpn self) fm gt_boxes (slice 1 3 (tf_shape image))
      all_anchors is_training = Ok rpn_prediction ∧
    let d0 := with_debug self image gt_boxes pretrained_dict all_anchors
                {[ "rpn_prediction" := VDict rpn_prediction ]} in
    if _with_rcnn self then
      ∃ (roi : ROIPoolingLayer) (rcnn : RCNN) (proposals pooled : pyval)
        (roi_prediction classification_prediction : gmap string pyval),
        _roi_pool self = Some roi ∧
        _rcnn self = Some rcnn ∧
        rpn_prediction !! "proposals" = Some proposals ∧
        roi_pool_call roi proposals fm (slice 1 3 (tf_shape image))
          = Ok roi_prediction ∧
        roi_prediction !! "roi_pool" = Some pooled ∧
        rcnn_call rcnn pooled proposals gt_boxes
          (slice 1 3 (tf_shape image)) = Ok classification_prediction ∧
        d = with_classification self classification_prediction
              roi_prediction d0
    else d = d0.
Proof.
  intros Hb. unfold _build in Hb.
  apply result_bind_Ok in Hb as (pretrained_dict & Hpd & Hb).
  apply result_bind_Ok in Hb as (net & Hnet%getkey_Ok & Hb).
  apply result_bind_Ok in Hb as (fm & ->%as_tensor_Ok & Hb).
  apply result_bind_Ok in Hb as (all_anchors & Hgen & Hb).
  apply result_bind_Ok in Hb as (rpn_prediction & Hrpn & Hb).
  exists pretrained_dict, rpn_prediction, fm, all_anchors.
  do 4 (split; [done|]). cbn zeta.
  unfold with_classification, with_debug.
  destruct (_with_rcnn self).
  - apply result_bind_Ok in Hb as (roi & Hroi%getattr_Ok & Hb).
    apply result_bind_Ok in Hb as (proposals & Hprop%getkey_Ok & Hb).
    apply result_bind_Ok in Hb as (roi_prediction & Hroip & Hb).
    apply result_bind_Ok in Hb as (rcnn & Hrcnn%getattr_Ok & Hb).
    apply result_bind_Ok in Hb as (pooled & Hpooled%getkey_Ok & Hb).
    apply result_bind_Ok in Hb as (proposals' & Hprop'%getkey_Ok & Hb).
    apply result_bind_Ok in Hb as (cp & Hcp & Hb).
    assert (proposals' = proposals) as -> by congruence.
    exists roi, rcnn, proposals, pooled, roi_prediction, cp.
    do 6 (split; [done|]).
    destruct (_debug self); by injection Hb as <-.
  - destruct (_debug self); by injection Hb as <-.
Qed.

Lemma build_run `{ST : Stages} (self : FasterRCNN)
    (image gt_boxes : tensor) (is_training : bool)
    (pretrained_dict rpn_prediction : gmap string pyval) (fm : tensor)
    (all_anchors : list (list Z)) (d : gmap string pyval) :
  pretrained_call (_pretrained self) image is_training
    = Ok pretrained_dict →
  pretrained_dict !! "net" = Some (VTensor fm) →
  _generate_anchors self fm = Ok all_anchors →
  rpn_call (_rpn self) fm gt_boxes (slice 1 3 (tf_shape image))
    all_anchors is_training = Ok rpn_prediction →
  (let d0 := with_debug self image gt_boxes pretrained_dict all_anchors
               {[ "rpn_prediction" := VDict rpn_prediction ]} in
   if _with_rcnn self then
     ∃ (roi : ROIPoolingLayer) (rcnn : RCNN) (proposals pooled : pyval)
       (roi_prediction classification_prediction : gmap string pyval),
       _roi_pool self = Some roi ∧
       _rcnn self = Some rcnn ∧
       rpn_prediction !! "proposals" = Some proposals ∧
       roi_pool_call roi proposals fm (slice 1 3 (tf_shape image))
         = Ok roi_prediction ∧
       roi_prediction !! "roi_pool" = Some pooled ∧
       rcnn_call rcnn pooled proposals gt_boxes
         (slice 1 3 (tf_shape image)) = Ok classification_prediction ∧
       d = with_classification self classification_prediction
             roi_prediction d0
   else d = d0) →
  _build self image gt_boxes is_training = Ok d.
Proof.
  intros Hpd Hnet Hgen Hrpn Hrest. cbn zeta in Hrest.
  unfold _build, getkey. rewrite Hpd. cbn [mbind result_bind].
  rewrite Hnet. cbn [mbind result_bind as_tensor].
  rewrite Hgen. cbn [mbind result_bind].
  rewrite Hrpn. cbn [mbind result_bind].
  unfold with_classification, with_debug in Hrest.
  destruct (_with_rcnn self).
  - destruct Hrest as (roi & rcnn & proposals & pooled & roi_prediction & cp
                       & -> & -> & Hprop & Hroip & Hpooled & Hcp & ->).
    cbn [getattr mbind result_bind]. rewrite Hprop.
    cbn [mbind result_bind]. rewrite Hroip. cbn [mbind result_bind].
    rewrite Hpooled. cbn [mbind result_bind]. rewrite Hcp.
    cbn [mbind result_bind]. by destruct (_debug self).
  - subst d. by destruct (_debug self).
Qed.

Lemma getkey_Raise {V} (d : gmap string V) (k : string) (e : exception) :
  getkey d k = Raise e → d !! k = None ∧ e = KeyError k.
Proof. unfold getkey. destruct (d !! k); by intros [= <-]. Qed.

Lemma as_tensor_Raise (v : pyval) (e : exception) :
  as_tensor v = Raise e → e = TypeError "expected a tensor".
Proof. destruct v; by intros [= <-]. Qed.

Lemma getattr_Raise {A} (attr : string) (o : option A) (e : exception) :
  getattr attr o = Raise e → o = None ∧ e = AttributeError attr.
Proof. destruct o; by intros [= <-]. Qed.

Lemma generate_anchors_Raise (self : FasterRCNN) (fm : tensor)
    (e : exception) :
  _generate_anchors self fm = Raise e →
  length (tshape fm) < 3 ∧ e = ValueError "slice index out of bounds".
Proof.
  intros Hgen.
  destruct (decide (length (tshape fm) < 3)) as [Hlow|Hhigh].
  - rewrite generate_anchors_low_rank in Hgen by done. by injection Hgen as <-.
  - destruct fm as [[|n [|H [|W rest]]] data]; cbn [tshape length] in *;
      try lia.
    by rewrite generate_anchors_rank3 in Hgen.
Qed.

Lemma build_Raise_inv `{ST : Stages} (self : FasterRCNN)
    (image gt_boxes : tensor) (is_training : bool) (e : exception) :
  _build self image gt_boxes is_training = Raise e →
  raised_by_stage e ∨
  e = KeyError "net" ∨
  e = TypeError "expected a tensor" ∨
  e = ValueError "slice index out of bounds" ∨
  (_with_rcnn self = true ∧
   (e = KeyError "proposals" ∨
    e = KeyError "roi_pool" ∨
    (_roi_pool self = None ∧ e = AttributeError "_roi_pool") ∨
    (_rcnn self = None ∧ e = AttributeError "_rcnn"))).
Proof.
  intros Hb. unfold _build in Hb.
  apply result_bind_Raise in Hb as [Hb|(pd & _ & Hb)].
  { left. left. eauto. }
  apply result_bind_Raise in Hb as [[_ ->]%getkey_Raise|(net & _ & Hb)].
  { auto. }
  apply result_bind_Raise in Hb as [->%as_tensor_Raise|(fm & _ & Hb)].
  { auto. }
  apply result_bind_Raise in Hb
    as [[_ ->]%generate_anchors_Raise|(anchors & _ & Hb)].
  { auto. }
  apply result_bind_Raise in Hb as [Hb|(rp & _ & Hb)].
  { left. right. left. eauto 10. }
  destruct (_with_rcnn self); [|by destruct (_debug self)].
  apply result_bind_Raise in Hb as [[-> ->]%getattr_Raise|(roi & _ & Hb)].
  { do 4 right. split; [done|]. do 2 right. left. done. }
  apply result_bind_Raise in Hb as [[_ ->]%getkey_Raise|(proposals & _ & Hb)].
  { do 4 right. auto. }
  apply result_bind_Raise in Hb as [Hb|(roip & _ & Hb)].
  { left. do 2 right. left. eauto 10. }
  apply result_bind_Raise in Hb as [[-> ->]%getattr_Raise|(rcnn & _ & Hb)].
  { do 4 right. split; [done|]. do 3 right. done. }
  apply result_bind_Raise in Hb as [[_ ->]%getkey_Raise|(pooled & _ & Hb)].
  { do 4 right. auto. }
  apply result_bind_Raise in Hb as [[_ ->]%getkey_Raise|(prop' & _ & Hb)].
  { do 4 right. auto. }
  apply result_bind_Raise in Hb as [Hb|(cp & _ & Hb)].
  { left. do 3 right. left. eauto 10. }
  by destruct (_debug self).
Qed.

(** X6. The region-proposal stage is run on the backbone's ['net']
    tensor with the anchors [_generate_anchors] computes from it, the
    ground truth, the image's height and width and the training flag;
    what it returns is stored under ['rpn_prediction']. *)
Theorem build_rpn_receives_generated_anchors `{ST : Stages}
    (self : FasterRCNN) (image gt_boxes : tensor) (is_training : bool)
    (prediction_dict : gmap string pyval) :
  _build self image gt_boxes is_training = Ok prediction_dict →
  ∃ (pretrained_dict rpn_prediction : gmap string pyval) (fm : tensor)
    (all_anchors : list (list Z)),
    pretrained_call (_pretrained self) image is_training
      = Ok pretrained_dict ∧
    pretrained_dict !! "net" = Some (VTensor fm) ∧
    _generate_anchors self fm = Ok all_anchors ∧
    rpn_call (_rpn self) fm gt_boxes (slice 1 3 (tshape image)) all_anchors
      is_training = Ok rpn_prediction ∧
    prediction_dict !! "rpn_prediction" = Some (VDict rpn_prediction).
Proof.
  intros (pd & rp & fm & anchors & Hpd & Hnet & Hgen & Hrpn & Hd)%build_inv_full.
  exists pd, rp, fm, anchors. do 4 (split; [done|]).
  cbn zeta in Hd. unfold with_classification, with_debug in Hd.
  destruct (_with_rcnn self).
  - destruct Hd as (? & ? & ? & ? & ? & ? & _ & _ & _ & _ & _ & _ & ->).
    destruct (_debug self); by simplify_map_eq.
  - subst. destruct (_debug self); by simplify_map_eq.
Qed.

Lemma build_rpn_receives_generated_anchors_witness :
  ∃ (pretrained_dict rpn_prediction : gmap string pyval) (fm : tensor)
    (all_anchors : list (list Z)),
    pretrained_call (Stages := Sample.stages)
      (_pretrained (Sample.net false true)) Sample.image true
      = Ok pretrained_dict ∧
    pretrained_dict !! "net" = Some (VTensor fm) ∧
    _generate_anchors (Sample.net false true) fm = Ok all_anchors ∧
    rpn_call (Stages := Sample.stages) (_rpn (Sample.net false true)) fm
      Sample.gt_boxes (slice 1 3 (tshape Sample.image)) all_anchors true
      = Ok rpn_prediction ∧
    Sample.prediction_dict !! "rpn_prediction" = Some (VDict rpn_prediction).
Proof.
  exact (build_rpn_receives_generated_anchors (ST := Sample.stages)
           _ _ _ _ _ sample_build).
Defined.

(** X7. With the classification head on, ROI pooling is run on the
    ['proposals'] of the RPN output and the feature map, the
    classification stage on the pooled features (['roi_pool']) and the
    same proposals; its output is stored under
    ['classification_prediction'], and in debug mode the ROI pooling
    output under ['roi_prediction']. *)
Theorem build_classification_dataflow `{ST : Stages}
    (self : FasterRCNN) (image gt_boxes : tensor) (is_training : bool)
    (prediction_dict : gmap string pyval) :
  _build self image gt_boxes is_training = Ok prediction_dict →
  _with_rcnn self = true →
  ∃ (roi : ROIPoolingLayer) (rcnn : RCNN) (fm : tensor)
    (pretrained_dict rpn_prediction roi_prediction
       classification_prediction : gmap string pyval)
    (proposals pooled : pyval),
    _roi_pool self = Some roi ∧
    _rcnn self = Some rcnn ∧
    pretrained_call (_pretrained self) image is_training
      = Ok pretrained_dict ∧
    pretrained_dict !! "net" = Some (VTensor fm) ∧
    prediction_dict !! "rpn_prediction" = Some (VDict rpn_prediction) ∧
    rpn_prediction !! "proposals" = Some proposals ∧
    roi_pool_call roi proposals fm (slice 1 3 (tshape image))
      = Ok roi_prediction ∧
    roi_prediction !! "roi_pool" = Some pooled ∧
    rcnn_call rcnn pooled proposals gt_boxes (slice 1 3 (tshape image))
      = Ok classification_prediction ∧
    prediction_dict !! "classification_prediction"
      = Some (VDict classification_prediction) ∧
    (_debug self = true →
     prediction_dict !! "roi_prediction" = Some (VDict roi_prediction)).
Proof.
  intros (pd & rp & fm & anchors & Hpd & Hnet & Hgen & Hrpn & Hd)%build_inv_full
         Hon.
  cbn zeta in Hd. rewrite Hon in Hd.
  destruct Hd as (roi & rcnn & proposals & pooled & roip & cp
                  & Hroi & Hrcnn & Hprop & Hroip & Hpooled & Hcp & ->).
  exists roi, rcnn, fm, pd, rp, roip, cp, proposals, pooled.
  do 4 (split; [done|]).
  unfold with_classification, with_debug.
  destruct (_debug self); simplify_map_eq; by repeat split.
Qed.

Lemma build_classification_dataflow_witness :
  ∃ (classification_prediction : gmap string pyval)
    (proposals pooled : pyval),
    _build (ST := Sample.stages) (Sample.net false true) Sample.image
      Sample.gt_boxes true = Ok Sample.prediction_dict ∧
    rcnn_call (Stages := Sample.stages)
      {| rcnn_num_classes := Some 20; rcnn_debug := false |} pooled
      proposals Sample.gt_boxes [32; 48] = Ok classification_prediction ∧
    Sample.prediction_dict !! "classification_prediction"
      = Some (VDict classification_prediction).
Proof.
  destruct (build_classification_dataflow (ST := Sample.stages)
              _ _ _ _ _ sample_build eq_refl)
    as (roi & rcnn & fm & pd & rp & roip & cp & proposals & pooled
        & _ & [= <-] & _ & _ & _ & _ & _ & _ & Hcp & Hd & _).
  exists cp, proposals, pooled. split; [exact sample_build|]. by split.
Defined.

(** X8. In debug mode the bundle holds the inputs as they came, the
    image's height and width, the backbone's output, and the very anchors
    [_generate_anchors] computes from the backbone's ['net'] tensor. *)
Theorem build_debug_values `{ST : Stages}
    (self : FasterRCNN) (image gt_boxes : tensor) (is_training : bool)
    (prediction_dict : gmap string pyval) :
  _build self image gt_boxes is_training = Ok prediction_dict →
  _debug self = true →
  prediction_dict !! "image" = Some (VTensor image) ∧
  prediction_dict !! "gt_boxes" = Some (VTensor gt_boxes) ∧
  prediction_dict !! "image_shape"
    = Some (VShape (take 2 (drop 1 (tshape image)))) ∧
  ∃ (pretrained_dict : gmap string pyval) (fm : tensor)
    (all_anchors : list (list Z)),
    pretrained_call (_pretrained self) image is_training
      = Ok pretrained_dict ∧
    prediction_dict !! "pretrained_dict" = Some (VDict pretrained_dict) ∧
    pretrained_dict !! "net" = Some (VTensor fm) ∧
    _generate_anchors self fm = Ok all_anchors ∧
    prediction_dict !! "all_anchors" = Some (VAnchors all_anchors).
Proof.
  intros (pd & rp & fm & anchors & Hpd & Hnet & Hgen & Hrpn & Hd)%build_inv_full
         Hdebug.
  cbn zeta in Hd. unfold with_classification, with_debug in Hd.
  rewrite Hdebug in Hd.
  assert (Hkeys :
    prediction_dict !! "image" = Some (VTensor image) ∧
    prediction_dict !! "gt_boxes" = Some (VTensor gt_boxes) ∧
    prediction_dict !! "image_shape"
      = Some (VShape (take 2 (drop 1 (tshape image)))) ∧
    prediction_dict !! "pretrained_dict" = Some (VDict pd) ∧
    prediction_dict !! "all_anchors" = Some (VAnchors anchors)).
  { destruct (_with_rcnn self).
    - destruct Hd as (? & ? & ? & ? & ? & ? & _ & _ & _ & _ & _ & _ & ->).
      by simplify_map_eq.
    - subst. by simplify_map_eq. }
  destruct Hkeys as (? & ? & ? & ? & ?).
  do 3 (split; [done|]). by exists pd, fm, anchors.
Qed.

(** X9. The keys of a returned bundle are exactly: ['rpn_prediction'];
    the five debug keys in debug mode; ['classification_prediction'] with
    the classification head; ['roi_prediction'] with both. *)
Theorem build_key_set `{ST : Stages}
    (self : FasterRCNN) (image gt_boxes : tensor) (is_training : bool)
    (prediction_dict : gmap string pyval) :
  _build self image gt_boxes is_training = Ok prediction_dict →
  dom prediction_dict
  = ({[ "rpn_prediction" ]}
     ∪ (if _debug self then list_to_set debug_keys else ∅)
     ∪ (if _with_rcnn self then {[ "classification_prediction" ]} else ∅)
     ∪ (if _debug self && _with_rcnn self
        then {[ "roi_prediction" ]} else ∅) : gset string).
Proof.
  intros (pd & rp & aa & Hd)%build_inv.
  destruct (_debug self), (_with_rcnn self); cbn zeta in Hd;
    [destruct Hd as (cp & roi & ->)|rewrite Hd
    |destruct Hd as (cp & ->)|rewrite Hd];
    cbn [andb]; unfold debug_keys;
    rewrite ?dom_insert_L, dom_singleton_L; cbn [list_to_set foldr];
    set_solver.
Qed.

(** X10. With the classification head off the forward pass returns
    exactly when the backbone returns a dict whose ['net'] is a tensor of
    rank 3 or more and the region-proposal stage returns on it: nothing is
    asked of the RPN output, not even ['proposals']. *)
Theorem build_returns_iff_head_off `{ST : Stages}
    (self : FasterRCNN) (image gt_boxes : tensor) (is_training : bool) :
  _with_rcnn self = false →
  (is_Ok (_build self image gt_boxes is_training)
   ↔ ∃ (pretrained_dict : gmap string pyval) (fm : tensor)
       (all_anchors : list (list Z)),
       pretrained_call (_pretrained self) image is_training
         = Ok pretrained_dict ∧
       pretrained_dict !! "net" = Some (VTensor fm) ∧
       3 ≤ length (tshape fm) ∧
       _generate_anchors self fm = Ok all_anchors ∧
       is_Ok (rpn_call (_rpn self) fm gt_boxes (slice 1 3 (tshape image))
                all_anchors is_training)).
Proof.
  intros Hoff. split.
  - intros [d (pd & rp & fm & anchors & Hpd & Hnet & Hgen & Hrpn & _)%build_inv_full].
    exists pd, fm, anchors. do 2 (split; [done|]).
    split; [|split; [done|by exists rp]].
    apply (generate_anchors_returns_iff_rank_aux self fm). by exists anchors.
  - intros (pd & fm & anchors & Hpd & Hnet & _ & Hgen & [rp Hrpn]).
    eexists. eapply build_run; try done. by rewrite Hoff.
Qed.

(** ** Loss: failures, accumulation, totals *)

(** Every way a call of [loss] can go, by what it reads. *)
Lemma loss_cases `{ST : Stages} (self : FasterRCNN) (s : state) :
  match bundle s !! "rpn_prediction" with
  | None => loss self s = (Raise (KeyError "rpn_prediction"), s)
  | Some rpn_prediction =>
    match rpn_loss (_rpn self) rpn_prediction with
    | Raise e => loss self s = (Raise e, s)
    | Ok raw =>
      match dict_get raw "rpn_cls_loss", dict_get raw "rpn_reg_loss" with
      | None, _ => loss self s = (Raise (KeyError "rpn_cls_loss"), s)
      | Some _, None => loss self s = (Raise (KeyError "rpn_reg_loss"), s)
      | Some a, Some b =>
        let rpn_loss_dict :=
          weighted raw "rpn_cls_loss" "rpn_reg_loss" a b
            (_rpn_cls_loss_weight self) (_rpn_reg_loss_weight self) in
        let s1 := after_rpn s rpn_loss_dict in
        if _with_rcnn self then
          match _rcnn self with
          | None => loss self s = (Raise (AttributeError "_rcnn"), s1)
          | Some rcnn =>
            match bundle s !! "classification_prediction" with
            | None =>
                loss self s
                = (Raise (KeyError "classification_prediction"), s1)
            | Some classification_prediction =>
              match rcnn_loss rcnn classification_prediction with
              | Raise e => loss self s = (Raise e, s1)
              | Ok raw2 =>
                match dict_get raw2 "rcnn_cls_loss",
                      dict_get raw2 "rcnn_reg_loss" with
                | None, _ =>
                    loss self s = (Raise (KeyError "rcnn_cls_loss"), s1)
                | Some _, None =>
                    loss self s = (Raise (KeyError "rcnn_reg_loss"), s1)
                | Some c, Some d =>
                    let rcnn_loss_dict :=
                      weighted raw2 "rcnn_cls_loss" "rcnn_reg_loss" c d
                        (_rcnn_cls_loss_weight self)
                        (_rcnn_reg_loss_weight self) in
                    loss self s
                    = loss_totals
                        (after_loop s (rpn_loss_dict ++ rcnn_loss_dict)
                           (<["rcnn_loss_dict" := VLosses rcnn_loss_dict]>
                              (bundle s1)))
                end
              end
            end
          end
        else
          loss self s
          = loss_totals (after_loop s (rpn_loss_dict ++ []) (bundle s1))
      end
    end
  end.
Proof.
  destruct (bundle s !! "rpn_prediction") as [rp|] eqn:Hrp.
  2:{ unfold loss. apply stateful_bind_fail.
      unfold bundle_get, getkey. by rewrite Hrp. }
  destruct (rpn_loss (_rpn self) rp) as [raw|e] eqn:Hraw.
  2:{ unfold loss.
      erewrite stateful_bind_run
        by (unfold bundle_get, getkey; by rewrite Hrp).
      apply stateful_bind_fail. unfold lift. by rewrite Hraw. }
  destruct (dict_get raw "rpn_cls_loss") as [a|] eqn:Ha.
  2:{ unfold loss.
      erewrite stateful_bind_run
        by (unfold bundle_get, getkey; by rewrite Hrp).
      erewrite stateful_bind_run by (unfold lift; by rewrite Hraw).
      apply stateful_bind_fail. unfold lift, getitem_str. by rewrite Ha. }
  destruct (dict_get raw "rpn_reg_loss") as [b|] eqn:Hb.
  2:{ unfold loss.
      erewrite stateful_bind_run
        by (unfold bundle_get, getkey; by rewrite Hrp).
      erewrite stateful_bind_run by (unfold lift; by rewrite Hraw).
      erewrite stateful_bind_run
        by (unfold lift, getitem_str; by rewrite Ha).
      apply stateful_bind_fail. unfold lift, getitem_str.
      by rewrite dict_get_set_ne, Hb by done. }
  cbn zeta. unfold weighted.
  set (rpn_loss_dict := dict_set (dict_set raw _ _) _ _).
  destruct (_with_rcnn self) eqn:Hwith.
  2:{ apply (loss_reaches_totals self s rp raw a b []
               (<["rpn_loss_dict" := VLosses rpn_loss_dict]> (bundle s))
               Hrp Hraw Ha Hb).
      by rewrite Hwith. }
  assert (Hstart : ∀ r s',
    (rcnn ← lift (getattr "_rcnn" (_rcnn self));
     classification_prediction ← bundle_get "classification_prediction";
     rcnn_loss_dict ← lift (rcnn_loss rcnn classification_prediction);
     rcnn_cls_loss ← lift (getitem_str rcnn_loss_dict "rcnn_cls_loss");
     let rcnn_loss_dict :=
       dict_set rcnn_loss_dict "rcnn_cls_loss"
         (rcnn_cls_loss * _rcnn_cls_loss_weight self)%Q in
     rcnn_reg_loss ← lift (getitem_str rcnn_loss_dict "rcnn_reg_loss");
     let rcnn_loss_dict :=
       dict_set rcnn_loss_dict "rcnn_reg_loss"
         (rcnn_reg_loss * _rcnn_reg_loss_weight self)%Q in
     _ ← bundle_set "rcnn_loss_dict" (VLosses rcnn_loss_dict);
     mret rcnn_loss_dict) (after_rpn s rpn_loss_dict) = (Raise r, s') →
    loss self s = (Raise r, s')).
  { intros r s' Hfail. unfold loss.
    erewrite stateful_bind_run
      by (unfold bundle_get, getkey; by rewrite Hrp).
    erewrite stateful_bind_run by (unfold lift; by rewrite Hraw).
    erewrite stateful_bind_run
      by (unfold lift, getitem_str; by rewrite Ha).
    erewrite stateful_bind_run
      by (unfold lift, getitem_str; by rewrite dict_get_set_ne, Hb by done).
    fold rpn_loss_dict.
    erewrite stateful_bind_run by reflexivity.
    rewrite Hwith. apply stateful_bind_fail. exact Hfail. }
  destruct (_rcnn self) as [rcnn|] eqn:Hrcnn.
  2:{ apply Hstart. by apply stateful_bind_fail. }
  destruct (bundle s !! "classification_prediction") as [cp|] eqn:Hcp.
  2:{ apply Hstart. erewrite stateful_bind_run by reflexivity.
      apply stateful_bind_fail. unfold bundle_get, getkey. cbn.
      by rewrite lookup_insert_ne, Hcp by done. }
  destruct (rcnn_loss rcnn cp) as [raw2|e] eqn:Hraw2.
  2:{ apply Hstart. erewrite stateful_bind_run by reflexivity.
      erewrite stateful_bind_run
        by (unfold bundle_get, getkey; cbn;
            by rewrite lookup_insert_ne, Hcp by done).
      apply stateful_bind_fail. unfold lift. by rewrite Hraw2. }
  destruct (dict_get raw2 "rcnn_cls_loss") as [c|] eqn:Hc.
  2:{ apply Hstart. erewrite stateful_bind_run by reflexivity.
      erewrite stateful_bind_run
        by (unfold bundle_get, getkey; cbn;
            by rewrite lookup_insert_ne, Hcp by done).
      erewrite stateful_bind_run by (unfold lift; by rewrite Hraw2).
      apply stateful_bind_fail. unfold lift, getitem_str. by rewrite Hc. }
  destruct (dict_get raw2 "rcnn_reg_loss") as [d|] eqn:Hd.
  2:{ apply Hstart. erewrite stateful_bind_run by reflexivity.
      erewrite stateful_bind_run
        by (unfold bundle_get, getkey; cbn;
            by rewrite lookup_insert_ne, Hcp by done).
      erewrite stateful_bind_run by (unfold lift; by rewrite Hraw2).
      erewrite stateful_bind_run
        by (unfold lift, getitem_str; by rewrite Hc).
      apply stateful_bind_fail. unfold lift, getitem_str.
      by rewrite dict_get_set_ne, Hd by done. }
  apply (loss_reaches_totals self s rp raw a b _ _ Hrp Hraw Ha Hb).
  rewrite Hwith. exists rcnn, cp, raw2, c, d. by repeat split.
Qed.

(** A call of [loss] fails before its loop, the graph untouched, or it
    goes through the loop on some items and on to the three sums. *)
Lemma loss_outcome `{ST : Stages} (self : FasterRCNN) (s : state) :
  (∃ e s',
     loss self s = (Raise e, s') ∧
     losses s' = losses s ∧
     regularization_losses s' = regularization_losses s ∧
     summaries s' = summaries s ∧
     (bundle s' = bundle s ∨
      ∃ d, bundle s' = <["rpn_loss_dict" := VLosses d]> (bundle s))) ∨
  (∃ (items : list (string * Q)) (bundle' : gmap string pyval),
     loss self s = loss_totals (after_loop s items bundle') ∧
     items ≠ [] ∧
     ∀ k, k ≠ "rpn_loss_dict" → k ≠ "rcnn_loss_dict" →
       bundle' !! k = bundle s !! k).
Proof.
  pose proof (loss_cases self s) as Hcases.
  repeat
    match type of Hcases with
    | match ?x with _ => _ end => destruct x
    | if ?x then _ else _ => destruct x
    | let _ := _ in _ => cbn zeta in Hcases
    end.
  all: try (left; eexists _, _; split; [exact Hcases|]; cbn;
            by eauto 10).
  all: right; eexists _, _; split; [exact Hcases|]; split.
  all: try (intros [Hnil _]%app_eq_nil; unfold weighted in Hnil;
            by apply dict_set_not_nil in Hnil).
  all: intros k Hk1 Hk2; cbn; by rewrite ?lookup_insert_ne.
Qed.

(** X12. A failing [loss] has either failed before its loop over the
    loss items, and then it has not touched the graph (the bundle is as
    before or has gained ['rpn_loss_dict'] only); or it has failed in one
    of the three sums it asks of [add_n] after the loop, and then the
    losses and summaries of the items are in the graph already, and the
    three summaries of the totals are not.  The regularization losses are
    as before either way. *)
Theorem loss_failure_states `{ST : Stages} (self : FasterRCNN)
    (s s' : state) (e : exception) :
  loss self s = (Raise e, s') →
  regularization_losses s' = regularization_losses s ∧
  ((losses s' = losses s ∧
    summaries s' = summaries s ∧
    (bundle s' = bundle s ∨
     ∃ d, bundle s' = <["rpn_loss_dict" := VLosses d]> (bundle s)))
   ∨
   (∃ items : list (string * Q),
      items ≠ [] ∧
      losses s' = losses s ++ (snd <$> items) ∧
      summaries s' = summaries s ++ (loss_summary <$> items) ∧
      (regularization_total (regularization_losses s) = Raise e ∨
       add_n (losses s') = Raise e ∨
       add_n (losses s' ++ regularization_losses s) = Raise e))).
Proof.
  intros Hfail.
  destruct (loss_outcome self s)
    as [(e' & s1 & Hloss & Hl & Hr & Hs & Hb)
       |(items & bundle' & Hloss & Hne & _)].
  - rewrite Hloss in Hfail. injection Hfail as <- <-. auto.
  - rewrite Hloss in Hfail. apply loss_totals_inv in Hfail as [-> Hsum].
    split; [done|]. right. exists items. by repeat split.
Qed.

(** X13. With the classification head on and no
    ['classification_prediction'] in the bundle, [loss] raises [KeyError]
    for that key after it has stored the weighted RPN dict under
    ['rpn_loss_dict']; no loss has been added to the graph. *)
Theorem loss_missing_classification_prediction `{ST : Stages}
    (self : FasterRCNN) (s : state) (rcnn : RCNN) (rpn_prediction : pyval)
    (raw : list (string * Q)) (a b : Q) :
  _with_rcnn self = true →
  _rcnn self = Some rcnn →
  bundle s !! "rpn_prediction" = Some rpn_prediction →
  rpn_loss (_rpn self) rpn_prediction = Ok raw →
  dict_get raw "rpn_cls_loss" = Some a →
  dict_get raw "rpn_reg_loss" = Some b →
  bundle s !! "classification_prediction" = None →
  ∃ s',
    loss self s = (Raise (KeyError "classification_prediction"), s') ∧
    bundle s'
    = <["rpn_loss_dict" :=
          VLosses (dict_set
                     (dict_set raw "rpn_cls_loss"
                        (a * _rpn_cls_loss_weight self)%Q)
                     "rpn_reg_loss" (b * _rpn_reg_loss_weight self)%Q)]>
        (bundle s) ∧
    losses s' = losses s ∧
    summaries s' = summaries s.
Proof.
  intros Hwith Hrcnn Hrp Hraw Ha Hb Hcp.
  pose proof (loss_cases self s) as Hcases.
  rewrite Hrp, Hraw, Ha, Hb in Hcases. cbn zeta in Hcases.
  rewrite Hwith, Hrcnn, Hcp in Hcases.
  eexists. split; [exact Hcases|]. done.
Qed.

(** X14. Failures before the first write leave the state as it was: a
    bundle without ['rpn_prediction'], an exception of the RPN's loss
    function, or an RPN loss dict without one of its two terms. *)
Theorem loss_early_failures_keep_state `{ST : Stages} (self : FasterRCNN)
    (s : state) :
  (bundle s !! "rpn_prediction" = None →
   loss self s = (Raise (KeyError "rpn_prediction"), s)) ∧
  (∀ rpn_prediction e,
     bundle s !! "rpn_prediction" = Some rpn_prediction →
     rpn_loss (_rpn self) rpn_prediction = Raise e →
     loss self s = (Raise e, s)) ∧
  (∀ rpn_prediction raw,
     bundle s !! "rpn_prediction" = Some rpn_prediction →
     rpn_loss (_rpn self) rpn_prediction = Ok raw →
     (dict_get raw "rpn_cls_loss" = None →
      loss self s = (Raise (KeyError "rpn_cls_loss"), s)) ∧
     (is_Some (dict_get raw "rpn_cls_loss") →
      dict_get raw "rpn_reg_loss" = None →
      loss self s = (Raise (KeyError "rpn_reg_loss"), s))).
Proof.
  pose proof (loss_cases self s) as Hcases.
  split; [|split].
  - intros Hrp. by rewrite Hrp in Hcases.
  - intros rp e Hrp Hraw. by rewrite Hrp, Hraw in Hcases.
  - intros rp raw Hrp Hraw. rewrite Hrp, Hraw in Hcases. split.
    + intros Ha. by rewrite Ha in Hcases.
    + intros [a Ha] Hb. by rewrite Ha, Hb in Hcases.
Qed.

(** X15. Whatever the outcome, [loss] only appends to the losses and to
    the summaries, leaves the regularization losses alone, and changes no
    key of the bundle other than ['rpn_loss_dict'] and
    ['rcnn_loss_dict']. *)
Theorem loss_only_appends `{ST : Stages} (self : FasterRCNN) (s : state) :
  let s' := (loss self s).2 in
  losses s `prefix_of` losses s' ∧
  summaries s `prefix_of` summaries s' ∧
  regularization_losses s' = regularization_losses s ∧
  ∀ k, k ≠ "rpn_loss_dict" → k ≠ "rcnn_loss_dict" →
    bundle s' !! k = bundle s !! k.
Proof.
  destruct (loss_outcome self s)
    as [(e' & s1 & Hloss & Hl & Hr & Hs & Hb)
       |(items & bundle' & Hloss & _ & Hkeys)].
  - rewrite Hloss. cbn [snd]. rewrite Hl, Hs.
    repeat split; try done.
    intros k Hk1 Hk2. destruct Hb as [->|[d ->]]; [done|].
    by rewrite lookup_insert_ne.
  - rewrite Hloss.
    destruct (loss_totals (after_loop s items bundle')) as [r s'] eqn:Ht.
    cbn [snd]. apply loss_totals_inv in Ht. destruct r as [total|e].
    + destruct Ht as (nr & rg & _ & _ & _ & ->). cbn.
      split; [by eexists|]. split; [|done].
      rewrite <- app_assoc. by eexists.
    + destruct Ht as [-> _]. cbn.
      split; [by eexists|]. split; [by eexists|]. done.
Qed.

Lemma dict_get_elem_of {V} (d : list (string * V)) (k : string) (v : V) :
  dict_get d k = Some v → (k, v) ∈ d.
Proof.
  induction d as [|[k' v'] d IH]; cbn; [done|].
  case_decide; [intros [= ->]; subst; left|intros Hd; right; auto].
Qed.

Lemma elem_of_dict_set_ne {V} (d : list (string * V)) (k k0 : string)
    (v v0 : V) :
  k ≠ k0 → (k, v) ∈ d → (k, v) ∈ dict_set d k0 v0.
Proof.
  intros Hne. induction d as [|[k' v'] d IH]; cbn; [by intros ?%elem_of_nil|].
  intros [[= <- <-]|Hin]%elem_of_cons.
  - rewrite decide_False by done. left.
  - case_decide; right; auto.
Qed.

(** X16. The three values [loss] logs last, as ['total_loss'],
    ['no_reg_loss'] and ['regularization_loss'], are three sums asked of
    [add_n] one by one: of the losses with the regularization losses (the
    value returned), of the losses alone, and of the regularization
    losses alone, the last being the constant 0.0 when there is none.
    Nothing relates the three values beyond that. *)
Theorem loss_logs_three_sums `{ST : Stages} (self : FasterRCNN)
    (s s' : state) (total : Q) :
  loss self s = (Ok total, s') →
  ∃ (no_reg_loss regularization_loss : Q) logged,
    summaries s'
    = logged ++ [("Losses", "total_loss", total);
                 ("Losses", "no_reg_loss", no_reg_loss);
                 ("Losses", "regularization_loss", regularization_loss)] ∧
    add_n (losses s' ++ regularization_losses s') = Ok total ∧
    add_n (losses s') = Ok no_reg_loss ∧
    (regularization_losses s' = [] → regularization_loss = 0.0%Q) ∧
    (regularization_losses s' ≠ [] →
     add_n (regularization_losses s') = Ok regularization_loss).
Proof.
  intros Hloss.
  destruct (loss_outcome self s)
    as [(e' & s1 & Hfail & _)|(items & bundle' & Hreach & _)];
    [congruence|].
  rewrite Hreach in Hloss.
  apply loss_totals_inv in Hloss as (nr & rg & Hrg & Hnr & Htotal & ->).
  cbn in *. exists nr, rg. eexists.
  split; [reflexivity|]. split; [done|]. split; [done|].
  destruct (regularization_losses s) as [|q l]; cbn in Hrg.
  - split; [intros _; congruence|done].
  - split; [done|by intros _].
Qed.

Lemma loss_logs_three_sums_witness :
  ∃ (total no_reg_loss regularization_loss : Q) (s' : state) logged,
    loss (ST := Sample.stages) (Sample.net false true)
      (Sample.state0 Sample.prediction_dict) = (Ok total, s') ∧
    summaries s'
    = logged ++ [("Losses", "total_loss", total);
                 ("Losses", "no_reg_loss", no_reg_loss);
                 ("Losses", "regularization_loss", regularization_loss)] ∧
    add_n (Stages := Sample.stages) (losses s') = Ok no_reg_loss.
Proof.
  destruct (sample_loss_run false true) as (total & s' & Hrun).
  destruct (loss_logs_three_sums (ST := Sample.stages) _ _ _ _ Hrun)
    as (nr & rg & logged & Hsum & _ & Hnr & _).
  exists total, nr, rg, s', logged.
  split; [exact Hrun|]. split; [exact Hsum|exact Hnr].
Defined.

(** X17. Terms of a stage's loss dict other than the two it weighs are
    not dropped: each enters the losses collection with its raw value
    (weight one) and is logged under its own name. *)
Theorem loss_extra_terms_unweighted `{ST : Stages} (self : FasterRCNN)
    (s s' : state) (total : Q) :
  loss self s = (Ok total, s') →
  ∀ (rpn_prediction : pyval) (raw : list (string * Q)) (k : string) (v : Q),
    bundle s !! "rpn_prediction" = Some rpn_prediction →
    rpn_loss (_rpn self) rpn_prediction = Ok raw →
    dict_get raw k = Some v →
    k ≠ "rpn_cls_loss" → k ≠ "rpn_reg_loss" →
    v ∈ drop (length (losses s)) (losses s') ∧
    ("Losses", k, v) ∈ summaries s'.
Proof.
  intros Hloss rp raw k v Hrp Hraw Hk Hk1 Hk2.
  apply loss_inv in Hloss
    as (rp' & raw' & a & b & rcnn_loss_dict
        & Hrp' & Hraw' & _ & _ & _ & Hlosses & _ & _ & nr & rg & _ & Hsum).
  cbn zeta in *.
  assert (rp' = rp) as -> by congruence.
  assert (raw' = raw) as -> by congruence.
  assert (Hin : (k, v) ∈ dict_set
                  (dict_set raw "rpn_cls_loss"
                     (a * _rpn_cls_loss_weight self)%Q)
                  "rpn_reg_loss" (b * _rpn_reg_loss_weight self)%Q).
  { do 2 (apply elem_of_dict_set_ne; [done|]). by apply dict_get_elem_of. }
  split.
  - rewrite Hlosses, drop_app_length.
    apply (list_elem_of_fmap_2' snd _ (k, v)); [|done].
    apply elem_of_app. by left.
  - rewrite Hsum. apply elem_of_app. right. apply elem_of_app. left.
    apply (list_elem_of_fmap_2' loss_summary _ (k, v)); [|done].
    apply elem_of_app. by left.
Qed.

Lemma loss_extra_terms_unweighted_witness :
  ∃ (total : Q) (s' : state),
    loss (ST := Variant.aux_stages) (Sample.net false false)
      (Sample.state0 Sample.prediction_dict) = (Ok total, s') ∧
    0.5%Q ∈ drop 0 (losses s') ∧
    ("Losses", "rpn_aux_loss", 0.5%Q) ∈ summaries s'.
Proof.
  assert (Hrun : ∃ total s',
    loss (ST := Variant.aux_stages) (Sample.net false false)
      (Sample.state0 Sample.prediction_dict) = (Ok total, s')).
  { eexists _, _.
    eapply (loss_run (ST := Variant.aux_stages) (Sample.net false false)
              (Sample.state0 Sample.prediction_dict)
              Sample.rpn_prediction
              [("rpn_cls_loss", 1.0%Q); ("rpn_aux_loss", 0.5%Q);
               ("rpn_reg_loss", 1.0%Q)]
              1.0%Q 1.0%Q []
              (<["rpn_loss_dict" :=
                   VLosses [("rpn_cls_loss", 1.0 * 1.0);
                            ("rpn_aux_loss", 0.5);
                            ("rpn_reg_loss", 1.0 * 2.0)]%Q]>
                 Sample.prediction_dict));
      [vm_refl|reflexivity|reflexivity|reflexivity|split; reflexivity
      |reflexivity|reflexivity|reflexivity]. }
  destruct Hrun as (total & s' & Hrun).
  exists total, s'. split; [exact Hrun|].
  apply (loss_extra_terms_unweighted (ST := Variant.aux_stages)
           _ _ _ _ Hrun Sample.rpn_prediction
           [("rpn_cls_loss", 1.0%Q); ("rpn_aux_loss", 0.5%Q);
            ("rpn_reg_loss", 1.0%Q)] "rpn_aux_loss" 0.5%Q);
    [vm_refl|reflexivity|reflexivity|discriminate|discriminate].
Defined.

Lemma insert_pair_twice (m : gmap string pyval) (x y : pyval) :
  <["rcnn_loss_dict" := y]>
    (<["rpn_loss_dict" := x]>
      (<["rcnn_loss_dict" := y]> (<["rpn_loss_dict" := x]> m)))
  = <["rcnn_loss_dict" := y]> (<["rpn_loss_dict" := x]> m).
Proof.
  apply map_eq. intros k. rewrite !lookup_insert.
  repeat case_decide; congruence.
Qed.

(** X18. [loss] is not idempotent on the graph: on the state a returning
    call has left, a second call, whether it returns or fails in its
    sums, leaves the bundle as the first call left it and adds the same
    weighted terms to the losses collection again; when it returns, its
    total is what [add_n] makes of the losses with the terms twice. *)
Theorem loss_twice_accumulates `{ST : Stages} (self : FasterRCNN)
    (s s1 : state) (total1 : Q) :
  loss self s = (Ok total1, s1) →
  let added := drop (length (losses s)) (losses s1) in
  let again := loss self s1 in
  losses s1 = losses s ++ added ∧
  bundle again.2 = bundle s1 ∧
  losses again.2 = losses s ++ added ++ added ∧
  regularization_losses again.2 = regularization_losses s ∧
  (∀ total2 : Q,
     again.1 = Ok total2 →
     add_n (losses s ++ added ++ added ++ regularization_losses s)
     = Ok total2).
Proof.
  intros Hloss.
  apply loss_inv in Hloss
    as (rp & raw & a & b & rcnn_loss_dict
        & Hrp & Hraw & Ha & Hb & Hrcnn & Hlosses & Hregs & Htotal1 & _).
  cbn zeta in *.
  set (rpn_loss_dict := dict_set (dict_set raw _ _) _ _) in *.
  assert (Hrp1 : bundle s1 !! "rpn_prediction" = Some rp).
  { destruct (_with_rcnn self).
    - destruct Hrcnn as (? & ? & ? & ? & ? & _ & _ & _ & _ & _ & _ & ->).
      by rewrite !lookup_insert_ne.
    - destruct Hrcnn as [_ ->]. by rewrite lookup_insert_ne. }
  assert (Hreach : loss self s1
            = loss_totals
                (after_loop s1 (rpn_loss_dict ++ rcnn_loss_dict)
                   (bundle s1))).
  { apply (loss_reaches_totals self s1 rp raw a b rcnn_loss_dict
             (bundle s1) Hrp1 Hraw Ha Hb).
    fold rpn_loss_dict. destruct (_with_rcnn self).
    - destruct Hrcnn as (rcnn & cp & raw2 & c & d
                         & Hr & Hcp & Hraw2 & Hc & Hd & Hdict & Hbundle).
      exists rcnn, cp, raw2, c, d. split; [done|].
      split; [by rewrite Hbundle, !lookup_insert_ne|].
      do 4 (split; [done|]).
      by rewrite Hbundle, insert_pair_twice.
    - destruct Hrcnn as [Hnil Hbundle]. split; [done|].
      by rewrite Hbundle, insert_insert_eq. }
  rewrite Hlosses, drop_app_length. split; [done|].
  rewrite Hreach.
  destruct (loss_totals
              (after_loop s1 (rpn_loss_dict ++ rcnn_loss_dict) (bundle s1)))
    as [r s2] eqn:Ht.
  cbn [fst snd]. apply loss_totals_inv in Ht. destruct r as [total2|e].
  - destruct Ht as (nr & rg & _ & _ & Htotal2 & ->). cbn in *.
    rewrite Hlosses, Hregs, <- !app_assoc in *. repeat split; try done.
    intros t [= <-]. done.
  - destruct Ht as [-> _]. cbn.
    rewrite Hlosses, Hregs, <- !app_assoc. repeat split; try done.
Qed.

Lemma loss_twice_accumulates_witness :
  ∃ (total1 : Q) (s1 : state),
    loss (ST := Sample.stages) (Sample.net false true)
      (Sample.state0 Sample.prediction_dict) = (Ok total1, s1) ∧
    losses (loss (ST := Sample.stages) (Sample.net false true) s1).2
    = [] ++ drop 0 (losses s1) ++ drop 0 (losses s1).
Proof.
  destruct (sample_loss_run false true) as (total1 & s1 & Hrun).
  destruct (loss_twice_accumulates (ST := Sample.stages) _ _ _ _ Hrun)
    as (_ & _ & Htwice & _).
  exists total1, s1. split; [exact Hrun|exact Htwice].
Defined.

(** ** Witnesses of the forward-pass and failure properties *)

Lemma sample_build_debug :
  _build (ST := Sample.stages) (Sample.net true false) Sample.image
    Sample.gt_boxes true
  = Ok (with_debug (Sample.net true false) Sample.image Sample.gt_boxes
          {[ "net" := VTensor Sample.feature_map ]}
          [[-8; -8; 7; 7]; [-16; -16; 15; 15];
           [8; -8; 23; 7]; [0; -16; 31; 15];
           [24; -8; 39; 7]; [16; -16; 47; 15];
           [-8; 8; 7; 23]; [-16; 0; 15; 31];
           [8; 8; 23; 23]; [0; 0; 31; 31];
           [24; 8; 39; 23]; [16; 0; 47; 31]]%Z
          {[ "rpn_prediction" := Sample.rpn_prediction ]}).
Proof. vm_refl. Qed.

Lemma build_debug_values_witness :
  ∃ d,
    _build (ST := Sample.stages) (Sample.net true false) Sample.image
      Sample.gt_boxes true = Ok d ∧
    d !! "image" = Some (VTensor Sample.image) ∧
    d !! "gt_boxes" = Some (VTensor Sample.gt_boxes) ∧
    d !! "image_shape" = Some (VShape [32; 48]).
Proof.
  eexists. split; [exact sample_build_debug|].
  destruct (build_debug_values (ST := Sample.stages) _ _ _ _ _
              sample_build_debug eq_refl) as (Himage & Hgt & Hshape & _).
  split; [exact Himage|]. split; [exact Hgt|exact Hshape].
Defined.

Lemma build_key_set_witness :
  dom Sample.prediction_dict
  = ({[ "rpn_prediction" ]} ∪ ∅ ∪ {[ "classification_prediction" ]} ∪ ∅
     : gset string).
Proof.
  exact (build_key_set (ST := Sample.stages) _ _ _ _ _ sample_build).
Defined.

Lemma build_returns_iff_head_off_witness :
  is_Ok (_build (ST := Sample.stages) (Sample.net false false) Sample.image
           Sample.gt_boxes true).
Proof.
  apply (build_returns_iff_head_off (ST := Sample.stages)
           (Sample.net false false) Sample.image Sample.gt_boxes true
           eq_refl).
  exists {[ "net" := VTensor Sample.feature_map ]}, Sample.feature_map.
  eexists. split; [reflexivity|]. split; [vm_refl|].
  split; [cbn; lia|]. split; [exact sample_anchors|].
  eexists. reflexivity.
Defined.

(** With a summation that refuses its inputs, [loss] fails after its
    loop: the four weighted terms are in the losses collection. *)
Example sample_loss_mixed_dtypes :
  loss (ST := Variant.mixed_stages) (Sample.net false true)
    (Sample.state0 Sample.prediction_dict)
  = (Raise (TypeError "inputs of AddN have types that do not match"),
     after_loop (Sample.state0 Sample.prediction_dict)
       [("rpn_cls_loss", 1.0 * 1.0); ("rpn_reg_loss", 1.0 * 2.0);
        ("rcnn_cls_loss", 1.0 * 1.0); ("rcnn_reg_loss", 1.0 * 2.0)]%Q
       (<["rcnn_loss_dict" :=
            VLosses [("rcnn_cls_loss", 1.0 * 1.0);
                     ("rcnn_reg_loss", 1.0 * 2.0)]%Q]>
          (<["rpn_loss_dict" :=
               VLosses [("rpn_cls_loss", 1.0 * 1.0);
                        ("rpn_reg_loss", 1.0 * 2.0)]%Q]>
             Sample.prediction_dict))).
Proof. vm_refl. Qed.

Lemma loss_failure_states_witness :
  ∃ s',
    loss (ST := Variant.mixed_stages) (Sample.net false true)
      (Sample.state0 Sample.prediction_dict)
    = (Raise (TypeError "inputs of AddN have types that do not match"), s') ∧
    length (losses s') = 4 ∧
    regularization_losses s' = [].
Proof.
  eexists. split; [exact sample_loss_mixed_dtypes|].
  split; [reflexivity|].
  exact (proj1 (loss_failure_states (ST := Variant.mixed_stages) _ _ _ _
                  sample_loss_mixed_dtypes)).
Defined.

Lemma loss_missing_classification_prediction_witness :
  ∃ s',
    loss (ST := Sample.stages) (Sample.net false true)
      (Sample.state0 {[ "rpn_prediction" := Sample.rpn_prediction ]})
    = (Raise (KeyError "classification_prediction"), s') ∧
    losses s' = [].
Proof.
  destruct (loss_missing_classification_prediction (ST := Sample.stages)
              (Sample.net false true)
              (Sample.state0 {[ "rpn_prediction" := Sample.rpn_prediction ]})
              {| rcnn_num_classes := Some 20; rcnn_debug := false |}
              Sample.rpn_prediction
              [("rpn_cls_loss", 1.0%Q); ("rpn_reg_loss", 1.0%Q)]
              1.0%Q 1.0%Q)
    as (s' & Hfail & _ & Hlosses & _);
    [reflexivity|reflexivity|vm_refl|reflexivity|reflexivity|reflexivity
    |vm_refl|].
  exists s'. split; [exact Hfail|exact Hlosses].
Defined.

(** ** Construction and forward pass together *)

(** X11. An orchestrator built by [__init__] never fails on its own
    attributes: when its forward pass raises, the exception comes out of
    a stage, or it is the [KeyError] for ['net'], the [TypeError] for a
    ['net'] that is no tensor, the [ValueError] for a ['net'] of rank
    below 3, or, with the classification head only, the [KeyError] for
    ['proposals'] or ['roi_pool']. *)
Theorem constructed_build_raises_only `{AR : AnchorReference}
    `{ST : Stages} (config : config) (debug with_rcnn : bool)
    (num_classes : option nat) (pretrained_type name : string)
    (self : FasterRCNN) (image gt_boxes : tensor) (is_training : bool)
    (e : exception) :
  __init__ config debug with_rcnn num_classes pretrained_type name
    = Ok self →
  _build self image gt_boxes is_training = Raise e →
  raised_by_stage e ∨
  e = KeyError "net" ∨
  e = TypeError "expected a tensor" ∨
  e = ValueError "slice index out of bounds" ∨
  (with_rcnn = true ∧ (e = KeyError "proposals" ∨ e = KeyError "roi_pool")).
Proof.
  intros (_ & _ & _ & Hroi & Hrcnn & Hwith & _)%init_modules Hfail.
  apply build_Raise_inv in Hfail
    as [?|[?|[?|[?|[Hon [?|[?|[[Hnone _]|[Hnone _]]]]]]]]]; auto;
    rewrite Hwith in Hon; subst with_rcnn;
    try (do 4 right; split; [done|]; auto; fail);
    rewrite Hon in Hroi, Hrcnn; congruence.
Qed.

Lemma constructed_build_raises_only_witness :
  _build (ST := Variant.bare_stages) (Sample.net false true) Sample.image
    Sample.gt_boxes true = Raise (KeyError "net") ∧
  (raised_by_stage (ST := Variant.bare_stages) (KeyError "net") ∨
   KeyError "net" = KeyError "net" ∨
   KeyError "net" = TypeError "expected a tensor" ∨
   KeyError "net" = ValueError "slice index out of bounds" ∨
   (true = true ∧
    (KeyError "net" = KeyError "proposals" ∨
     KeyError "net" = KeyError "roi_pool"))).
Proof.
  assert (Hfail : _build (ST := Variant.bare_stages) (Sample.net false true)
                    Sample.image Sample.gt_boxes true
                  = Raise (KeyError "net")) by vm_refl.
  split; [exact Hfail|].
  exact (constructed_build_raises_only (AR := Sample.reference)
           (ST := Variant.bare_stages) _ _ _ _ _ _ _ _ _ _ _
           sample_init Hfail).
Defined.

(** X19. The RPN is built for as many anchors per cell as
    [_generate_anchors] produces: on a feature map of spatial shape
    (H, W) a constructed orchestrator generates H * W times the RPN's
    anchor count. *)
Theorem constructed_rpn_anchor_count `{AR : AnchorReference}
    (config : config) (debug with_rcnn : bool)
    (num_classes : option nat) (pretrained_type name : string)
    (self : FasterRCNN) (n H W : nat) (rest : list nat) (data : list Q) :
  __init__ config debug with_rcnn num_classes pretrained_type name
    = Ok self →
  ∃ all_anchors,
    _generate_anchors self (Tensor (n :: H :: W :: rest) data)
      = Ok all_anchors ∧
    length all_anchors = H * W * rpn_num_anchors (_rpn self) ∧
    rpn_num_anchors (_rpn self) = _num_anchors self.
Proof.
  intros (Hnum & Hrpn & _)%init_modules.
  eexists. split; [apply generate_anchors_rank3|].
  rewrite length_grid_anchors, length_grid_points, Hrpn, Hnum. done.
Qed.

Lemma constructed_rpn_anchor_count_witness :
  ∃ all_anchors,
    _generate_anchors (Sample.net false true) Sample.feature_map
      = Ok all_anchors ∧
    length all_anchors = 2 * 3 * 2.
Proof.
  destruct (constructed_rpn_anchor_count (AR := Sample.reference)
              _ _ _ _ _ _ _ 1 2 3 [8] [] sample_init)
    as (all_anchors & Hgen & Hlen & _).
  exists all_anchors. split; [exact Hgen|exact Hlen].
Defined.

(** ** Summary *)

Lemma summary_eval (self : FasterRCNN) (s : state) :
  summary self s
  = (match nonempty (collected "Losses" s), nonempty (collected "RPN" s),
           (if _with_rcnn self then nonempty (collected "RCNN" s)
            else Some []) with
     | Some l, Some r, Some c => Ok (l ++ r ++ c)
     | _, _, _ => Raise (TypeError "inputs of MergeSummary are invalid")
     end, s).
Proof.
  unfold summary, merge_all, merge, lift, mbind, stateful_bind, mret,
    stateful_ret, nonempty, collected.
  destruct (_with_rcnn self);
    repeat
      match goal with
      | |- context [filter ?P ?l] => destruct (filter P l)
      end;
    cbn; by rewrite ?app_nil_r.
Qed.

Lemma nonempty_Some (m m' : merged) :
  nonempty m = Some m' ↔ m ≠ [] ∧ m' = m.
Proof.
  destruct m; cbn; split; try done.
  - by intros [? _].
  - by intros [= <-].
  - by intros [_ ->].
Qed.

Lemma nonempty_None (m : merged) : nonempty m = None ↔ m = [].
Proof. by destruct m. Qed.

Lemma summary_outcome_aux (self : FasterRCNN) (s : state) (m : merged) :
  collected "Losses" s ≠ [] ∧
  collected "RPN" s ≠ [] ∧
  (_with_rcnn self = true → collected "RCNN" s ≠ []) ∧
  m = collected "Losses" s ++ collected "RPN" s
      ++ (if _with_rcnn self then collected "RCNN" s else []) →
  summary self s = (Ok m, s).
Proof.
  intros (Hl & Hr & Hc & ->). rewrite summary_eval.
  destruct (collected "Losses" s) eqn:El; [done|].
  destruct (collected "RPN" s) eqn:Er; [done|].
  destruct (_with_rcnn self); [|done].
  destruct (collected "RCNN" s) eqn:Ec; [by destruct Hc|done].
Qed.

(** X20. [summary] reads the graph and does not change it.  It returns
    exactly when the 'Losses' and 'RPN' collections, and with the
    classification head the 'RCNN' collection, each hold a summary; the
    result then merges those collections in that order and nothing else.
    When one of them is empty [merge_all] yields [None] and the final
    merge raises [TypeError]. *)
Theorem summary_outcome (self : FasterRCNN) (s : state) :
  (∀ (m : merged) (s' : state),
     summary self s = (Ok m, s') ↔
     s' = s ∧
     collected "Losses" s ≠ [] ∧
     collected "RPN" s ≠ [] ∧
     (_with_rcnn self = true → collected "RCNN" s ≠ []) ∧
     m = collected "Losses" s ++ collected "RPN" s
         ++ (if _with_rcnn self then collected "RCNN" s else [])) ∧
  ((∃ msg, summary self s = (Raise (TypeError msg), s)) ↔
   collected "Losses" s = [] ∨
   collected "RPN" s = [] ∨
   (_with_rcnn self = true ∧ collected "RCNN" s = [])).
Proof.
  rewrite summary_eval.
  destruct (nonempty (collected "Losses" s)) as [l|] eqn:Hl;
    [apply nonempty_Some in Hl as [Hl ->]|apply nonempty_None in Hl].
  2:{ split.
      - intros m s'. split; [done|]. by intros (_ & ? & _).
      - split; [auto|]. intros _. by eexists. }
  destruct (nonempty (collected "RPN" s)) as [r|] eqn:Hr;
    [apply nonempty_Some in Hr as [Hr ->]|apply nonempty_None in Hr].
  2:{ split.
      - intros m s'. split; [done|]. by intros (_ & _ & ? & _).
      - split; [auto|]. intros _. by eexists. }
  destruct (_with_rcnn self).
  - destruct (nonempty (collected "RCNN" s)) as [c|] eqn:Hc;
      [apply nonempty_Some in Hc as [Hc ->]|apply nonempty_None in Hc].
    + split.
      * intros m s'. split.
        -- intros [= <- <-]. by repeat split.
        -- intros (-> & _ & _ & _ & ->). done.
      * split; [by intros [msg ?]|]. intros [?|[?|[_ ?]]]; done.
    + split.
      * intros m s'. split; [done|]. intros (_ & _ & _ & Hne & _).
        by destruct Hne.
      * split; [auto|]. intros _. by eexists.
  - split.
    + intros m s'. split.
      * intros [= <- <-]. by repeat split.
      * intros (-> & _ & _ & _ & ->). done.
    + split; [by intros [msg ?]|]. intros [?|[?|[? _]]]; done.
Qed.

Lemma filter_loss_summary (key : string) (items : list (string * Q)) :
  filter (λ e : string * string * Q, e.1.1 = key) (loss_summary <$> items)
  = if decide (key = "Losses") then loss_summary <$> items else [].
Proof.
  induction items as [|item items IH]; [by case_decide|].
  cbn [fmap list_fmap]. rewrite filter_cons. cbn [loss_summary fst].
  fold (loss_summary <$> items). rewrite IH.
  repeat case_decide; congruence.
Qed.

(** X21. After a returning [loss] the 'Losses' collection is never
    empty: if the graph holds a summary of the RPN (and one of the RCNN
    when the classification head is on), [summary] returns, and what it
    merges includes the total that [loss] returned, logged as
    ['total_loss'], besides every stage summary the graph held. *)
Theorem summary_after_loss `{ST : Stages} (self : FasterRCNN)
    (s s1 : state) (total : Q) :
  loss self s = (Ok total, s1) →
  collected "RPN" s ≠ [] →
  (_with_rcnn self = true → collected "RCNN" s ≠ []) →
  ∃ m : merged,
    summary self s1 = (Ok m, s1) ∧
    ("Losses", "total_loss", total) ∈ m ∧
    (∀ e, e ∈ collected "RPN" s → e ∈ m) ∧
    (_with_rcnn self = true → ∀ e, e ∈ collected "RCNN" s → e ∈ m).
Proof.
  intros Hloss Hrpn Hrcnn.
  apply loss_inv in Hloss
    as (rp & raw & a & b & rcnn_loss_dict
        & _ & _ & _ & _ & _ & _ & _ & _ & nr & rg & _ & Hsum).
  cbn zeta in Hsum.
  assert (Hcol : ∀ key,
    collected key s1
    = collected key s
      ++ (if decide (key = "Losses") then
            filter (λ e : string * string * Q, e.1.1 = key)
              (drop (length (summaries s)) (summaries s1))
          else [])).
  { intros key. unfold collected. rewrite Hsum, drop_app_length.
    destruct (decide (key = "Losses")) as [->|Hkey].
    - by rewrite !filter_app.
    - rewrite !filter_app, filter_loss_summary, decide_False by done.
      rewrite !filter_cons_False, filter_nil by (cbn; congruence).
      by rewrite !app_nil_r. }
  assert (Hlosses : ("Losses", "total_loss", total) ∈ collected "Losses" s1).
  { unfold collected. rewrite Hsum. apply list_elem_of_filter. split; [done|].
    rewrite !elem_of_app, !elem_of_cons. auto. }
  pose proof (Hcol "RPN") as Hrpn1. rewrite decide_False, app_nil_r in Hrpn1
    by done.
  pose proof (Hcol "RCNN") as Hrcnn1.
  rewrite decide_False, app_nil_r in Hrcnn1 by done.
  eexists. split.
  - apply summary_outcome_aux.
    split; [by intros Hnil; rewrite Hnil in Hlosses; apply elem_of_nil in Hlosses|].
    split; [by rewrite Hrpn1|]. split; [|reflexivity].
    rewrite Hrcnn1. exact Hrcnn.
  - rewrite Hrpn1, Hrcnn1. split; [|split].
    + apply elem_of_app. by left.
    + intros e He. rewrite !elem_of_app. auto.
    + intros Hon e He. rewrite Hon, !elem_of_app. auto.
Qed.

Lemma summary_after_loss_witness :
  ∃ (total : Q) (s1 : state) (m : merged),
    loss (ST := Sample.stages) (Sample.net false true)
      (Variant.logged_state Sample.prediction_dict) = (Ok total, s1) ∧
    summary (Sample.net false true) s1 = (Ok m, s1) ∧
    ("Losses", "total_loss", total) ∈ m.
Proof.
  assert (Hrun : ∃ total s1,
    loss (ST := Sample.stages) (Sample.net false true)
      (Variant.logged_state Sample.prediction_dict) = (Ok total, s1)).
  { eexists _, _.
    eapply (loss_run (ST := Sample.stages) (Sample.net false true)
              (Variant.logged_state Sample.prediction_dict)
              Sample.rpn_prediction
              [("rpn_cls_loss", 1.0%Q); ("rpn_reg_loss", 1.0%Q)]
              1.0%Q 1.0%Q
              [("rcnn_cls_loss", 1.0 * 1.0); ("rcnn_reg_loss", 1.0 * 2.0)]%Q
              (<["rcnn_loss_dict" :=
                   VLosses [("rcnn_cls_loss", 1.0 * 1.0);
                            ("rcnn_reg_loss", 1.0 * 2.0)]%Q]>
                 (<["rpn_loss_dict" :=
                      VLosses [("rpn_cls_loss", 1.0 * 1.0);
                               ("rpn_reg_loss", 1.0 * 2.0)]%Q]>
                    Sample.prediction_dict)));
      [vm_refl|reflexivity|reflexivity|reflexivity| |reflexivity
      |reflexivity|reflexivity].
    eexists _, Sample.classification_prediction, _, 1.0%Q, 1.0%Q.
    split; [reflexivity|]. split; [vm_refl|].
    split; [reflexivity|]. repeat split; reflexivity. }
  destruct Hrun as (total & s1 & Hrun).
  destruct (summary_after_loss (ST := Sample.stages) _ _ _ _ Hrun)
    as (m & Hsummary & Hin & _).
  - discriminate.
  - intros _. discriminate.
  - exists total, s1, m.
    split; [exact Hrun|]. split; [exact Hsummary|exact Hin].
Defined.
